(** * Retail dashboard backend: the in-memory table, its filters and its
      aggregates

    A shallow embedding of [backend/main.py].  The program keeps one pandas
    [DataFrame] in [app.state.data]; every endpoint reads it, two of them
    work on a [.copy()] of it, and [add_column] assigns into it in place.

    Conventions of the embedding:
    - a cell of the table is a [cell]: a number, a string, a timestamp, the
      missing timestamp [CNaT] or the missing value [CNaN];
    - numbers are exact rationals ([Qc]); the rounding of binary floating
      point is not modelled;
    - a [DataFrame] is its ordered column labels and its rows in stored order,
      a row being a finite map from column label to cell;
    - frames that the program mutates or shares live in a heap and are named
      by a location; frames and series that are only read after they are
      built are carried as values;
    - a Python exception is a [Raise]; a [try ... except Exception] block is
      [try_except]. *)

From Stdlib Require Import QArith Qcanon Ascii String.
From Stdlib Require Import Sorting.Sorted.
From stdpp Require Import base option list gmap strings numbers pretty.

Local Open Scope Z_scope.

(** ** Numbers *)

Definition Qc_of_Z (z : Z) : Qc := Q2Qc (inject_Z z).
Definition Qc_of_nat (n : nat) : Qc := Qc_of_Z (Z.of_nat n).

Definition Qc_leb (x y : Qc) : bool := bool_decide (x ≤ y)%Qc.

(** Python's [int(x)] on a float: truncation toward zero. *)
Definition py_int (q : Qc) : Z := Z.quot (Qnum q) (Zpos (Qden q)).

(** [round(2)]: nearest multiple of 1/100, ties to the even one. *)
Definition round2 (q : Qc) : Qc :=
  let n := Qnum (q * Qc_of_Z 100)%Qc in
  let d := Zpos (Qden (q * Qc_of_Z 100)%Qc) in
  let f := n / d in
  let r := 2 * (n - f * d) in
  let k := if r <? d then f
           else if d <? r then f + 1
           else if Z.even f then f else f + 1 in
  (Qc_of_Z k / Qc_of_Z 100)%Qc.

Fixpoint Qc_sum (l : list Qc) : Qc :=
  match l with
  | [] => 0%Qc
  | q :: l' => (q + Qc_sum l')%Qc
  end.

(** ** Timestamps *)

Record Timestamp := mkTimestamp {
  ts_year : Z;
  ts_month : Z;
  ts_day : Z;
  ts_nanos : Z  (* nanoseconds since midnight *)
}.

#[global] Instance Timestamp_eq_dec : EqDecision Timestamp.
Proof. solve_decision. Defined.

Definition ts_compare (a b : Timestamp) : comparison :=
  match ts_year a ?= ts_year b with
  | Eq =>
      match ts_month a ?= ts_month b with
      | Eq =>
          match ts_day a ?= ts_day b with
          | Eq => ts_nanos a ?= ts_nanos b
          | c => c
          end
      | c => c
      end
  | c => c
  end.

Definition ts_leb (a b : Timestamp) : bool :=
  match ts_compare a b with Gt => false | _ => true end.

(** ** Cells, rows and frames *)

Inductive cell :=
  | CNum (q : Qc)
  | CStr (s : string)
  | CTime (t : Timestamp)
  | CNaT
  | CNaN.

#[global] Instance cell_eq_dec : EqDecision cell.
Proof. solve_decision. Defined.

(** [pd.isna] *)
Definition isna (c : cell) : bool :=
  match c with
  | CNaT | CNaN => true
  | _ => false
  end.

Record DataFrame := mkDataFrame {
  columns : list string;
  rows : list (gmap string cell)
}.

(** [pd.DataFrame()] *)
Definition empty_frame : DataFrame := mkDataFrame [] [].

(** A record of [to_dict(orient="records")]: the cells of one row in column
    order. *)
Definition record := list (string * cell).

Definition row_to_record (cols : list string) (r : gmap string cell) : record :=
  omap (fun c => pair c <$> r !! c) cols.

Definition to_dict_records (df : DataFrame) : list record :=
  row_to_record (columns df) <$> rows df.

(** ** Exceptions and the two monads *)

Inductive exn :=
  | KeyError (key : string)
  | TypeError
  | OverflowError
  | AttributeError
  | HTTPException (status_code : Z).

Inductive result (A : Type) :=
  | Ok (a : A)
  | Raise (e : exn).
Arguments Ok {A} a.
Arguments Raise {A} e.

#[global] Instance result_ret : MRet result := fun _ a => Ok a.
#[global] Instance result_bind : MBind result := fun _ _ f m =>
  match m with
  | Ok a => f a
  | Raise e => Raise e
  end.

(** The process state: the heap of frames and the binding of
    [app.state.data]. *)
Record World := mkWorld {
  heap : gmap nat DataFrame;
  app_state_data : nat
}.

Definition M (A : Type) : Type := World -> result A * World.

#[global] Instance M_ret : MRet M := fun _ a w => (Ok a, w).
#[global] Instance M_bind : MBind M := fun _ _ f m w =>
  match m w with
  | (Ok a, w') => f a w'
  | (Raise e, w') => (Raise e, w')
  end.

Definition lift {A} (r : result A) : M A := fun w => (r, w).
Definition raise {A} (e : exn) : M A := fun w => (Raise e, w).

(** [try: body except Exception as e: handler] *)
Definition try_except {A} (body : M A) (handler : exn -> M A) : M A := fun w =>
  match body w with
  | (Ok a, w') => (Ok a, w')
  | (Raise e, w') => handler e w'
  end.

(** Reading the name [app.state.data]. *)
Definition get_app_state_data : M nat := fun w => (Ok (app_state_data w), w).

(** [app.state.data = l] *)
Definition set_app_state_data (l : nat) : M unit := fun w =>
  (Ok tt, mkWorld (heap w) l).

(** A new object. *)
Definition alloc (df : DataFrame) : M nat := fun w =>
  let l := fresh (dom (heap w)) in
  (Ok l, mkWorld (<[l := df]> (heap w)) (app_state_data w)).

(** The frame an object currently holds. *)
Definition deref (l : nat) : M DataFrame := fun w =>
  match heap w !! l with
  | Some df => (Ok df, w)
  | None => (Raise AttributeError, w)
  end.

(** In-place update of an object. *)
Definition modify (l : nat) (f : DataFrame -> DataFrame) : M unit := fun w =>
  match heap w !! l with
  | Some df => (Ok tt, mkWorld (<[l := f df]> (heap w)) (app_state_data w))
  | None => (Raise AttributeError, w)
  end.

(** ** pandas primitives *)

(** [name in df.columns] *)
Definition has_column (name : string) (df : DataFrame) : bool :=
  bool_decide (name ∈ columns df).

(** The cell of a row under a label. *)
Definition cell_at (name : string) (r : gmap string cell) : cell :=
  default CNaN (r !! name).

Definition column_values (name : string) (df : DataFrame) : list cell :=
  cell_at name <$> rows df.

(** [df[name]] as a series, in row order. *)
Definition getitem (name : string) (df : DataFrame) : result (list cell) :=
  if has_column name df
  then Ok (column_values name df)
  else Raise (KeyError name).

Definition add_label (name : string) (cols : list string) : list string :=
  if bool_decide (name ∈ cols) then cols else cols ++ [name].

(** [df[name] = v] with a scalar [v]: broadcast to every row; a new label is
    appended after the existing ones. *)
Definition setitem_scalar (name : string) (v : cell) (df : DataFrame) : DataFrame :=
  mkDataFrame (add_label name (columns df)) (<[name := v]> <$> rows df).

(** [df[name] = series], the series being aligned with the rows. *)
Definition setitem_series (name : string) (vs : list cell) (df : DataFrame) : DataFrame :=
  mkDataFrame (add_label name (columns df))
              (zip_with (fun r v => <[name := v]> r) (rows df) vs).

(** [df[mask]] with a boolean series. *)
Fixpoint select_mask {A} (l : list A) (mask : list bool) : list A :=
  match l, mask with
  | x :: l', b :: mask' => if b then x :: select_mask l' mask' else select_mask l' mask'
  | _, _ => []
  end.

Definition getitem_mask (mask : list bool) (df : DataFrame) : DataFrame :=
  mkDataFrame (columns df) (select_mask (rows df) mask).

(** A slice bound as Python adjusts it for a sequence of length [len]: a
    negative bound counts from the end, and the result is clipped to
    [0 .. len]. *)
Definition slice_index (len i : Z) : Z :=
  if i <? 0 then Z.max 0 (i + len) else Z.min i len.

(** [l[start:stop]] *)
Definition py_slice {A} (start stop : Z) (l : list A) : list A :=
  let len := Z.of_nat (length l) in
  let a := slice_index len start in
  let b := slice_index len stop in
  take (Z.to_nat (b - a)) (drop (Z.to_nat a) l).

(** [df.iloc[start:stop]] *)
Definition iloc (start stop : Z) (df : DataFrame) : DataFrame :=
  mkDataFrame (columns df) (py_slice start stop (rows df)).

(** [df.fillna('')]: every missing value becomes the empty string; a missing
    timestamp stays the missing timestamp, the column keeping its type. *)
Definition fillna_cell (c : cell) : cell :=
  match c with
  | CNaN => CStr ""
  | _ => c
  end.

Definition fillna_empty (df : DataFrame) : DataFrame :=
  mkDataFrame (columns df) ((fun r : gmap string cell => fillna_cell <$> r) <$> rows df).

(** ** Parsing text cells *)

Definition digit_value (a : ascii) : option Z :=
  let n := Z.of_N (N_of_ascii a) in
  if (48 <=? n) && (n <=? 57) then Some (n - 48) else None.

(** The value of a string of decimal digits, most significant first. *)
Fixpoint digits_value (acc : Z) (s : string) : option Z :=
  match s with
  | EmptyString => Some acc
  | String a s' =>
      match digit_value a with
      | Some d => digits_value (10 * acc + d) s'
      | None => None
      end
  end.

(** A field of between [lo] and [hi] decimal digits. *)
Definition parse_digits (lo hi : nat) (s : string) : option Z :=
  if bool_decide (lo ≤ String.length s ≤ hi)%nat then digits_value 0 s else None.

(** [s.split(sep)] *)
Fixpoint split_on (sep : ascii) (s : string) : list string :=
  match s with
  | EmptyString => [EmptyString]
  | String a s' =>
      if bool_decide (a = sep) then EmptyString :: split_on sep s'
      else match split_on sep s' with
           | f :: fs => String a f :: fs
           | [] => [String a EmptyString]
           end
  end.

Definition is_leap (y : Z) : bool :=
  ((y mod 4 =? 0) && negb (y mod 100 =? 0)) || (y mod 400 =? 0).

Definition days_in_month (y m : Z) : Z :=
  if m =? 2 then (if is_leap y then 29 else 28)
  else if (m =? 4) || (m =? 6) || (m =? 9) || (m =? 11) then 30
  else 31.

(** The days a nanosecond-resolution timestamp can hold at midnight:
    1677-09-22 to 2262-04-11. *)
Definition in_ns_bounds (t : Timestamp) : bool :=
  ts_leb (mkTimestamp 1677 9 22 0) t && ts_leb t (mkTimestamp 2262 4 11 0).

Definition make_date (y m d : Z) : option Timestamp :=
  if (1 <=? m) && (m <=? 12) && (1 <=? d) && (d <=? days_in_month y m)
     && in_ns_bounds (mkTimestamp y m d 0)
  then Some (mkTimestamp y m d 0)
  else None.

(** Parsing under the fixed format ['%d/%m/%Y']: day, month and four-digit
    year separated by slashes.  [None] is a parse failure. *)
Definition strptime_dmy (s : string) : option Timestamp :=
  match split_on "/" s with
  | [d; m; y] =>
      d ← parse_digits 1 2 d;
      m ← parse_digits 1 2 m;
      y ← parse_digits 4 4 y;
      make_date y m d
  | _ => None
  end.

(** Parsing without a format, as [pd.to_datetime(text)] does it, on the
    all-numeric shapes: ISO [year-month-day], and [a/b/year], which is read
    month first and day first only when month first is not a date.  Other
    shapes (month names, times of day, time zones) are outside this model and
    are read as failures. *)
Definition parse_datetime_guess (s : string) : option Timestamp :=
  match split_on "-" s with
  | [y; m; d] =>
      y ← parse_digits 4 4 y;
      m ← parse_digits 1 2 m;
      d ← parse_digits 1 2 d;
      make_date y m d
  | _ =>
      match split_on "/" s with
      | [a; b; y] =>
          a ← parse_digits 1 2 a;
          b ← parse_digits 1 2 b;
          y ← parse_digits 4 4 y;
          match make_date y a b with
          | Some t => Some t
          | None => make_date y b a
          end
      | _ => None
      end
  end.

(** The number a plain decimal numeral denotes: optional sign, digits, and an
    optional fraction.  Exponents and the special floats are outside this
    model and are read as failures. *)
Definition parse_unsigned_decimal (s : string) : option Qc :=
  match split_on "." s with
  | [i] => Qc_of_Z <$> parse_digits 1 400 i
  | [i; f] =>
      if bool_decide (String.length i + String.length f = 0)%nat then None
      else
        i ← digits_value 0 i;
        f' ← digits_value 0 f;
        Some (Qc_of_Z i + Qc_of_Z f' / Qc_of_Z (10 ^ Z.of_nat (String.length f)))%Qc
  | _ => None
  end.

Definition parse_decimal (s : string) : option Qc :=
  match s with
  | String "-" s' => Qcopp <$> parse_unsigned_decimal s'
  | String "+" s' => parse_unsigned_decimal s'
  | _ => parse_unsigned_decimal s
  end.

(** [pd.to_datetime(series, format='%d/%m/%Y', errors='coerce')], per cell. *)
Definition to_datetime_dmy (c : cell) : cell :=
  match c with
  | CStr s => match strptime_dmy s with Some t => CTime t | None => CNaT end
  | CTime t => CTime t
  | _ => CNaT
  end.

(** [pd.to_datetime(series, errors='coerce')], per cell. *)
Definition to_datetime_coerce (c : cell) : cell :=
  match c with
  | CStr s => match parse_datetime_guess s with Some t => CTime t | None => CNaT end
  | CTime t => CTime t
  | _ => CNaT
  end.

(** [pd.to_numeric(series, errors='coerce')], per cell. *)
Definition to_numeric (c : cell) : cell :=
  match c with
  | CNum q => CNum q
  | CStr s => match parse_decimal s with Some q => CNum q | None => CNaN end
  | _ => CNaN
  end.

(** [series.fillna(0)], per cell. *)
Definition fillna_zero (c : cell) : cell :=
  if isna c then CNum 0%Qc else c.

(** ** Series operations *)

Fixpoint traverse {A B} (f : A -> result B) (l : list A) : result (list B) :=
  match l with
  | [] => Ok []
  | x :: l' =>
      match f x with
      | Ok y =>
          match traverse f l' with
          | Ok ys => Ok (y :: ys)
          | Raise e => Raise e
          end
      | Raise e => Raise e
      end
  end.

(** The numeric content of a cell for a reduction with [skipna=True]: a
    missing value is skipped, text is a type error. *)
Definition numeric_or_skip (c : cell) : result (option Qc) :=
  match c with
  | CNum q => Ok (Some q)
  | CNaN => Ok None
  | _ => Raise TypeError
  end.

(** The numbers of a series, missing values dropped. *)
Definition numeric_values (s : list cell) : result (list Qc) :=
  vs ← traverse numeric_or_skip s;
  Ok (omap (M:=list) id vs).

(** [series.sum()] *)
Definition series_sum (s : list cell) : result Qc :=
  vs ← numeric_values s;
  Ok (Qc_sum vs).

(** [series.count()]: the cells that are not missing. *)
Definition series_count (s : list cell) : nat :=
  length (filter (fun c => isna c = false) s).

(** [series.mean()]: [NaN] when nothing is left to average. *)
Definition series_mean (s : list cell) : result cell :=
  vs ← numeric_values s;
  Ok (match vs with
      | [] => CNaN
      | _ => CNum (Qc_sum vs / Qc_of_nat (length vs))%Qc
      end).

(** [series.round(2)], per cell. *)
Definition round2_cell (c : cell) : cell :=
  match c with
  | CNum q => CNum (round2 q)
  | _ => c
  end.

(** [series == text], per cell. *)
Definition eq_text (s : string) (c : cell) : bool := bool_decide (c = CStr s).

(** [series >= x] and [series <= x] for a float [x], per cell. *)
Definition ge_number (x : Qc) (c : cell) : result bool :=
  match c with
  | CNum q => Ok (Qc_leb x q)
  | CNaN => Ok false
  | _ => Raise TypeError
  end.

Definition le_number (x : Qc) (c : cell) : result bool :=
  match c with
  | CNum q => Ok (Qc_leb q x)
  | CNaN => Ok false
  | _ => Raise TypeError
  end.

(** [series >= t] and [series <= t] for a timestamp scalar [t], which is
    [None] when it is [NaT]: a comparison with a missing timestamp on either
    side is false. *)
Definition ge_timestamp (t : option Timestamp) (c : cell) : result bool :=
  match c with
  | CTime d => Ok (match t with Some b => ts_leb b d | None => false end)
  | CNaT => Ok false
  | _ => Raise TypeError
  end.

Definition le_timestamp (t : option Timestamp) (c : cell) : result bool :=
  match c with
  | CTime d => Ok (match t with Some b => ts_leb d b | None => false end)
  | CNaT => Ok false
  | _ => Raise TypeError
  end.

(** *** Ordering and sorting *)

Definition cell_rank (c : cell) : Z :=
  match c with
  | CNum _ => 0
  | CStr _ => 1
  | CTime _ => 2
  | CNaT => 3
  | CNaN => 4
  end.

(** The order pandas sorts labels in: numbers before text, each in its own
    order. *)
Definition cell_leb (a b : cell) : bool :=
  match a, b with
  | CNum x, CNum y => Qc_leb x y
  | CStr x, CStr y => String.leb x y
  | CTime x, CTime y => ts_leb x y
  | _, _ => cell_rank a <=? cell_rank b
  end.

Section Sorting.
Context {A : Type} (leb : A -> A -> bool).

Fixpoint insert_sorted (x : A) (l : list A) : list A :=
  match l with
  | [] => [x]
  | y :: l' => if leb x y then x :: l else y :: insert_sorted x l'
  end.

(** A stable sort: of two elements neither of which is before the other,
    the one that comes first in the input comes first in the output. *)
Definition stable_sort (l : list A) : list A := foldr insert_sorted [] l.

End Sorting.

(** [series.unique()]: the distinct values in order of first appearance. *)
Fixpoint unique (l : list cell) : list cell :=
  match l with
  | [] => []
  | x :: l' => x :: filter (fun y => y ≠ x) (unique l')
  end.

(** [series.value_counts()]: one entry per distinct value that is not
    missing, with its number of occurrences; most frequent first, values of
    equal frequency in order of first appearance (the values are counted in
    order of first appearance, and the sort by count is taken to be
    stable). *)
Definition occurrences (k : cell) (s : list cell) : nat :=
  length (filter (fun c => c = k) s).

Definition tally (s : list cell) : list (cell * nat) :=
  (fun k => (k, occurrences k s)) <$> unique (filter (fun c => isna c = false) s).

Definition count_desc (a b : cell * nat) : bool := (b.2 <=? a.2)%nat.

Definition value_counts (s : list cell) : list (cell * nat) :=
  stable_sort count_desc (tally s).

(** [series.head(n)] *)
Definition head {A} (n : nat) (l : list A) : list A := take n l.

(** *** Grouping *)

(** The group labels of [df.groupby(by)]: the distinct labels that are not
    missing, sorted. *)
Definition group_keys (by_ : list cell) : list cell :=
  stable_sort cell_leb (unique (filter (fun c => isna c = false) by_)).

(** The cells of [vals] on the rows whose label is [k]. *)
Definition group_of (k : cell) (by_ vals : list cell) : list cell :=
  select_mask vals ((fun c => bool_decide (c = k)) <$> by_).

(** [df.groupby(by)[col].agg(f)] as label and aggregate, in label order. *)
Definition groupby_agg {B} (f : list cell -> result B) (by_ vals : list cell)
  : result (list (cell * B)) :=
  traverse (fun k => b ← f (group_of k by_ vals); Ok (k, b)) (group_keys by_).

(** [df.groupby(by).size()] *)
Definition groupby_size (by_ : list cell) : list (cell * nat) :=
  (fun k => (k, occurrences k by_)) <$> group_keys by_.

(** [frame.sort_values(key)] on label and aggregate pairs. *)
Definition sort_values {B} (l : list (cell * B)) : list (cell * B) :=
  stable_sort (fun a b => cell_leb a.1 b.1) l.

(** ** The endpoints *)

(** *** Start-up: loading and coercing the table

    [read_csv] is what [pd.read_csv("../Data/shopify.csv")] gave: the raw
    frame, or the exception it raised. *)
Definition startup_db_client (read_csv : result DataFrame) : M unit :=
  try_except
    (raw ← lift read_csv;
     l ← alloc raw;
     set_app_state_data l;;
     (* app.state.data['Date'] = pd.to_datetime(..., format='%d/%m/%Y', errors='coerce') *)
     data ← get_app_state_data;
     df ← deref data;
     dates ← lift (getitem "Date" df);
     modify data (setitem_series "Date" (to_datetime_dmy <$> dates));;
     (* app.state.data['Total'] = pd.to_numeric(..., errors='coerce').fillna(0) *)
     data ← get_app_state_data;
     df ← deref data;
     totals ← lift (getitem "Total" df);
     modify data (setitem_series "Total" ((fun c => fillna_zero (to_numeric c)) <$> totals));;
     (* app.state.data['Quantity'] = pd.to_numeric(..., errors='coerce').fillna(0) *)
     data ← get_app_state_data;
     df ← deref data;
     quantities ← lift (getitem "Quantity" df);
     modify data (setitem_series "Quantity" ((fun c => fillna_zero (to_numeric c)) <$> quantities));;
     (* app.state.data = app.state.data.fillna('') *)
     data ← get_app_state_data;
     df ← deref data;
     filled ← alloc (fillna_empty df);
     set_app_state_data filled)
    (fun _ =>
       empty ← alloc empty_frame;
       set_app_state_data empty).

(** *** GET /data *)
Definition get_data (skip limit : Z) : M (list record) :=
  try_except
    (data ← get_app_state_data;
     df ← deref data;
     mret (to_dict_records (iloc skip (skip + limit) df)))
    (fun _ => raise (HTTPException 500)).

(** *** GET /stats *)
Record Stats := mkStats {
  total_records : nat;
  total_sales : Qc;
  total_quantity : Z;
  avg_order_value : Qc;
  state_counts : list (cell * nat);
  state_values : list (cell * Qc);
  avg_quantity_by_state : list (cell * cell);
  status_counts : list (cell * nat);
  delivery_status_counts : list (cell * nat);
  country_counts : list (cell * nat);
  payment_method_counts : list (cell * nat);
  monthly_sales : list (cell * Qc);
  monthly_orders : list (cell * nat);
  monthly_avg_values : list (cell * (cell * nat));
  top_skus : list (cell * nat)
}.

(** [t.strftime('%Y-%m')] *)
Definition pad_left (width : nat) (s : string) : string :=
  String.concat "" (replicate (width - String.length s) "0"%string) +:+ s.

Definition strftime_Ym (t : Timestamp) : string :=
  pad_left 4 (pretty (ts_year t)) +:+ "-" +:+ pad_left 2 (pretty (ts_month t)).

(** [series.dt.strftime('%Y-%m')], per cell: a missing timestamp has no
    label. *)
Definition month_label (c : cell) : cell :=
  match c with
  | CTime t => CStr (strftime_Ym t)
  | _ => CNaN
  end.

(** [df[name].value_counts().to_dict() if name in df.columns else {}] *)
Definition counts_of (name : string) (df : DataFrame) : result (list (cell * nat)) :=
  if has_column name df
  then s ← getitem name df; Ok (value_counts s)
  else Ok [].

(** The scalar figures of lines 163-168: the record count, the two sums and
    the average order value. *)
Definition basic_stats (df : DataFrame) : result (nat * Qc * Qc * Qc) :=
  let total_records := length (rows df) in
  total_sales ← (if has_column "Total" df
                 then s ← getitem "Total" df; series_sum s
                 else Ok 0%Qc);
  total_quantity ← (if has_column "Quantity" df
                    then s ← getitem "Quantity" df; series_sum s
                    else Ok 0%Qc);
  let avg_order_value :=
    if (0 <? total_records)%nat
    then (total_sales / Qc_of_nat total_records)%Qc else 0%Qc in
  Ok (total_records, total_sales, total_quantity, avg_order_value).

(** The three monthly series of lines 178-191, read off the frame that
    carries the [Month] column. *)
Definition monthly_series (monthly_data : DataFrame)
  : result (list (cell * Qc) * list (cell * nat) * list (cell * (cell * nat))) :=
  months ← getitem "Month" monthly_data;
  totals ← getitem "Total" monthly_data;
  sales ← groupby_agg series_sum months totals;
  let orders := groupby_size months in
  avg ← groupby_agg (fun g => m ← series_mean g; Ok (m, series_count g)) months totals;
  let avg := (fun e : cell * (cell * nat) => (e.1, (round2_cell e.2.1, e.2.2))) <$> avg in
  Ok (sort_values sales, sort_values orders, sort_values avg).

(** Lines 198-241: the breakdowns, and the bundle that is returned. *)
Definition assemble_stats (basic : nat * Qc * Qc * Qc)
    (monthly : list (cell * Qc) * list (cell * nat) * list (cell * (cell * nat)))
    (df : DataFrame) : result Stats :=
  status_counts ← counts_of "Status" df;
  delivery_status_counts ← counts_of "Deliver Status" df;
  country_counts ← counts_of "Shipping Country" df;
  state_counts ← counts_of "State" df;
  payment_method_counts ← counts_of "Payment Method" df;
  state_values ← (if has_column "State" df
                  then st ← getitem "State" df;
                       tot ← getitem "Total" df;
                       groupby_agg series_sum st tot
                  else Ok []);
  sku_counts ← (if has_column "SKU" df
                then s ← getitem "SKU" df; Ok (head 10 (value_counts s))
                else Ok []);
  avg_quantity_by_state ←
    (if has_column "State" df && has_column "Quantity" df
     then st ← getitem "State" df;
          q ← getitem "Quantity" df;
          groupby_agg series_mean st q
     else Ok []);
  Ok {| total_records := basic.1.1.1;
        total_sales := basic.1.1.2;
        total_quantity := py_int basic.1.2;
        avg_order_value := basic.2;
        state_counts := state_counts;
        state_values := state_values;
        avg_quantity_by_state := avg_quantity_by_state;
        status_counts := status_counts;
        delivery_status_counts := delivery_status_counts;
        country_counts := country_counts;
        payment_method_counts := payment_method_counts;
        monthly_sales := monthly.1.1;
        monthly_orders := monthly.1.2;
        monthly_avg_values := monthly.2;
        top_skus := sku_counts |}.

(** [data] is the stored frame itself, not a copy of it; the [Month] column
    is assigned into [monthly_data], which is a copy. *)
Definition get_stats : M Stats :=
  try_except
    (data ← get_app_state_data;
     df ← deref data;
     basic ← lift (basic_stats df);
     monthly ←
       (if has_column "Date" df then
          dates ← lift (getitem "Date" df);
          let date_col := to_datetime_coerce <$> dates in
          monthly_data ← alloc df;  (* data.copy() *)
          modify monthly_data (setitem_series "Month" (month_label <$> date_col));;
          md ← deref monthly_data;
          lift (monthly_series md)
        else mret ([], [], []));
     df ← deref data;
     lift (assemble_stats basic monthly df))
    (fun _ => raise (HTTPException 500)).

(** *** GET /data/filter and GET /filtered-stats *)

(** The query parameters shared by the two filtering endpoints; [None] is a
    parameter that was not sent. *)
Record Criteria := mkCriteria {
  status : option string;
  delivery_status : option string;
  country : option string;
  province : option string;
  state : option string;
  payment_method : option string;
  from_date : option string;
  to_date : option string;
  min_total : option Qc;
  max_total : option Qc
}.

(** Python's truth value of an [Optional[str]]: [None] and the empty string
    are false. *)
Definition truthy (v : option string) : bool :=
  match v with
  | Some s => bool_decide (s ≠ "")
  | None => false
  end.

(** [if v and v != "All": df = df[df[col] == v]] *)
Definition filter_equal (col : string) (v : option string) (df : DataFrame)
  : result DataFrame :=
  match v with
  | Some s =>
      if truthy v && bool_decide (s ≠ "All")
      then c ← getitem col df; Ok (getitem_mask (eq_text s <$> c) df)
      else Ok df
  | None => Ok df
  end.

(** [if v is not None: df = df[df["Total"] >= v]], and the same with [<=]. *)
Definition filter_number (cmp : Qc -> cell -> result bool) (v : option Qc)
    (df : DataFrame) : result DataFrame :=
  match v with
  | Some x =>
      c ← getitem "Total" df;
      mask ← traverse (cmp x) c;
      Ok (getitem_mask mask df)
  | None => Ok df
  end.

(** [if v: v = pd.to_datetime(v, errors='coerce'); df = df[df["Date"] >= v]],
    and the same with [<=]. *)
Definition filter_date (cmp : option Timestamp -> cell -> result bool)
    (v : option string) (df : DataFrame) : result DataFrame :=
  match v with
  | Some s =>
      if truthy v
      then let bound := parse_datetime_guess s in
           c ← getitem "Date" df;
           mask ← traverse (cmp bound) c;
           Ok (getitem_mask mask df)
      else Ok df
  | None => Ok df
  end.

(** The filtering steps, which the two endpoints spell out identically. *)
Definition apply_filters (q : Criteria) (filtered_data : DataFrame) : result DataFrame :=
  filtered_data ← filter_equal "Status" (status q) filtered_data;
  filtered_data ← filter_equal "Deliver Status" (delivery_status q) filtered_data;
  filtered_data ← filter_equal "Shipping Country" (country q) filtered_data;
  filtered_data ← filter_equal "Shipping Province" (province q) filtered_data;
  filtered_data ← filter_equal "State" (state q) filtered_data;
  filtered_data ← filter_equal "Payment Method" (payment_method q) filtered_data;
  filtered_data ← filter_number ge_number (min_total q) filtered_data;
  filtered_data ← filter_number le_number (max_total q) filtered_data;
  filtered_data ← filter_date ge_timestamp (from_date q) filtered_data;
  filter_date le_timestamp (to_date q) filtered_data.

(** [float(df["Total"].mean()) if len(df) > 0 else 0] *)
Definition mean_or_zero (df : DataFrame) : result cell :=
  if (0 <? length (rows df))%nat
  then s ← getitem "Total" df; series_mean s
  else Ok (CNum 0%Qc).

Record FilteredPage := mkFilteredPage {
  fp_data : list record;
  fp_total_count : nat;
  fp_total_sales : Qc;
  fp_avg_order_value : cell;
  fp_total_quantity : Z
}.

(** Lines 266-298 on the copy: the filters, then the [result] dictionary. *)
Definition filtered_page (q : Criteria) (skip limit : Z) (filtered_data : DataFrame)
  : result FilteredPage :=
  filtered_data ← apply_filters q filtered_data;
  let page := to_dict_records (iloc skip (skip + limit) filtered_data) in
  sales ← (s ← getitem "Total" filtered_data; series_sum s);
  avg ← mean_or_zero filtered_data;
  quantity ← (s ← getitem "Quantity" filtered_data; series_sum s);
  Ok {| fp_data := page;
        fp_total_count := length (rows filtered_data);
        fp_total_sales := sales;
        fp_avg_order_value := avg;
        fp_total_quantity := py_int quantity |}.

(** The endpoint builds the whole dictionary and returns its ["data"]
    entry. *)
Definition filter_data (q : Criteria) (skip limit : Z) : M (list record) :=
  try_except
    (data ← get_app_state_data;
     df ← deref data;
     copy ← alloc df;  (* app.state.data.copy() *)
     filtered_data ← deref copy;
     r ← lift (filtered_page q skip limit filtered_data);
     mret (fp_data r))
    (fun _ => raise (HTTPException 500)).

Record FilteredStats := mkFilteredStats {
  total_count : nat;
  fs_total_sales : Qc;
  fs_avg_order_value : cell;
  fs_total_quantity : Z;
  state_breakdown : list (cell * Qc);
  status_breakdown : list (cell * nat)
}.

(** Lines 322-355 on the copy. *)
Definition filtered_stats (q : Criteria) (filtered_data : DataFrame)
  : result FilteredStats :=
  filtered_data ← apply_filters q filtered_data;
  sales ← (s ← getitem "Total" filtered_data; series_sum s);
  avg ← mean_or_zero filtered_data;
  quantity ← (s ← getitem "Quantity" filtered_data; series_sum s);
  by_state ← (st ← getitem "State" filtered_data;
              tot ← getitem "Total" filtered_data;
              groupby_agg series_sum st tot);
  by_status ← (s ← getitem "Status" filtered_data; Ok (value_counts s));
  Ok {| total_count := length (rows filtered_data);
        fs_total_sales := sales;
        fs_avg_order_value := avg;
        fs_total_quantity := py_int quantity;
        state_breakdown := by_state;
        status_breakdown := by_status |}.

Definition get_filtered_stats (q : Criteria) : M FilteredStats :=
  try_except
    (data ← get_app_state_data;
     df ← deref data;
     copy ← alloc df;  (* app.state.data.copy() *)
     filtered_data ← deref copy;
     lift (filtered_stats q filtered_data))
    (fun _ => raise (HTTPException 500)).

(** *** GET /columns *)
Definition get_columns : M (list string) :=
  data ← get_app_state_data;
  df ← deref data;
  mret (columns df).

(** *** GET /filter-options *)
Definition categorical_columns : list string :=
  ["Status"; "Deliver Status"; "Shipping Country"; "Shipping Province";
   "Payment Method"; "Risk Level"; "State"]%string.

Definition filter_options_of (df : DataFrame) : result (list (string * list cell)) :=
  foldl
    (fun options col =>
       options ← options;
       if has_column col df then
         c ← getitem col df;
         let values := unique (filter (fun v => isna v = false)
                                      (filter (fun v => v ≠ CStr "") c)) in
         Ok (options ++ [(col, CStr "All" :: values)])
       else Ok options)
    (Ok []) categorical_columns.

Definition get_filter_options : M (list (string * list cell)) :=
  try_except
    (data ← get_app_state_data;
     df ← deref data;
     lift (filter_options_of df))
    (fun _ => raise (HTTPException 500)).

(** *** POST /data/add-column *)
Definition add_column (column_name default_value : string) : M string :=
  data ← get_app_state_data;
  df ← deref data;
  if has_column column_name df
  then raise (HTTPException 400)
  else
    try_except
      (data ← get_app_state_data;
       modify data (setitem_scalar column_name (CStr default_value));;
       mret ("Column '" +:+ column_name +:+ "' added successfully"))
      (fun _ => raise (HTTPException 500)).

(** ** Loaded tables

    What start-up leaves in [app.state.data] when the CSV has the three typed
    columns, and the shape every stored table then keeps. *)

Definition coerce_number (c : cell) : cell := fillna_zero (to_numeric c).

Definition coerce_frame (raw : DataFrame) : DataFrame :=
  let df1 := setitem_series "Date" (to_datetime_dmy <$> column_values "Date" raw) raw in
  let df2 := setitem_series "Total" (coerce_number <$> column_values "Total" df1) df1 in
  let df3 := setitem_series "Quantity" (coerce_number <$> column_values "Quantity" df2) df2 in
  fillna_empty df3.

(** The number a raw cell counts as after coercion: its numeric reading, and
    [0] when it has none. *)
Definition coerced_value (col : string) (r : gmap string cell) : Qc :=
  match to_numeric (cell_at col r) with
  | CNum q => q
  | _ => 0%Qc
  end.

Definition is_number (c : cell) : bool :=
  match c with CNum _ => true | _ => false end.

Definition is_datetime (c : cell) : bool :=
  match c with CTime _ | CNaT => true | _ => false end.

Definition typed_row (r : gmap string cell) : bool :=
  is_datetime (cell_at "Date" r) && is_number (cell_at "Total" r)
  && is_number (cell_at "Quantity" r).

(** The three typed columns are present and hold timestamps and numbers. *)
Definition typed_frame (df : DataFrame) : bool :=
  has_column "Date" df && has_column "Total" df && has_column "Quantity" df
  && forallb typed_row (rows df).

Definition filter_columns : list string :=
  ["Status"; "Deliver Status"; "Shipping Country"; "Shipping Province";
   "State"; "Payment Method"]%string.

(** The columns the filtering endpoints index are present as well. *)
Definition sales_table (df : DataFrame) : bool :=
  typed_frame df && forallb (fun c => has_column c df) filter_columns.

(** ** What the endpoints compute, as functions of the stored frame *)

(** The bundle of [get_stats] for the stored frame [df]: the [Month] column
    is assigned into a copy, so the breakdowns read [df] as it was. *)
Definition stats_of (df : DataFrame) : result Stats :=
  basic ← basic_stats df;
  monthly ← (if has_column "Date" df then
               dates ← getitem "Date" df;
               monthly_series
                 (setitem_series "Month"
                    (month_label <$> (to_datetime_coerce <$> dates)) df)
             else Ok ([], [], []));
  assemble_stats basic monthly df.

(** [except Exception as e: raise HTTPException(status_code=500, ...)] *)
Definition or_500 {A} (r : result A) : result A :=
  match r with
  | Ok a => Ok a
  | Raise _ => Raise (HTTPException 500)
  end.

(** The number in a numeric cell. *)
Definition number_at (col : string) (r : gmap string cell) : Qc :=
  match cell_at col r with
  | CNum q => q
  | _ => 0%Qc
  end.

(** The month label a row is grouped under in [get_stats]. *)
Definition row_month (r : gmap string cell) : cell :=
  month_label (to_datetime_coerce (cell_at "Date" r)).

(** The rows whose [Date] is a timestamp, and the frame without the rows
    whose [Date] is missing. *)
Definition has_date (r : gmap string cell) : bool :=
  match cell_at "Date" r with
  | CTime _ => true
  | _ => false
  end.

Definition drop_null_dates (df : DataFrame) : DataFrame :=
  mkDataFrame (columns df) (List.filter has_date (rows df)).

(** Position of the first occurrence of [k] in [l] (its length when [k] does
    not occur). *)
Fixpoint first_index (k : cell) (l : list cell) : nat :=
  match l with
  | [] => 0
  | x :: l' => if bool_decide (x = k) then 0 else S (first_index k l')
  end.

(** *** The filters as a predicate on rows *)

Definition row_equal (col : string) (v : option string) (r : gmap string cell) : bool :=
  match v with
  | Some s =>
      if truthy v && bool_decide (s ≠ "All") then eq_text s (cell_at col r) else true
  | None => true
  end.

Definition holds (b : result bool) : bool :=
  match b with
  | Ok true => true
  | _ => false
  end.

Definition row_number (cmp : Qc -> cell -> result bool) (v : option Qc)
    (r : gmap string cell) : bool :=
  match v with
  | Some x => holds (cmp x (cell_at "Total" r))
  | None => true
  end.

Definition row_date (cmp : option Timestamp -> cell -> result bool)
    (v : option string) (r : gmap string cell) : bool :=
  match v with
  | Some s =>
      if truthy v then holds (cmp (parse_datetime_guess s) (cell_at "Date" r)) else true
  | None => true
  end.

Definition row_matches (q : Criteria) (r : gmap string cell) : bool :=
  row_equal "Status" (status q) r
  && row_equal "Deliver Status" (delivery_status q) r
  && row_equal "Shipping Country" (country q) r
  && row_equal "Shipping Province" (province q) r
  && row_equal "State" (state q) r
  && row_equal "Payment Method" (payment_method q) r
  && row_number ge_number (min_total q) r
  && row_number le_number (max_total q) r
  && row_date ge_timestamp (from_date q) r
  && row_date le_timestamp (to_date q) r.

Definition restrict (p : gmap string cell -> bool) (df : DataFrame) : DataFrame :=
  mkDataFrame (columns df) (List.filter p (rows df)).

(** *** Criteria that filter nothing, and the categorical fields *)

Definition absent {A} (v : option A) : bool :=
  match v with None => true | Some _ => false end.

Definition absent_or_all (v : option string) : bool :=
  match v with
  | None => true
  | Some s => bool_decide (s = "All")
  end.

Definition no_filter (q : Criteria) : bool :=
  absent_or_all (status q) && absent_or_all (delivery_status q)
  && absent_or_all (country q) && absent_or_all (province q)
  && absent_or_all (state q) && absent_or_all (payment_method q)
  && absent (min_total q) && absent (max_total q)
  && absent (from_date q) && absent (to_date q).

Inductive cat_field :=
  | FStatus | FDeliveryStatus | FCountry | FProvince | FState | FPaymentMethod.

Definition field_column (f : cat_field) : string :=
  match f with
  | FStatus => "Status"
  | FDeliveryStatus => "Deliver Status"
  | FCountry => "Shipping Country"
  | FProvince => "Shipping Province"
  | FState => "State"
  | FPaymentMethod => "Payment Method"
  end.

Definition field_value (f : cat_field) (q : Criteria) : option string :=
  match f with
  | FStatus => status q
  | FDeliveryStatus => delivery_status q
  | FCountry => country q
  | FProvince => province q
  | FState => state q
  | FPaymentMethod => payment_method q
  end.

(** The criteria [q] with the categorical field [f] set to [v]. *)
Definition with_field (f : cat_field) (v : option string) (q : Criteria) : Criteria :=
  mkCriteria
    (match f with FStatus => v | _ => status q end)
    (match f with FDeliveryStatus => v | _ => delivery_status q end)
    (match f with FCountry => v | _ => country q end)
    (match f with FProvince => v | _ => province q end)
    (match f with FState => v | _ => state q end)
    (match f with FPaymentMethod => v | _ => payment_method q end)
    (from_date q) (to_date q) (min_total q) (max_total q).

(** The rows whose cell under [col] is the empty string. *)
Definition empty_at (col : string) (r : gmap string cell) : bool :=
  eq_text "" (cell_at col r).

(** ** The page as the specification words it

    The sub-sequence from [skip] to [skip + limit], a negative [skip] being
    taken as [0] and a [limit] of [0] or less giving nothing. *)
Definition page_spec {A} (skip limit : Z) (l : list A) : list A :=
  if limit <=? 0 then []
  else take (Z.to_nat limit) (drop (Z.to_nat (Z.max 0 skip)) l).

(** ** Sample data *)

Definition sample_csv : DataFrame :=
  mkDataFrame
    ["Date"; "Total"; "Quantity"; "Status"; "Deliver Status"; "Shipping Country";
     "Shipping Province"; "State"; "Payment Method"; "SKU"]%string
    [ list_to_map
        [("Date", CStr "05/01/2023"); ("Total", CStr "10");
         ("Quantity", CNum (Q2Qc (3 # 2))); ("Status", CStr "Paid");
         ("Deliver Status", CStr "Delivered"); ("Shipping Country", CStr "US");
         ("Shipping Province", CStr "CA"); ("State", CStr "California");
         ("Payment Method", CStr "Card"); ("SKU", CStr "A-1")];
      list_to_map
        [("Date", CStr "not a date"); ("Total", CStr "abc");
         ("Quantity", CNum (Qc_of_Z 2)); ("Status", CNaN);
         ("Deliver Status", CStr "Pending"); ("Shipping Country", CStr "US");
         ("Shipping Province", CStr "NY"); ("State", CStr "New York");
         ("Payment Method", CStr "Cash"); ("SKU", CStr "B-2")];
      list_to_map
        [("Date", CStr "15/02/2023"); ("Total", CStr "30");
         ("Quantity", CNum (Qc_of_Z 3)); ("Status", CStr "Paid");
         ("Deliver Status", CStr "Delivered"); ("Shipping Country", CStr "US");
         ("Shipping Province", CStr "CA"); ("State", CStr "California");
         ("Payment Method", CStr "Card"); ("SKU", CStr "B-2")] ]%string.

Definition initial_world : World := mkWorld ∅ 0.

Definition sample_world : World :=
  (startup_db_client (Ok sample_csv) initial_world).2.

Definition sample_frame : DataFrame := coerce_frame sample_csv.

Definition no_criteria : Criteria :=
  mkCriteria None None None None None None None None None None.

(** What start-up makes of one raw row. *)
Definition coerce_row (r : gmap string cell) : gmap string cell :=
  fillna_cell <$>
    (<["Quantity" := coerce_number (cell_at "Quantity" r)]>
       (<["Total" := coerce_number (cell_at "Total" r)]>
          (<["Date" := to_datetime_dmy (cell_at "Date" r)]> r))).

(** A world that differs from [w] only by objects allocated since. *)
Definition extends (w w' : World) : Prop :=
  app_state_data w' = app_state_data w /\
  forall l, is_Some (heap w !! l) -> heap w' !! l = heap w !! l.

(** The mask of the rows labelled [k]. *)
Definition label_mask (k : cell) (by_ : list cell) : list bool :=
  (fun c => bool_decide (c = k)) <$> by_.

(** The monthly series of a typed frame, from its month labels and its
    totals. *)
Definition monthly_sales_of (df : DataFrame) : list (cell * Qc) :=
  sort_values
    ((fun k => (k, Qc_sum (select_mask (number_at "Total" <$> rows df)
                                       (label_mask k (row_month <$> rows df)))))
       <$> group_keys (row_month <$> rows df)).

Definition monthly_orders_of (df : DataFrame) : list (cell * nat) :=
  sort_values (groupby_size (row_month <$> rows df)).

Definition mean_of (qs : list Qc) : cell :=
  match qs with
  | [] => CNaN
  | _ => CNum (Qc_sum qs / Qc_of_nat (length qs))%Qc
  end.

Definition monthly_avg_of (df : DataFrame) : list (cell * (cell * nat)) :=
  sort_values
    ((fun k =>
        let g := select_mask (number_at "Total" <$> rows df)
                             (label_mask k (row_month <$> rows df)) in
        (k, (round2_cell (mean_of g), length g)))
       <$> group_keys (row_month <$> rows df)).

(** A date bound that was sent, is not the empty string, and fails date
    parsing. *)
Definition unparsable_bound (v : option string) : bool :=
  match v with
  | Some s => bool_decide (s ≠ "") && absent (parse_datetime_guess s)
  | None => false
  end.

(** A categorical filter value that is not applied. *)
Definition pass_all (v : option string) : bool :=
  match v with
  | None => true
  | Some s => bool_decide (s = "") || bool_decide (s = "All")
  end.

(** Tables for telling criteria apart: a row whose categorical cells are all
    empty, alone, and next to a copy of it marked under one column. *)
Definition blank_row : gmap string cell :=
  list_to_map
    [("Date", CNaT); ("Total", CNum 0%Qc); ("Quantity", CNum 0%Qc);
     ("Status", CStr ""); ("Deliver Status", CStr "");
     ("Shipping Country", CStr ""); ("Shipping Province", CStr "");
     ("State", CStr ""); ("Payment Method", CStr "")]%string.

Definition schema_columns : list string :=
  ["Date"; "Total"; "Quantity"]%string ++ filter_columns.

Definition blank_table : DataFrame := mkDataFrame schema_columns [blank_row].

Definition marked_table (f : cat_field) : DataFrame :=
  mkDataFrame schema_columns [blank_row; <[field_column f := CStr "x"]> blank_row].

(** Whether the character [c] occurs in [s]. *)
Fixpoint has_char (c : ascii) (s : string) : bool :=
  match s with
  | EmptyString => false
  | String a s' => bool_decide (a = c) || has_char c s'
  end.

(** [a] is first seen before [b] in the series [s]. *)
Definition seen_before (s : list cell) (a b : cell) : Prop :=
  (first_index a s < first_index b s)%nat.

(** The order of [value_counts]: a larger count first, and among equal
    counts the value first seen earlier in [s]. *)
Definition counts_order (s : list cell) (a b : cell * nat) : Prop :=
  (b.2 < a.2)%nat \/ (a.2 = b.2 /\ seen_before s a.1 b.1).

(** Month labels in ascending order: both are text, and the first is not
    after the second in the order of strings. *)
Definition month_le (a b : cell) : Prop :=
  match a, b with
  | CStr x, CStr y => String.leb x y = true
  | _, _ => False
  end.

(** A world whose stored table is the sample table without the row whose
    date did not parse. *)
Definition sample_world_dated : World :=
  mkWorld {[0%nat := drop_null_dates sample_frame]} 0.

(** ** A column added by the user

    The labels that [get_stats], [get_filter_options] and the two filtering
    endpoints look up by name. *)
Definition lookup_labels : list string :=
  ["Date"; "Total"; "Quantity"; "Status"; "Deliver Status"; "Shipping Country";
   "State"; "Payment Method"; "SKU"; "Risk Level"; "Shipping Province"]%string.

(** A record with the field of the new column after the others. *)
Definition with_new_field (name : string) (v : cell) (rec : record) : record :=
  rec ++ [(name, v)].

(** ** What criteria ask of a row

    Each categorical field that was sent with a value other than the empty
    string and ["All"] asks for that text under its column; each numeric
    bound asks for a [Total] on its side of the bound, the bound included;
    each date bound that was sent and is not empty asks for the bound to
    parse and for a [Date] on its side of it, the bound included. *)
Definition selects (q : Criteria) (r : gmap string cell) : Prop :=
  (forall f s, field_value f q = Some s -> s ≠ ""%string -> s ≠ "All"%string ->
     cell_at (field_column f) r = CStr s) /\
  (forall x, min_total q = Some x -> (x <= number_at "Total" r)%Qc) /\
  (forall x, max_total q = Some x -> (number_at "Total" r <= x)%Qc) /\
  (forall s, from_date q = Some s -> s ≠ ""%string ->
     exists b t, parse_datetime_guess s = Some b /\ cell_at "Date" r = CTime t /\
                 ts_leb b t = true) /\
  (forall s, to_date q = Some s -> s ≠ ""%string ->
     exists b t, parse_datetime_guess s = Some b /\ cell_at "Date" r = CTime t /\
                 ts_leb t b = true).

(** ** The filtered statistics as functions of the filtered frame *)

(** The totals of [qs] per label of [by_], in label order. *)
Definition sum_by (by_ : list cell) (qs : list Qc) : list (cell * Qc) :=
  (fun k => (k, Qc_sum (select_mask qs (label_mask k by_)))) <$> group_keys by_.

(** The mean [Total] of rows that hold numbers, [0] when there are none. *)
Definition mean_total (rs : list (gmap string cell)) : Qc :=
  if (0 <? length rs)%nat
  then (Qc_sum (number_at "Total" <$> rs) / Qc_of_nat (length rs))%Qc
  else 0%Qc.

Definition filtered_stats_of (fd : DataFrame) : FilteredStats :=
  {| total_count := length (rows fd);
     fs_total_sales := Qc_sum (number_at "Total" <$> rows fd);
     fs_avg_order_value := CNum (mean_total (rows fd));
     fs_total_quantity := py_int (Qc_sum (number_at "Quantity" <$> rows fd));
     state_breakdown := sum_by (column_values "State" fd) (number_at "Total" <$> rows fd);
     status_breakdown := value_counts (column_values "Status" fd) |}.

(** ** The statistics as functions of a typed frame *)

Definition counts_at (name : string) (df : DataFrame) : list (cell * nat) :=
  if has_column name df then value_counts (column_values name df) else [].

Definition stats_value (df : DataFrame) : Stats :=
  {| total_records := length (rows df);
     total_sales := Qc_sum (number_at "Total" <$> rows df);
     total_quantity := py_int (Qc_sum (number_at "Quantity" <$> rows df));
     avg_order_value := mean_total (rows df);
     state_counts := counts_at "State" df;
     state_values :=
       if has_column "State" df
       then sum_by (column_values "State" df) (number_at "Total" <$> rows df)
       else [];
     avg_quantity_by_state :=
       if has_column "State" df
       then (fun k => (k, mean_of (select_mask (number_at "Quantity" <$> rows df)
                                     (label_mask k (column_values "State" df)))))
              <$> group_keys (column_values "State" df)
       else [];
     status_counts := counts_at "Status" df;
     delivery_status_counts := counts_at "Deliver Status" df;
     country_counts := counts_at "Shipping Country" df;
     payment_method_counts := counts_at "Payment Method" df;
     monthly_sales := monthly_sales_of df;
     monthly_orders := monthly_orders_of df;
     monthly_avg_values := monthly_avg_of df;
     top_skus := head 10 (counts_at "SKU" df) |}.

(** Criteria with the two numeric bounds only. *)
Definition total_between (lo hi : Qc) : Criteria :=
  mkCriteria None None None None None None None None (Some lo) (Some hi).

(** A table with the three typed columns and nothing else, and a world that
    stores it. *)
Definition bare_table : DataFrame :=
  mkDataFrame ["Date"; "Total"; "Quantity"]%string
    [ list_to_map [("Date", CNaT); ("Total", CNum (Qc_of_Z 5));
                   ("Quantity", CNum (Qc_of_Z 1))]%string ].

Definition bare_world : World := mkWorld {[0%nat := bare_table]} 0.

(** The rows that have a value under [name]. *)
Definition with_value (name : string) (rs : list (gmap string cell))
  : list (gmap string cell) :=
  List.filter (fun r => negb (isna (cell_at name r))) rs.

(** ** The options of one column

    ["All"], then the distinct values of the column that are neither empty
    nor missing. *)
Definition options_for (col : string) (df : DataFrame) : list cell :=
  CStr "All"
  :: unique (filter (fun v => isna v = false)
               (filter (fun v => v ≠ CStr "") (column_values col df))).

(** ** Authentication

    Times are microseconds since the epoch, the resolution of [datetime] and
    [timedelta]; [datetime + timedelta] raises [OverflowError] when the
    result leaves the range of [datetime]. *)
Definition second : Z := 1000000.
Definition minutes (n : Z) : Z := n * 60 * second.
Definition datetime_min : Z := -62135596800000000.
Definition datetime_max : Z := 253402300799999999.

Definition datetime_add (t d : Z) : result Z :=
  if bool_decide (datetime_min <= t + d <= datetime_max)
  then Ok (t + d) else Raise OverflowError.

(** The values of a JWT payload: text, a number, a [datetime] on its way to
    the encoder, and JSON [null]. *)
Inductive jvalue :=
  | JStr (s : string)
  | JNum (n : Z)
  | JTime (t : Z)
  | JNull.

(** What the program takes from [passlib], [jwt] and [pydantic]:

    - [pwd_verify plain hashed] is [pwd_context.verify(plain, hashed)] on a
      hash that [pwd_context.hash] made;
    - [admin_hash] is the value of [pwd_context.hash("password123")] taken
      when the module is loaded;
    - [jwt_encode payload key algorithm] is [jwt.encode];
    - [jwt_decode now token key algorithms] is [jwt.decode] called when the
      clock reads [now], [None] when it raises a [jwt.PyJWTError];
    - [validate_str v] is the validation of [v] for the [Optional[str]] field
      of [TokenData], with the exception it raises when it rejects [v]. *)
Class Library := {
  pwd_verify : string -> string -> bool;
  admin_hash : string;
  jwt_encode : gmap string jvalue -> string -> string -> string;
  jwt_decode : Z -> string -> string -> list string -> option (gmap string jvalue);
  validate_str : jvalue -> result string
}.

Record User := mkUser {
  username : string;
  email : option string;
  full_name : option string;
  disabled : option bool;
  hashed_password : string
}.

Record Token := mkToken {
  access_token : string;
  token_type : string
}.

Definition SECRET_KEY : string := "YOUR_SECRET_KEY_HERE".
Definition ALGORITHM : string := "HS256".
Definition ACCESS_TOKEN_EXPIRE_MINUTES : Z := 30.

Section Authentication.
Context `{Library}.

Definition admin_user : User :=
  mkUser "admin" (Some "admin@example.com"%string) (Some "Admin User"%string)
         (Some false) admin_hash.

Definition fake_users_db : gmap string User := {[ "admin"%string := admin_user ]}.

Definition verify_password (plain_password hashed_password : string) : bool :=
  pwd_verify plain_password hashed_password.

(** [None] when [username] is not a key of [db]. *)
Definition get_user (db : gmap string User) (username : string) : option User :=
  db !! username.

(** [None] stands for the [False] the function returns. *)
Definition authenticate_user (fake_db : gmap string User) (username password : string)
  : option User :=
  match get_user fake_db username with
  | None => None
  | Some user =>
      if negb (verify_password password (hashed_password user)) then None
      else Some user
  end.

(** [if expires_delta:] holds for a [timedelta] other than zero. *)
Definition create_access_token (now : Z) (data : gmap string jvalue)
    (expires_delta : option Z) : result string :=
  expire ← match expires_delta with
           | Some d =>
               if bool_decide (d ≠ 0) then datetime_add now d
               else datetime_add now (minutes 15)
           | None => datetime_add now (minutes 15)
           end;
  let to_encode := <["exp"%string := JTime expire]> data in
  Ok (jwt_encode to_encode SECRET_KEY ALGORITHM).

Definition get_current_user (now : Z) (token : string) : result User :=
  let credentials_exception := HTTPException 401 in
  match jwt_decode now token SECRET_KEY [ALGORITHM] with
  | None => Raise credentials_exception
  | Some payload =>
      match payload !! "sub"%string with
      | None | Some JNull => Raise credentials_exception
      | Some sub =>
          token_data_username ← validate_str sub;
          match get_user fake_users_db token_data_username with
          | None => Raise credentials_exception
          | Some user => Ok user
          end
      end
  end.

Definition get_current_active_user (current_user : User) : result User :=
  match disabled current_user with
  | Some true => Raise (HTTPException 400)
  | _ => Ok current_user
  end.

Definition login_for_access_token (now : Z) (form_username form_password : string)
  : result Token :=
  match authenticate_user fake_users_db form_username form_password with
  | None => Raise (HTTPException 401)
  | Some user =>
      access_token ←
        create_access_token now {[ "sub"%string := JStr (username user) ]}
          (Some (minutes ACCESS_TOKEN_EXPIRE_MINUTES));
      Ok (mkToken access_token "bearer")
  end.

(** [Depends(get_current_active_user)], which depends on
    [get_current_user] in turn, for a request that carries the bearer token
    [token]: the endpoint runs when the dependency returns a user. *)
Definition current_active_user (now : Z) (token : string) : result User :=
  get_current_user now token ≫= get_current_active_user.

Definition authorized {A} (now : Z) (token : string) (endpoint : M A) : M A :=
  lift (current_active_user now token);; endpoint.

End Authentication.

(** A library for examples: a hash is the password itself, a token is its
    subject and never expires. *)
Definition plain_library : Library :=
  {| pwd_verify plain hashed := bool_decide (hashed = plain);
     admin_hash := "password123";
     jwt_encode payload _ _ :=
       match payload !! "sub"%string with
       | Some (JStr s) => s
       | _ => ""%string
       end;
     jwt_decode _ token _ _ := Some {[ "sub"%string := JStr token ]};
     validate_str v :=
       match v with
       | JStr s => Ok s
       | _ => Raise TypeError
       end |}.

(** ** Criteria with parameters left out

    [relaxes q' q]: each parameter of [q'] is the one of [q] or was not
    sent. *)
Definition left_out {A} (v' v : option A) : Prop := v' = None \/ v' = v.

Definition relaxes (q' q : Criteria) : Prop :=
  left_out (status q') (status q) /\
  left_out (delivery_status q') (delivery_status q) /\
  left_out (country q') (country q) /\
  left_out (province q') (province q) /\
  left_out (state q') (state q) /\
  left_out (payment_method q') (payment_method q) /\
  left_out (from_date q') (from_date q) /\
  left_out (to_date q') (to_date q) /\
  left_out (min_total q') (min_total q) /\
  left_out (max_total q') (max_total q).

(** * Properties *)

(** ** Stepping the state monad *)

Lemma bind_run {A B} (m : M A) (f : A -> M B) (w : World) :
  (m ≫= f) w = match m w with
               | (Ok a, w') => f a w'
               | (Raise e, w') => (Raise e, w')
               end.
Proof. reflexivity. Qed.

Lemma deref_run (l : nat) (w : World) (df : DataFrame) :
  heap w !! l = Some df -> deref l w = (Ok df, w).
Proof. intros H. unfold deref. by rewrite H. Qed.

Lemma modify_run (l : nat) (f : DataFrame -> DataFrame) (w : World) (df : DataFrame) :
  heap w !! l = Some df ->
  modify l f w = (Ok tt, mkWorld (<[l := f df]> (heap w)) (app_state_data w)).
Proof. intros H. unfold modify. by rewrite H. Qed.

Lemma fresh_not_allocated (w : World) (l : nat) (df : DataFrame) :
  heap w !! l = Some df -> fresh (dom (heap w)) ≠ l.
Proof.
  intros H E. apply (is_fresh (dom (heap w))).
  rewrite E. apply elem_of_dom. by exists df.
Qed.

Lemma bind_get_app_state_data {B} (f : nat -> M B) (w : World) :
  (get_app_state_data ≫= f) w = f (app_state_data w) w.
Proof. reflexivity. Qed.

Lemma bind_set_app_state_data {B} (l : nat) (f : unit -> M B) (w : World) :
  (set_app_state_data l ≫= f) w = f tt (mkWorld (heap w) l).
Proof. reflexivity. Qed.

Lemma bind_alloc {B} (df : DataFrame) (f : nat -> M B) (w : World) :
  (alloc df ≫= f) w =
    f (fresh (dom (heap w)))
      (mkWorld (<[fresh (dom (heap w)) := df]> (heap w)) (app_state_data w)).
Proof. reflexivity. Qed.

Lemma bind_lift {A B} (r : result A) (f : A -> M B) (w : World) :
  (lift r ≫= f) w = match r with
                     | Ok a => f a w
                     | Raise e => (Raise e, w)
                     end.
Proof. by destruct r. Qed.

Lemma bind_deref {B} (l : nat) (f : DataFrame -> M B) (w : World) (df : DataFrame) :
  heap w !! l = Some df -> (deref l ≫= f) w = f df w.
Proof. intros H. by rewrite bind_run, (deref_run _ _ _ H). Qed.

Lemma bind_modify {B} (l : nat) (g : DataFrame -> DataFrame) (f : unit -> M B)
    (w : World) (df : DataFrame) :
  heap w !! l = Some df ->
  (modify l g ≫= f) w = f tt (mkWorld (<[l := g df]> (heap w)) (app_state_data w)).
Proof. intros H. by rewrite bind_run, (modify_run _ _ _ _ H). Qed.

(** ** Frames *)

Lemma has_column_true (name : string) (df : DataFrame) :
  has_column name df = true <-> name ∈ columns df.
Proof. unfold has_column. apply bool_decide_eq_true. Qed.

Lemma has_column_false (name : string) (df : DataFrame) :
  has_column name df = false <-> name ∉ columns df.
Proof. unfold has_column. apply bool_decide_eq_false. Qed.

Lemma add_label_fresh (name : string) (cols : list string) :
  name ∉ cols -> add_label name cols = cols ++ [name].
Proof. intros H. unfold add_label. by rewrite bool_decide_eq_false_2. Qed.

Lemma add_label_present (name : string) (cols : list string) :
  name ∈ cols -> add_label name cols = cols.
Proof. intros H. unfold add_label. by rewrite bool_decide_eq_true_2. Qed.

Lemma frame_eta (df : DataFrame) : mkDataFrame (columns df) (rows df) = df.
Proof. by destruct df. Qed.

Lemma getitem_present (name : string) (df : DataFrame) :
  has_column name df = true -> getitem name df = Ok (column_values name df).
Proof. intros H. unfold getitem. by rewrite H. Qed.

Lemma zip_with_fmap_same {A B C D} (F : B -> C -> D) (g : A -> B) (h : A -> C)
    (l : list A) :
  zip_with F (g <$> l) (h <$> l) = (fun x => F (g x) (h x)) <$> l.
Proof.
  induction l as [|x l IH]; [done|].
  rewrite !fmap_cons. cbn [zip_with]. by rewrite IH.
Qed.

Lemma cell_at_insert_eq (name : string) (v : cell) (r : gmap string cell) :
  cell_at name (<[name := v]> r) = v.
Proof. unfold cell_at. by rewrite lookup_insert_eq. Qed.

Lemma cell_at_insert_ne (name other : string) (v : cell) (r : gmap string cell) :
  name ≠ other -> cell_at other (<[name := v]> r) = cell_at other r.
Proof. intros H. unfold cell_at. by rewrite lookup_insert_ne. Qed.

Lemma has_column_setitem_series_new (name : string) (vs : list cell) (df : DataFrame) :
  has_column name (setitem_series name vs df) = true.
Proof.
  rewrite has_column_true. simpl. unfold add_label.
  case_bool_decide; set_solver.
Qed.

Lemma has_column_setitem_series (name other : string) (vs : list cell) (df : DataFrame) :
  has_column other df = true -> has_column other (setitem_series name vs df) = true.
Proof.
  rewrite !has_column_true. simpl. unfold add_label.
  case_bool_decide; set_solver.
Qed.

(** Assigning to a column a series computed row by row. *)
Lemma setitem_series_rows (name : string) (h : gmap string cell -> cell) (df : DataFrame) :
  rows (setitem_series name (h <$> rows df) df)
  = (fun r => <[name := h r]> r) <$> rows df.
Proof.
  simpl. rewrite <- (list_fmap_id (rows df)) at 1.
  by rewrite zip_with_fmap_same.
Qed.

Lemma column_values_setitem_new (name : string) (h : gmap string cell -> cell)
    (df : DataFrame) :
  column_values name (setitem_series name (h <$> rows df) df) = h <$> rows df.
Proof.
  unfold column_values. rewrite setitem_series_rows, <- list_fmap_compose.
  apply list_fmap_ext. intros i r _. simpl. apply cell_at_insert_eq.
Qed.

Lemma column_values_setitem_other (name other : string) (h : gmap string cell -> cell)
    (df : DataFrame) :
  name ≠ other ->
  column_values other (setitem_series name (h <$> rows df) df) = column_values other df.
Proof.
  intros Hne. unfold column_values. rewrite setitem_series_rows, <- list_fmap_compose.
  apply list_fmap_ext. intros i r _. simpl. by apply cell_at_insert_ne.
Qed.

(** ** Adding a column *)

Lemma add_column_duplicate (w : World) (df : DataFrame) (name dflt : string) :
  heap w !! app_state_data w = Some df ->
  name ∈ columns df ->
  add_column name dflt w = (Raise (HTTPException 400), w).
Proof.
  intros Hdf Hin. unfold add_column.
  rewrite bind_run. unfold get_app_state_data.
  rewrite bind_run, (deref_run _ _ _ Hdf).
  by rewrite (proj2 (has_column_true _ _) Hin).
Qed.

Lemma add_column_fresh (w : World) (df : DataFrame) (name dflt : string) :
  heap w !! app_state_data w = Some df ->
  name ∉ columns df ->
  add_column name dflt w =
    (Ok ("Column '" +:+ name +:+ "' added successfully"),
     mkWorld (<[app_state_data w := setitem_scalar name (CStr dflt) df]> (heap w))
             (app_state_data w)).
Proof.
  intros Hdf Hin. unfold add_column.
  rewrite bind_run. unfold get_app_state_data.
  rewrite bind_run, (deref_run _ _ _ Hdf).
  rewrite (proj2 (has_column_false _ _) Hin).
  unfold try_except. rewrite bind_run, bind_run.
  by rewrite (modify_run _ _ _ _ Hdf).
Qed.

(** C5.  With the stored frame [df]: [add_column] with a label that is
    already a column fails with status 400 and leaves the whole state as it
    was; with a new label it succeeds, the stored frame gets that label
    appended after the existing ones (one label more), keeps its rows, holds
    the default in the new column of every row and every other cell as
    before, and a second [add_column] with the same label then fails and
    changes nothing. *)
Theorem add_column_spec (w : World) (df : DataFrame) (name dflt : string) :
  heap w !! app_state_data w = Some df ->
  (name ∈ columns df ->
     add_column name dflt w = (Raise (HTTPException 400), w)) /\
  (name ∉ columns df ->
     exists msg w' df',
       add_column name dflt w = (Ok msg, w') /\
       app_state_data w' = app_state_data w /\
       heap w' !! app_state_data w' = Some df' /\
       columns df' = columns df ++ [name] /\
       length (columns df') = S (length (columns df)) /\
       length (rows df') = length (rows df) /\
       (forall i r', rows df' !! i = Some r' ->
          r' !! name = Some (CStr dflt) /\
          exists r, rows df !! i = Some r /\
                    forall c, c ≠ name -> r' !! c = r !! c) /\
       (forall dflt2, add_column name dflt2 w' = (Raise (HTTPException 400), w'))).
Proof.
  intros Hdf. split; [by apply add_column_duplicate|].
  intros Hfresh.
  eexists _, _, (setitem_scalar name (CStr dflt) df).
  split; [by apply add_column_fresh|].
  assert (Hcols : columns (setitem_scalar name (CStr dflt) df) = columns df ++ [name])
    by (by apply add_label_fresh).
  simpl. rewrite lookup_insert_eq.
  repeat split; try done.
  - rewrite add_label_fresh by done. rewrite length_app. simpl. lia.
  - by rewrite length_fmap.
  - rewrite list_lookup_fmap in H.
    destruct (rows df !! i) as [r|]; simplify_eq/=. apply lookup_insert_eq.
  - rewrite list_lookup_fmap in H.
    destruct (rows df !! i) as [r|]; simplify_eq/=.
    exists r. split; [done|]. intros c Hc. by rewrite lookup_insert_ne.
  - intros dflt2. apply add_column_duplicate with (df := setitem_scalar name (CStr dflt) df).
    + simpl. apply lookup_insert_eq.
    + rewrite Hcols. set_solver.
Qed.

(** ** Paging *)

Lemma get_data_run (w : World) (df : DataFrame) (skip limit : Z) :
  heap w !! app_state_data w = Some df ->
  get_data skip limit w = (Ok (to_dict_records (iloc skip (skip + limit) df)), w).
Proof.
  intros Hdf. unfold get_data, try_except.
  rewrite bind_run. unfold get_app_state_data.
  by rewrite bind_run, (deref_run _ _ _ Hdf).
Qed.

Lemma py_slice_nonneg {A} (start stop : Z) (l : list A) :
  0 <= start -> 0 <= stop ->
  py_slice start stop l = take (Z.to_nat (stop - start)) (drop (Z.to_nat start) l).
Proof.
  intros Hs He. unfold py_slice, slice_index.
  destruct (Z.ltb_spec start 0); [lia|].
  destruct (Z.ltb_spec stop 0); [lia|].
  destruct (Z.le_gt_cases start (Z.of_nat (length l))) as [Hle|Hgt].
  - rewrite (Z.min_l start) by lia.
    destruct (Z.le_gt_cases stop (Z.of_nat (length l))).
    + by rewrite (Z.min_l stop) by lia.
    + rewrite (Z.min_r stop) by lia.
      rewrite !take_ge; [done| |]; rewrite length_drop; lia.
  - rewrite (Z.min_r start) by lia.
    rewrite !drop_ge by lia. by rewrite !take_nil.
Qed.


Lemma py_slice_no_rows {A} (start stop : Z) (l : list A) :
  slice_index (Z.of_nat (length l)) stop <= slice_index (Z.of_nat (length l)) start ->
  py_slice start stop l = [].
Proof.
  intros H. unfold py_slice. cbn zeta.
  replace (Z.to_nat _) with 0%nat at 1 by lia. done.
Qed.

Lemma py_slice_nonpositive_limit {A} (skip limit : Z) (l : list A) :
  limit <= 0 -> skip < 0 \/ 0 <= skip + limit ->
  py_slice skip (skip + limit) l = [].
Proof.
  intros Hl Hs. apply py_slice_no_rows. unfold slice_index.
  destruct (Z.ltb_spec skip 0), (Z.ltb_spec (skip + limit) 0); lia.
Qed.

Lemma py_slice_past_end {A} (start stop : Z) (l : list A) :
  Z.of_nat (length l) <= start -> py_slice start stop l = [].
Proof.
  intros H. apply py_slice_no_rows. unfold slice_index.
  destruct (Z.ltb_spec start 0), (Z.ltb_spec stop 0); lia.
Qed.

Lemma py_slice_from_end {A} (start stop : Z) (l : list A) :
  start < 0 -> 0 <= stop ->
  py_slice start stop l
  = take (Z.to_nat (Z.min stop (Z.of_nat (length l))
                    - Z.max 0 (start + Z.of_nat (length l))))
         (drop (Z.to_nat (Z.max 0 (start + Z.of_nat (length l)))) l).
Proof.
  intros Hs He. unfold py_slice, slice_index.
  destruct (Z.ltb_spec start 0); [|lia].
  destruct (Z.ltb_spec stop 0); [lia|]. done.
Qed.



Lemma add_column_spec_witness :
  heap sample_world !! app_state_data sample_world = Some sample_frame /\
  add_column "Status" "x" sample_world = (Raise (HTTPException 400), sample_world).
Proof.
  assert (H : heap sample_world !! app_state_data sample_world = Some sample_frame)
    by (vm_compute; reflexivity).
  split; [exact H|].
  apply (proj1 (add_column_spec sample_world sample_frame "Status" "x" H)).
  apply has_column_true. vm_compute. reflexivity.
Defined.

(** ** Start-up *)

Ltac world := cbn [heap app_state_data].

Lemma startup_run (raw : DataFrame) (w : World) :
  has_column "Date" raw = true ->
  has_column "Total" raw = true ->
  has_column "Quantity" raw = true ->
  exists w', startup_db_client (Ok raw) w = (Ok tt, w') /\
             heap w' !! app_state_data w' = Some (coerce_frame raw).
Proof.
  intros HD HT HQ. unfold startup_db_client, try_except.
  rewrite bind_lift, bind_alloc, bind_set_app_state_data. world.
  rewrite bind_get_app_state_data. world.
  erewrite bind_deref by (world; apply lookup_insert_eq).
  rewrite bind_lift, (getitem_present _ _ HD).
  erewrite bind_modify by (world; apply lookup_insert_eq). world.
  rewrite insert_insert_eq.
  rewrite bind_get_app_state_data. world.
  erewrite bind_deref by (world; apply lookup_insert_eq).
  rewrite bind_lift, getitem_present by (by apply has_column_setitem_series).
  erewrite bind_modify by (world; apply lookup_insert_eq). world.
  rewrite insert_insert_eq.
  rewrite bind_get_app_state_data. world.
  erewrite bind_deref by (world; apply lookup_insert_eq).
  rewrite bind_lift, getitem_present by (by do 2 apply has_column_setitem_series).
  erewrite bind_modify by (world; apply lookup_insert_eq). world.
  rewrite insert_insert_eq.
  rewrite bind_get_app_state_data. world.
  erewrite bind_deref by (world; apply lookup_insert_eq).
  rewrite bind_alloc. world. unfold set_app_state_data. world.
  eexists. split; [reflexivity|]. world.
  by rewrite lookup_insert_eq.
Qed.

Lemma coerce_number_cases (c : cell) :
  coerce_number c = CNum (match to_numeric c with CNum q => q | _ => 0%Qc end).
Proof.
  unfold coerce_number.
  destruct c as [q|s| | |]; simpl; try done.
  by destruct (parse_decimal s).
Qed.

Lemma setitem_series_column (name col : string) (g : cell -> cell) (df : DataFrame) :
  rows (setitem_series name (g <$> column_values col df) df)
  = (fun r => <[name := g (cell_at col r)]> r) <$> rows df.
Proof.
  unfold column_values. rewrite <- list_fmap_compose.
  apply (setitem_series_rows name (g ∘ cell_at col)).
Qed.

Lemma coerce_frame_rows (raw : DataFrame) :
  rows (coerce_frame raw) = coerce_row <$> rows raw.
Proof.
  unfold coerce_frame. cbn zeta.
  unfold fillna_empty. cbn [rows].
  rewrite !setitem_series_column, <- !list_fmap_compose.
  apply list_fmap_ext. intros i r _. cbn [compose]. unfold coerce_row.
  rewrite !cell_at_insert_ne by done. done.
Qed.

Lemma coerce_frame_columns (raw : DataFrame) :
  has_column "Date" raw = true ->
  has_column "Total" raw = true ->
  has_column "Quantity" raw = true ->
  columns (coerce_frame raw) = columns raw.
Proof.
  rewrite !has_column_true. intros HD HT HQ.
  unfold coerce_frame, fillna_empty, setitem_series. cbn [columns].
  rewrite (add_label_present "Date") by done.
  rewrite (add_label_present "Total") by done.
  by rewrite (add_label_present "Quantity") by done.
Qed.

Lemma coerce_row_number (col : string) (r : gmap string cell) :
  col = "Total"%string \/ col = "Quantity"%string ->
  cell_at col (coerce_row r) = CNum (coerced_value col r).
Proof.
  intros [-> | ->]; unfold coerce_row, cell_at at 1; rewrite lookup_fmap.
  - rewrite lookup_insert_ne, lookup_insert_eq by done. cbn.
    by rewrite coerce_number_cases.
  - rewrite lookup_insert_eq. cbn. by rewrite coerce_number_cases.
Qed.

Lemma coerce_row_date (r : gmap string cell) :
  is_datetime (cell_at "Date" (coerce_row r)) = true.
Proof.
  unfold coerce_row, cell_at at 1. rewrite lookup_fmap.
  rewrite !lookup_insert_ne, lookup_insert_eq by done. cbn.
  destruct (cell_at "Date" r) as [q|s|t| |]; cbn; try done.
  by destruct (strptime_dmy s).
Qed.

Lemma coerce_row_typed (r : gmap string cell) : typed_row (coerce_row r) = true.
Proof.
  unfold typed_row.
  rewrite coerce_row_date, !coerce_row_number by auto. done.
Qed.

Lemma forallb_fmap_true {A B} (p : B -> bool) (g : A -> B) (l : list A) :
  (forall x, p (g x) = true) -> forallb p (g <$> l) = true.
Proof.
  intros H. induction l as [|x l IH]; [done|].
  rewrite fmap_cons. cbn. by rewrite H, IH.
Qed.

Lemma coerce_frame_typed (raw : DataFrame) :
  has_column "Date" raw = true ->
  has_column "Total" raw = true ->
  has_column "Quantity" raw = true ->
  typed_frame (coerce_frame raw) = true.
Proof.
  intros HD HT HQ. unfold typed_frame.
  assert (Hc : forall c, has_column c (coerce_frame raw) = has_column c raw).
  { intros c. unfold has_column. by rewrite coerce_frame_columns. }
  rewrite !Hc, HD, HT, HQ, coerce_frame_rows. cbn.
  apply forallb_fmap_true, coerce_row_typed.
Qed.

(** ** Reading the statistics *)

Lemma extends_refl (w : World) : extends w w.
Proof. by split. Qed.

Lemma extends_fresh (w : World) (df : DataFrame) :
  extends w (mkWorld (<[fresh (dom (heap w)) := df]> (heap w)) (app_state_data w)).
Proof.
  split; [done|]. intros l [x Hx]. world.
  rewrite lookup_insert_ne; [done|]. by eapply fresh_not_allocated.
Qed.

Lemma get_stats_run (w : World) (df : DataFrame) :
  heap w !! app_state_data w = Some df ->
  exists w', get_stats w = (or_500 (stats_of df), w') /\ extends w w'.
Proof.
  intros Hdf. unfold get_stats, try_except, stats_of.
  rewrite bind_get_app_state_data.
  erewrite bind_deref by done.
  rewrite bind_lift.
  destruct (basic_stats df) as [basic|e]; cbn [mbind result_bind];
    [|eexists; split; [reflexivity|apply extends_refl]].
  rewrite bind_run.
  destruct (has_column "Date" df) eqn:HD.
  - rewrite bind_lift, (getitem_present _ _ HD). cbn [mbind result_bind].
    rewrite bind_alloc.
    erewrite bind_modify by (world; apply lookup_insert_eq). world.
    rewrite insert_insert_eq.
    erewrite bind_deref by (world; apply lookup_insert_eq).
    unfold lift at 1.
    destruct (monthly_series _) as [monthly|e];
      [|eexists; split; [reflexivity|apply extends_fresh]].
    erewrite bind_deref
      by (world; rewrite lookup_insert_ne by (by eapply fresh_not_allocated); done).
    unfold lift. cbn [mbind result_bind].
    destruct (assemble_stats _ _ _) as [s|e];
      (eexists; split; [reflexivity|apply extends_fresh]).
  - unfold mret at 1, M_ret at 1.
    erewrite bind_deref by done.
    unfold lift. cbn [mbind result_bind].
    destruct (assemble_stats _ _ _) as [s|e];
      (eexists; split; [reflexivity|apply extends_refl]).
Qed.

Lemma get_stats_value (w : World) (df : DataFrame) :
  heap w !! app_state_data w = Some df ->
  (get_stats w).1 = or_500 (stats_of df).
Proof.
  intros H. destruct (get_stats_run w df H) as (w' & -> & _). done.
Qed.

(** ** Series of numbers *)

Lemma traverse_ok {A B} (f : A -> result B) (g : A -> B) (l : list A) :
  (forall x, x ∈ l -> f x = Ok (g x)) -> traverse f l = Ok (g <$> l).
Proof.
  induction l as [|x l IH]; intros H; [done|].
  cbn [traverse]. rewrite (H x) by left.
  rewrite IH by (intros y Hy; apply H; by right). done.
Qed.

Lemma numeric_values_numbers (qs : list Qc) : numeric_values (CNum <$> qs) = Ok qs.
Proof.
  unfold numeric_values.
  rewrite (traverse_ok numeric_or_skip (fun c => match c with CNum q => Some q | _ => None end)).
  - cbn [mbind result_bind]. f_equal.
    induction qs as [|q qs IH]; [done|]. rewrite fmap_cons. cbn. by rewrite IH.
  - intros c Hc. apply list_elem_of_fmap in Hc as (q & -> & _). done.
Qed.

Lemma series_sum_numbers (qs : list Qc) : series_sum (CNum <$> qs) = Ok (Qc_sum qs).
Proof. unfold series_sum. by rewrite numeric_values_numbers. Qed.

Lemma series_mean_numbers (qs : list Qc) :
  series_mean (CNum <$> qs)
  = Ok (match qs with
        | [] => CNaN
        | _ => CNum (Qc_sum qs / Qc_of_nat (length qs))%Qc
        end).
Proof. unfold series_mean. by rewrite numeric_values_numbers. Qed.

Lemma select_mask_fmap {A B} (g : A -> B) (l : list A) (mask : list bool) :
  select_mask (g <$> l) mask = g <$> select_mask l mask.
Proof.
  revert mask. induction l as [|x l IH]; intros [|b mask]; try done.
  rewrite fmap_cons. cbn [select_mask]. destruct b; [rewrite fmap_cons|]; by rewrite IH.
Qed.

(** Selecting by a mask computed row by row is filtering. *)
Lemma select_mask_filter {A} (p : A -> bool) (l : list A) :
  select_mask l (p <$> l) = List.filter p l.
Proof.
  induction l as [|x l IH]; [done|].
  rewrite fmap_cons. cbn [select_mask List.filter]. destruct (p x); by rewrite IH.
Qed.

Lemma group_of_numbers (k : cell) (by_ : list cell) (qs : list Qc) :
  group_of k by_ (CNum <$> qs)
  = CNum <$> select_mask qs ((fun c => bool_decide (c = k)) <$> by_).
Proof. unfold group_of. apply select_mask_fmap. Qed.

Lemma groupby_agg_numbers {B} (f : list cell -> result B) (f' : list Qc -> B)
    (by_ : list cell) (qs : list Qc) :
  (forall qs', f (CNum <$> qs') = Ok (f' qs')) ->
  groupby_agg f by_ (CNum <$> qs)
  = Ok ((fun k => (k, f' (select_mask qs ((fun c => bool_decide (c = k)) <$> by_))))
          <$> group_keys by_).
Proof.
  intros Hf. unfold groupby_agg. apply traverse_ok.
  intros k _. by rewrite group_of_numbers, Hf.
Qed.

(** ** Typed frames *)

Lemma typed_frame_columns (df : DataFrame) :
  typed_frame df = true ->
  has_column "Date" df = true /\ has_column "Total" df = true
  /\ has_column "Quantity" df = true.
Proof. unfold typed_frame. rewrite !andb_true_iff. tauto. Qed.

Lemma typed_frame_rows (df : DataFrame) (r : gmap string cell) :
  typed_frame df = true -> r ∈ rows df -> typed_row r = true.
Proof.
  unfold typed_frame. rewrite !andb_true_iff. intros (_ & H) Hr.
  rewrite forallb_forall in H. apply H. by apply list_elem_of_In.
Qed.

Lemma typed_column_numbers (col : string) (df : DataFrame) :
  col = "Total"%string \/ col = "Quantity"%string ->
  typed_frame df = true ->
  column_values col df = CNum <$> (number_at col <$> rows df).
Proof.
  intros Hcol Ht. unfold column_values. rewrite <- list_fmap_compose.
  apply list_fmap_ext. intros i r Hr. cbn [compose].
  assert (Hty : typed_row r = true)
    by (eapply typed_frame_rows; [done|by eapply list_elem_of_lookup_2]).
  unfold typed_row in Hty. rewrite !andb_true_iff in Hty.
  destruct Hty as ((_ & HT) & HQ). unfold number_at.
  destruct Hcol as [-> | ->].
  - by destruct (cell_at "Total" r).
  - by destruct (cell_at "Quantity" r).
Qed.

Lemma typed_frame_restrict (p : gmap string cell -> bool) (df : DataFrame) :
  typed_frame df = true -> typed_frame (restrict p df) = true.
Proof.
  unfold typed_frame, has_column. cbn [columns rows restrict].
  rewrite !andb_true_iff. intros (Hc & Hr). split; [done|].
  rewrite forallb_forall in *. intros r Hin.
  apply filter_In in Hin as [Hin _]. by apply Hr.
Qed.

(** ** The statistics of a typed frame *)

Lemma basic_stats_typed (df : DataFrame) :
  typed_frame df = true ->
  basic_stats df
  = Ok (length (rows df),
        Qc_sum (number_at "Total" <$> rows df),
        Qc_sum (number_at "Quantity" <$> rows df),
        if (0 <? length (rows df))%nat
        then (Qc_sum (number_at "Total" <$> rows df) / Qc_of_nat (length (rows df)))%Qc
        else 0%Qc).
Proof.
  intros Ht. destruct (typed_frame_columns df Ht) as (HD & HT & HQ).
  unfold basic_stats. rewrite HT, HQ, !getitem_present by done.
  rewrite !typed_column_numbers by auto.
  cbn [mbind result_bind]. rewrite !series_sum_numbers. done.
Qed.

Lemma series_count_numbers (qs : list Qc) : series_count (CNum <$> qs) = length qs.
Proof.
  unfold series_count. induction qs as [|q qs IH]; [done|].
  rewrite fmap_cons, filter_cons_True by done. cbn. by rewrite IH.
Qed.

Lemma month_column (df : DataFrame) :
  month_label <$> (to_datetime_coerce <$> column_values "Date" df)
  = row_month <$> rows df.
Proof. unfold column_values. by rewrite <- !list_fmap_compose. Qed.

Lemma monthly_series_typed (df : DataFrame) :
  typed_frame df = true ->
  monthly_series (setitem_series "Month" (row_month <$> rows df) df)
  = Ok (monthly_sales_of df, monthly_orders_of df, monthly_avg_of df).
Proof.
  intros Ht. destruct (typed_frame_columns df Ht) as (HD & HT & HQ).
  unfold monthly_series.
  rewrite (getitem_present "Month") by apply has_column_setitem_series_new.
  rewrite column_values_setitem_new. cbn [mbind result_bind].
  rewrite (getitem_present "Total") by (by apply has_column_setitem_series).
  rewrite column_values_setitem_other by done.
  rewrite typed_column_numbers by auto. cbn [mbind result_bind].
  rewrite (groupby_agg_numbers series_sum Qc_sum) by apply series_sum_numbers.
  cbn [mbind result_bind].
  rewrite (groupby_agg_numbers _ (fun qs => (mean_of qs, length qs))).
  - cbn [mbind result_bind]. unfold monthly_sales_of, monthly_orders_of, monthly_avg_of.
    by rewrite <- list_fmap_compose.
  - intros qs. by rewrite series_mean_numbers, series_count_numbers.
Qed.

Lemma counts_of_value (name : string) (df : DataFrame) :
  counts_of name df
  = Ok (if has_column name df then value_counts (column_values name df) else []).
Proof.
  unfold counts_of. destruct (has_column name df) eqn:H; [|done].
  by rewrite getitem_present.
Qed.

Lemma stats_of_typed (df : DataFrame) :
  typed_frame df = true ->
  exists s, stats_of df = Ok s /\
    total_records s = length (rows df) /\
    total_sales s = Qc_sum (number_at "Total" <$> rows df) /\
    total_quantity s = py_int (Qc_sum (number_at "Quantity" <$> rows df)) /\
    avg_order_value s
      = (if (0 <? length (rows df))%nat
         then (Qc_sum (number_at "Total" <$> rows df) / Qc_of_nat (length (rows df)))%Qc
         else 0%Qc) /\
    monthly_sales s = monthly_sales_of df /\
    monthly_orders s = monthly_orders_of df /\
    monthly_avg_values s = monthly_avg_of df /\
    top_skus s = (if has_column "SKU" df
                  then head 10 (value_counts (column_values "SKU" df)) else []).
Proof.
  intros Ht. destruct (typed_frame_columns df Ht) as (HD & HT & HQ).
  unfold stats_of. rewrite basic_stats_typed by done. cbn [mbind result_bind].
  rewrite HD, (getitem_present "Date") by done. cbn [mbind result_bind].
  rewrite month_column, monthly_series_typed by done.
  cbn [mbind result_bind]. unfold assemble_stats.
  rewrite !counts_of_value. cbn [mbind result_bind].
  rewrite HQ, andb_true_r.
  destruct (has_column "State" df) eqn:HS.
  - rewrite (getitem_present "State"), (getitem_present "Total"),
      (getitem_present "Quantity") by done.
    cbn [mbind result_bind].
    rewrite (typed_column_numbers "Total"), (typed_column_numbers "Quantity") by auto.
    rewrite (groupby_agg_numbers series_sum Qc_sum) by apply series_sum_numbers.
    cbn [mbind result_bind].
    rewrite (groupby_agg_numbers series_mean mean_of) by apply series_mean_numbers.
    destruct (has_column "SKU" df) eqn:HK.
    + rewrite getitem_present by done. cbn [mbind result_bind].
      eexists. split; [reflexivity|]. repeat split; reflexivity.
    + cbn [mbind result_bind]. eexists. split; [reflexivity|]. repeat split; reflexivity.
  - cbn [mbind result_bind].
    destruct (has_column "SKU" df) eqn:HK.
    + rewrite getitem_present by done. cbn [mbind result_bind].
      eexists. split; [reflexivity|]. repeat split; reflexivity.
    + cbn [mbind result_bind]. eexists. split; [reflexivity|]. repeat split; reflexivity.
Qed.

(** ** The scalar figures *)

Lemma py_int_of_Z (z : Z) : py_int (Qc_of_Z z) = z.
Proof.
  unfold py_int, Qc_of_Z. cbn [this Q2Qc].
  rewrite Qred_identity by (cbn; apply Z.gcd_1_r).
  cbn. apply Z.quot_1_r.
Qed.

Lemma number_at_coerce_row (col : string) (r : gmap string cell) :
  col = "Total"%string \/ col = "Quantity"%string ->
  number_at col (coerce_row r) = coerced_value col r.
Proof. intros H. unfold number_at. by rewrite coerce_row_number. Qed.

Lemma coerced_column_sum (col : string) (raw : DataFrame) :
  col = "Total"%string \/ col = "Quantity"%string ->
  Qc_sum (number_at col <$> rows (coerce_frame raw))
  = Qc_sum (coerced_value col <$> rows raw).
Proof.
  intros H. rewrite coerce_frame_rows, <- list_fmap_compose. f_equal.
  apply list_fmap_ext. intros i r _. by apply number_at_coerce_row.
Qed.




(** ** Filtering *)

Lemma filter_all_true {A} (p : A -> bool) (l : list A) :
  (forall x, x ∈ l -> p x = true) -> List.filter p l = l.
Proof.
  induction l as [|x l IH]; intros H; [done|].
  cbn. rewrite (H x) by left. f_equal. apply IH. intros y Hy. apply H. by right.
Qed.

Lemma filter_all_false {A} (p : A -> bool) (l : list A) :
  (forall x, x ∈ l -> p x = false) -> List.filter p l = [].
Proof.
  induction l as [|x l IH]; intros H; [done|].
  cbn. rewrite (H x) by left. apply IH. intros y Hy. apply H. by right.
Qed.

Lemma filter_filter {A} (p1 p2 : A -> bool) (l : list A) :
  List.filter p2 (List.filter p1 l) = List.filter (fun x => p1 x && p2 x) l.
Proof.
  induction l as [|x l IH]; [done|].
  cbn. destruct (p1 x); cbn; [destruct (p2 x)|]; by rewrite IH.
Qed.

Lemma restrict_restrict (p1 p2 : gmap string cell -> bool) (df : DataFrame) :
  restrict p2 (restrict p1 df) = restrict (fun r => p1 r && p2 r) df.
Proof. unfold restrict. cbn. by rewrite filter_filter. Qed.

Lemma restrict_all (p : gmap string cell -> bool) (df : DataFrame) :
  (forall r, r ∈ rows df -> p r = true) -> restrict p df = df.
Proof. intros H. unfold restrict. rewrite filter_all_true by done. apply frame_eta. Qed.

Lemma has_column_restrict (name : string) (p : gmap string cell -> bool) (df : DataFrame) :
  has_column name (restrict p df) = has_column name df.
Proof. done. Qed.

Lemma getitem_mask_rowwise (p : gmap string cell -> bool) (df : DataFrame) :
  getitem_mask (p <$> rows df) df = restrict p df.
Proof. unfold getitem_mask, restrict. by rewrite select_mask_filter. Qed.

Lemma filter_equal_inactive (col : string) (v : option string) (df : DataFrame) :
  v = None \/ v = Some ""%string \/ v = Some "All"%string ->
  filter_equal col v df = Ok df.
Proof. by intros [-> | [-> | ->]]. Qed.

Lemma filter_equal_value (col : string) (v : option string) (df : DataFrame) :
  has_column col df = true ->
  filter_equal col v df = Ok (restrict (row_equal col v) df).
Proof.
  intros Hc. unfold filter_equal, row_equal.
  destruct v as [s|]; [|by rewrite restrict_all].
  destruct (truthy (Some s) && bool_decide (s ≠ "All"%string)); [|by rewrite restrict_all].
  rewrite getitem_present by done. cbn [mbind result_bind].
  unfold column_values. rewrite <- list_fmap_compose.
  by rewrite getitem_mask_rowwise.
Qed.

Lemma compare_cells (cmp : cell -> result bool) (col : string)
    (df : DataFrame) :
  has_column col df = true ->
  (forall r, r ∈ rows df -> cmp (cell_at col r) = Ok (holds (cmp (cell_at col r)))) ->
  (c ← getitem col df; mask ← traverse cmp c; Ok (getitem_mask mask df))
  = Ok (restrict (fun r => holds (cmp (cell_at col r))) df).
Proof.
  intros Hc Hok. rewrite getitem_present by done. cbn [mbind result_bind].
  unfold column_values.
  rewrite (traverse_ok cmp (fun c => holds (cmp c))).
  - cbn [mbind result_bind]. rewrite <- list_fmap_compose.
    by rewrite getitem_mask_rowwise.
  - intros c Hin. apply list_elem_of_fmap in Hin as (r & -> & Hr). by apply Hok.
Qed.

Lemma holds_ok (b : bool) : Ok b = Ok (holds (Ok b)).
Proof. by destruct b. Qed.

Lemma filter_number_value (cmp : Qc -> cell -> result bool) (v : option Qc)
    (df : DataFrame) :
  (forall x q, exists b, cmp x (CNum q) = Ok b) ->
  typed_frame df = true ->
  filter_number cmp v df = Ok (restrict (row_number cmp v) df).
Proof.
  intros Hcmp Ht. destruct (typed_frame_columns df Ht) as (HD & HT & HQ).
  unfold filter_number, row_number.
  destruct v as [x|]; [|by rewrite restrict_all].
  apply (compare_cells (cmp x)); [done|].
  intros r Hr. pose proof (typed_frame_rows df r Ht Hr) as Hty.
  unfold typed_row in Hty. rewrite !andb_true_iff in Hty.
  destruct Hty as ((_ & Hn) & _).
  destruct (cell_at "Total" r) as [q|s0|t| |]; try done.
  destruct (Hcmp x q) as [b ->]. apply holds_ok.
Qed.

Lemma filter_date_value (cmp : option Timestamp -> cell -> result bool)
    (v : option string) (df : DataFrame) :
  (forall b t, exists c, cmp b (CTime t) = Ok c) ->
  (forall b, exists c, cmp b CNaT = Ok c) ->
  typed_frame df = true ->
  filter_date cmp v df = Ok (restrict (row_date cmp v) df).
Proof.
  intros Hcmp Hnat Ht. destruct (typed_frame_columns df Ht) as (HD & HT & HQ).
  unfold filter_date, row_date.
  destruct v as [s|]; [|by rewrite restrict_all].
  destruct (truthy (Some s)); [|by rewrite restrict_all].
  cbn zeta. apply (compare_cells (cmp (parse_datetime_guess s))); [done|].
  intros r Hr. pose proof (typed_frame_rows df r Ht Hr) as Hty.
  unfold typed_row in Hty. rewrite !andb_true_iff in Hty.
  destruct Hty as ((Hd & _) & _).
  destruct (cell_at "Date" r) as [q0|s0|t| |]; try done.
  - destruct (Hcmp (parse_datetime_guess s) t) as [c ->]. apply holds_ok.
  - destruct (Hnat (parse_datetime_guess s)) as [c ->]. apply holds_ok.
Qed.

Lemma sales_table_typed (df : DataFrame) : sales_table df = true -> typed_frame df = true.
Proof. unfold sales_table. rewrite andb_true_iff. tauto. Qed.

Lemma sales_table_column (col : string) (df : DataFrame) :
  sales_table df = true -> col ∈ filter_columns -> has_column col df = true.
Proof.
  unfold sales_table. rewrite andb_true_iff, forallb_forall. intros [_ H] Hin.
  apply H. by apply list_elem_of_In.
Qed.

Lemma sales_table_restrict (p : gmap string cell -> bool) (df : DataFrame) :
  sales_table df = true -> sales_table (restrict p df) = true.
Proof.
  unfold sales_table. rewrite !andb_true_iff. intros [Ht Hc].
  split; [by apply typed_frame_restrict|done].
Qed.

(** On a table with the schema, the filtering steps keep exactly the rows
    that satisfy the row predicate, in stored order. *)
Lemma apply_filters_value (q : Criteria) (df : DataFrame) :
  sales_table df = true ->
  apply_filters q df = Ok (restrict (row_matches q) df).
Proof.
  intros Hs. unfold apply_filters.
  repeat (rewrite filter_equal_value;
          [cbn [mbind result_bind]; rewrite ?restrict_restrict
          |rewrite ?has_column_restrict; apply sales_table_column; [done|set_solver]]).
  rewrite (filter_number_value ge_number);
    [|intros x [? ?]; eexists; reflexivity
     |by apply typed_frame_restrict, sales_table_typed].
  cbn [mbind result_bind]. rewrite restrict_restrict.
  rewrite (filter_number_value le_number);
    [|intros x [? ?]; eexists; reflexivity
     |by apply typed_frame_restrict, sales_table_typed].
  cbn [mbind result_bind]. rewrite restrict_restrict.
  rewrite (filter_date_value ge_timestamp);
    [|intros [b|] t; eexists; reflexivity|intros b; eexists; reflexivity
     |by apply typed_frame_restrict, sales_table_typed].
  cbn [mbind result_bind]. rewrite restrict_restrict.
  rewrite (filter_date_value le_timestamp);
    [|intros [b|] t; eexists; reflexivity|intros b; eexists; reflexivity
     |by apply typed_frame_restrict, sales_table_typed].
  rewrite restrict_restrict. done.
Qed.

(** ** The filtering endpoints *)

Lemma mean_or_zero_typed (df : DataFrame) :
  typed_frame df = true -> exists c, mean_or_zero df = Ok c.
Proof.
  intros Ht. destruct (typed_frame_columns df Ht) as (HD & HT & HQ).
  unfold mean_or_zero. destruct (0 <? length (rows df))%nat; [|by eexists].
  rewrite getitem_present by done. cbn [mbind result_bind].
  rewrite typed_column_numbers, series_mean_numbers by auto. by eexists.
Qed.

Lemma column_sum_typed (col : string) (df : DataFrame) :
  col = "Total"%string \/ col = "Quantity"%string ->
  typed_frame df = true ->
  (s ← getitem col df; series_sum s) = Ok (Qc_sum (number_at col <$> rows df)).
Proof.
  intros Hcol Ht. destruct (typed_frame_columns df Ht) as (HD & HT & HQ).
  rewrite getitem_present by (by destruct Hcol as [-> | ->]).
  cbn [mbind result_bind]. by rewrite typed_column_numbers, series_sum_numbers.
Qed.

Lemma filtered_page_value (q : Criteria) (skip limit : Z) (df : DataFrame) :
  sales_table df = true ->
  exists r, filtered_page q skip limit df = Ok r /\
    fp_data r = to_dict_records (iloc skip (skip + limit) (restrict (row_matches q) df)) /\
    fp_total_count r = length (List.filter (row_matches q) (rows df)).
Proof.
  intros Hs. unfold filtered_page.
  rewrite apply_filters_value by done. cbn [mbind result_bind].
  assert (Ht : typed_frame (restrict (row_matches q) df) = true)
    by (by apply typed_frame_restrict, sales_table_typed).
  rewrite (column_sum_typed "Total") by auto. cbn [mbind result_bind].
  destruct (mean_or_zero_typed _ Ht) as [c ->]. cbn [mbind result_bind].
  rewrite (column_sum_typed "Quantity") by auto. cbn [mbind result_bind].
  eexists. split; [reflexivity|]. by split.
Qed.

Lemma filtered_stats_value (q : Criteria) (df : DataFrame) :
  sales_table df = true ->
  exists st, filtered_stats q df = Ok st /\
    total_count st = length (List.filter (row_matches q) (rows df)) /\
    fs_total_sales st
      = Qc_sum (number_at "Total" <$> List.filter (row_matches q) (rows df)).
Proof.
  intros Hs. unfold filtered_stats.
  rewrite apply_filters_value by done. cbn [mbind result_bind].
  assert (Ht : typed_frame (restrict (row_matches q) df) = true)
    by (by apply typed_frame_restrict, sales_table_typed).
  rewrite (column_sum_typed "Total") by auto. cbn [mbind result_bind].
  destruct (mean_or_zero_typed _ Ht) as [c ->]. cbn [mbind result_bind].
  rewrite (column_sum_typed "Quantity") by auto. cbn [mbind result_bind].
  rewrite (getitem_present "State")
    by (rewrite has_column_restrict; apply sales_table_column; [done|set_solver]).
  cbn [mbind result_bind].
  destruct (typed_frame_columns _ Ht) as (_ & HT & _).
  rewrite (getitem_present "Total") by done. cbn [mbind result_bind].
  rewrite (typed_column_numbers "Total") by auto.
  rewrite (groupby_agg_numbers series_sum Qc_sum) by apply series_sum_numbers.
  cbn [mbind result_bind].
  rewrite (getitem_present "Status")
    by (rewrite has_column_restrict; apply sales_table_column; [done|set_solver]).
  cbn [mbind result_bind].
  eexists. split; [reflexivity|]. by split.
Qed.

Lemma get_filtered_stats_run (q : Criteria) (w : World) (df : DataFrame) :
  heap w !! app_state_data w = Some df ->
  exists w', get_filtered_stats q w = (or_500 (filtered_stats q df), w') /\ extends w w'.
Proof.
  intros Hdf. unfold get_filtered_stats, try_except.
  rewrite bind_get_app_state_data.
  erewrite bind_deref by done.
  rewrite bind_alloc.
  erewrite bind_deref by (world; apply lookup_insert_eq).
  unfold lift.
  destruct (filtered_stats q df);
    (eexists; split; [reflexivity|apply extends_fresh]).
Qed.

Lemma filter_data_run (q : Criteria) (skip limit : Z) (w : World) (df : DataFrame) :
  heap w !! app_state_data w = Some df ->
  exists w', filter_data q skip limit w
             = (or_500 (r ← filtered_page q skip limit df; Ok (fp_data r)), w')
             /\ extends w w'.
Proof.
  intros Hdf. unfold filter_data, try_except.
  rewrite bind_get_app_state_data.
  erewrite bind_deref by done.
  rewrite bind_alloc.
  erewrite bind_deref by (world; apply lookup_insert_eq).
  rewrite bind_lift.
  destruct (filtered_page q skip limit df);
    (eexists; split; [reflexivity|apply extends_fresh]).
Qed.

(** ** No filter *)

Lemma row_equal_inactive (col : string) (v : option string) (r : gmap string cell) :
  absent_or_all v = true -> row_equal col v r = true.
Proof.
  destruct v as [s|]; [|done]. cbn. intros H. apply bool_decide_eq_true in H as ->.
  done.
Qed.

Lemma no_filter_matches (q : Criteria) (r : gmap string cell) :
  no_filter q = true -> row_matches q r = true.
Proof.
  unfold no_filter, row_matches. rewrite !andb_true_iff.
  intros (((((((((H1 & H2) & H3) & H4) & H5) & H6) & H7) & H8) & H9) & H10).
  rewrite !row_equal_inactive by done.
  destruct (min_total q); [done|]. destruct (max_total q); [done|].
  destruct (from_date q); [done|]. by destruct (to_date q).
Qed.



(** ** A date bound that does not parse *)

Lemma row_date_unparsable (cmp : option Timestamp -> cell -> result bool)
    (v : option string) (r : gmap string cell) :
  (forall c, holds (cmp None c) = false) ->
  unparsable_bound v = true -> row_date cmp v r = false.
Proof.
  intros Hcmp Hv. destruct v as [s|]; [|done].
  cbn in Hv. apply andb_true_iff in Hv as [Hne Hp].
  unfold row_date, truthy. rewrite Hne.
  by destruct (parse_datetime_guess s).
Qed.

Lemma unparsable_matches_nothing (q : Criteria) (r : gmap string cell) :
  unparsable_bound (from_date q) = true \/ unparsable_bound (to_date q) = true ->
  row_matches q r = false.
Proof.
  intros [H | H]; unfold row_matches.
  - rewrite (row_date_unparsable ge_timestamp _ _ ltac:(by intros []) H).
    by rewrite andb_false_r.
  - rewrite (row_date_unparsable le_timestamp _ _ ltac:(by intros []) H).
    by rewrite andb_false_r.
Qed.

Lemma py_slice_nil {A} (start stop : Z) : py_slice start stop (@nil A) = [].
Proof. unfold py_slice. by rewrite drop_nil, take_nil. Qed.




(** ** Reads leave the stored table alone *)

Lemma get_columns_run (w : World) (df : DataFrame) :
  heap w !! app_state_data w = Some df -> get_columns w = (Ok (columns df), w).
Proof.
  intros Hdf. unfold get_columns.
  rewrite bind_get_app_state_data. by erewrite bind_deref by done.
Qed.

Lemma get_filter_options_run (w : World) (df : DataFrame) :
  heap w !! app_state_data w = Some df ->
  get_filter_options w = (or_500 (filter_options_of df), w).
Proof.
  intros Hdf. unfold get_filter_options, try_except.
  rewrite bind_get_app_state_data. erewrite bind_deref by done.
  unfold lift. by destruct (filter_options_of df).
Qed.

Lemma extends_stored (w w' : World) (df : DataFrame) :
  heap w !! app_state_data w = Some df -> extends w w' ->
  app_state_data w' = app_state_data w /\ heap w' !! app_state_data w' = Some df.
Proof.
  intros Hdf [Happ Hheap]. split; [done|].
  rewrite Happ, Hheap; [done|by exists df].
Qed.

Lemma setitem_scalar_changes (name : string) (v : cell) (df : DataFrame) :
  name ∉ columns df -> setitem_scalar name v df ≠ df.
Proof.
  intros Hfresh Heq. apply (f_equal (fun d => length (columns d))) in Heq.
  cbn in Heq. rewrite add_label_fresh, length_app in Heq by done. cbn in Heq. lia.
Qed.

(** C10.  With the stored frame [df]: each read endpoint ([get_data],
    [get_stats], [filter_data], [get_filtered_stats], [get_columns],
    [get_filter_options]) leaves [app.state.data] bound to the same object,
    that object still holding [df], and every other object that existed
    before as it was; what the filtering endpoints and the monthly series
    assign or select lands in newly allocated copies.  [add_column] with a
    new label is the one that changes the stored frame. *)
Theorem reads_preserve_stored_frame (w : World) (df : DataFrame) :
  heap w !! app_state_data w = Some df ->
  (forall skip limit, (get_data skip limit w).2 = w) /\
  get_columns w = (Ok (columns df), w) /\
  (get_filter_options w).2 = w /\
  (extends w (get_stats w).2 /\
   heap (get_stats w).2 !! app_state_data (get_stats w).2 = Some df) /\
  (forall q skip limit,
     extends w (filter_data q skip limit w).2 /\
     heap (filter_data q skip limit w).2
       !! app_state_data (filter_data q skip limit w).2 = Some df) /\
  (forall q,
     extends w (get_filtered_stats q w).2 /\
     heap (get_filtered_stats q w).2
       !! app_state_data (get_filtered_stats q w).2 = Some df) /\
  (forall name dflt, name ∉ columns df ->
     heap (add_column name dflt w).2 !! app_state_data (add_column name dflt w).2
       = Some (setitem_scalar name (CStr dflt) df) /\
     setitem_scalar name (CStr dflt) df ≠ df).
Proof.
  intros Hdf.
  split; [|split; [|split; [|split; [|split; [|split]]]]].
  - intros skip limit. by rewrite (get_data_run _ _ _ _ Hdf).
  - by apply get_columns_run.
  - by rewrite (get_filter_options_run _ _ Hdf).
  - destruct (get_stats_run w df Hdf) as (w' & -> & Hext).
    split; [done|]. by apply (extends_stored w w' df).
  - intros q skip limit.
    destruct (filter_data_run q skip limit w df Hdf) as (w' & -> & Hext).
    split; [done|]. by apply (extends_stored w w' df).
  - intros q.
    destruct (get_filtered_stats_run q w df Hdf) as (w' & -> & Hext).
    split; [done|]. by apply (extends_stored w w' df).
  - intros name dflt Hfresh. split; [|by apply setitem_scalar_changes].
    rewrite (add_column_fresh _ _ _ _ Hdf Hfresh). cbn. apply lookup_insert_eq.
Qed.

Lemma reads_preserve_stored_frame_witness :
  heap sample_world !! app_state_data sample_world = Some sample_frame /\
  heap (get_stats sample_world).2 !! app_state_data (get_stats sample_world).2
    = Some sample_frame.
Proof.
  assert (H : heap sample_world !! app_state_data sample_world = Some sample_frame)
    by (vm_compute; reflexivity).
  split; [exact H|].
  destruct (reads_preserve_stored_frame sample_world sample_frame H)
    as (_ & _ & _ & [_ P] & _).
  exact P.
Defined.

(** ** The empty string as a filter value *)

Lemma pass_all_cases (v : option string) :
  pass_all v = true -> v = None \/ v = Some ""%string \/ v = Some "All"%string.
Proof.
  destruct v as [s|]; [|auto]. cbn. rewrite orb_true_iff, !bool_decide_eq_true.
  intros [-> | ->]; auto.
Qed.

Ltac filter_step Hv :=
  match goal with
  | |- (filter_equal ?c ?x ?d ≫= _) = (filter_equal ?c ?x ?d ≫= _) =>
      destruct (filter_equal c x d); cbn [mbind result_bind]; [|reflexivity]
  | |- (filter_equal ?c ?x ?d ≫= _) = (filter_equal ?c None ?d ≫= _) =>
      rewrite (filter_equal_inactive c x d Hv);
      rewrite (filter_equal_inactive c None d) by auto;
      cbn [mbind result_bind]
  end.

Lemma apply_filters_pass_all (f : cat_field) (v : option string) (q : Criteria)
    (df : DataFrame) :
  pass_all v = true ->
  apply_filters (with_field f v q) df = apply_filters (with_field f None q) df.
Proof.
  intros Hv. apply pass_all_cases in Hv.
  destruct f; unfold apply_filters;
    cbn [with_field status delivery_status country province state payment_method
         from_date to_date min_total max_total];
    repeat filter_step Hv; reflexivity.
Qed.

Lemma get_filtered_stats_ext (q1 q2 : Criteria) (w : World) :
  (forall df, apply_filters q1 df = apply_filters q2 df) ->
  get_filtered_stats q1 w = get_filtered_stats q2 w.
Proof.
  intros H. unfold get_filtered_stats, try_except.
  rewrite !bind_get_app_state_data.
  destruct (heap w !! app_state_data w) as [df|] eqn:Hdf.
  - erewrite !bind_deref by done. rewrite !bind_alloc.
    erewrite !bind_deref by (world; apply lookup_insert_eq).
    unfold filtered_stats. by rewrite H.
  - rewrite !bind_run. unfold deref. by rewrite Hdf.
Qed.

Lemma filter_data_ext (q1 q2 : Criteria) (skip limit : Z) (w : World) :
  (forall df, apply_filters q1 df = apply_filters q2 df) ->
  filter_data q1 skip limit w = filter_data q2 skip limit w.
Proof.
  intros H. unfold filter_data, try_except.
  rewrite !bind_get_app_state_data.
  destruct (heap w !! app_state_data w) as [df|] eqn:Hdf.
  - erewrite !bind_deref by done. rewrite !bind_alloc.
    erewrite !bind_deref by (world; apply lookup_insert_eq).
    unfold filtered_page. by rewrite H.
  - rewrite !bind_run. unfold deref. by rewrite Hdf.
Qed.

Lemma row_equal_insert_ne (c c' : string) (v : option string) (x : cell)
    (r : gmap string cell) :
  c' ≠ c -> row_equal c v (<[c' := x]> r) = row_equal c v r.
Proof. intros H. unfold row_equal. by rewrite cell_at_insert_ne. Qed.

Lemma row_number_insert_ne (cmp : Qc -> cell -> result bool) (c' : string)
    (v : option Qc) (x : cell) (r : gmap string cell) :
  c' ≠ "Total"%string -> row_number cmp v (<[c' := x]> r) = row_number cmp v r.
Proof. intros H. unfold row_number. by rewrite cell_at_insert_ne. Qed.

Lemma row_date_insert_ne (cmp : option Timestamp -> cell -> result bool) (c' : string)
    (v : option string) (x : cell) (r : gmap string cell) :
  c' ≠ "Date"%string -> row_date cmp v (<[c' := x]> r) = row_date cmp v r.
Proof. intros H. unfold row_date. by rewrite cell_at_insert_ne. Qed.

(** A filter that lets the empty cell through is not applied at all. *)
Lemma row_equal_blank (col : string) (v : option string) (r r' : gmap string cell) :
  cell_at col r = CStr "" -> row_equal col v r = true -> row_equal col v r' = true.
Proof.
  unfold row_equal. intros Hc. destruct v as [s|]; [|done].
  unfold truthy. case_bool_decide as Hs; [|done]. cbn [andb].
  destruct (bool_decide (s ≠ "All"%string)); [|done].
  rewrite Hc. unfold eq_text. case_bool_decide as He; [|done].
  congruence.
Qed.

Lemma row_matches_marked (f : cat_field) (q : Criteria) (x : cell)
    (r : gmap string cell) :
  (forall r', row_equal (field_column f) (field_value f q) r' = true) ->
  row_matches q (<[field_column f := x]> r) = row_matches q r.
Proof.
  intros H. unfold row_matches.
  destruct f; cbn [field_column field_value] in *; rewrite !H;
    by rewrite !row_equal_insert_ne, !row_number_insert_ne, !row_date_insert_ne by done.
Qed.

Lemma row_matches_field (f : cat_field) (q : Criteria) (r : gmap string cell) :
  row_equal (field_column f) (field_value f q) r = false -> row_matches q r = false.
Proof.
  intros H. unfold row_matches.
  destruct f; cbn [field_column field_value] in H; rewrite H;
    by rewrite ?andb_false_r.
Qed.


(** ** Parsing dates at load time and at filter time *)

Lemma split_on_nonempty (sep : ascii) (s : string) : split_on sep s ≠ [].
Proof.
  induction s as [|a s IH]; [done|]. cbn [split_on].
  case_bool_decide; [done|]. by destruct (split_on sep s).
Qed.

Lemma has_char_split (c sep : ascii) (s : string) :
  c ≠ sep -> has_char c s = existsb (has_char c) (split_on sep s).
Proof.
  intros Hne. induction s as [|a s IH]; [done|].
  cbn [split_on has_char]. destruct (decide (a = sep)) as [->|Ha].
  - rewrite (bool_decide_eq_true_2 (sep = sep)) by done.
    rewrite (bool_decide_eq_false_2 (sep = c)) by congruence.
    cbn [existsb has_char orb]. by rewrite IH.
  - rewrite (bool_decide_eq_false_2 (a = sep)) by done.
    pose proof (split_on_nonempty sep s) as Hn.
    destruct (split_on sep s) as [|f fs]; [done|].
    cbn [existsb has_char] in *. by rewrite IH, orb_assoc.
Qed.

Lemma split_on_absent (sep : ascii) (s : string) :
  has_char sep s = false -> split_on sep s = [s].
Proof.
  induction s as [|a s IH]; [done|]. cbn [has_char split_on].
  rewrite orb_false_iff. intros [Ha Hs]. rewrite Ha. by rewrite IH.
Qed.

Lemma digits_no_dash (s : string) (acc v : Z) :
  digits_value acc s = Some v -> has_char "-" s = false.
Proof.
  revert acc. induction s as [|a s IH]; intros acc H; [done|].
  cbn [digits_value has_char] in *.
  destruct (digit_value a) as [d|] eqn:Hd; [|done].
  rewrite (IH _ H), orb_false_r. apply bool_decide_eq_false.
  intros ->. by vm_compute in Hd.
Qed.

Lemma parse_digits_no_dash (lo hi : nat) (s : string) (v : Z) :
  parse_digits lo hi s = Some v -> has_char "-" s = false.
Proof.
  unfold parse_digits. case_bool_decide; [|done]. apply digits_no_dash.
Qed.

(** A slash-separated date of digits has no dash, so format inference does
    not take it for an ISO date. *)
Lemma slash_date_not_iso (s d m y : string) (dv mv yv : Z) :
  split_on "/" s = [d; m; y] ->
  parse_digits 1 2 d = Some dv ->
  parse_digits 1 2 m = Some mv ->
  parse_digits 4 4 y = Some yv ->
  split_on "-" s = [s].
Proof.
  intros Hs Hd Hm Hy. apply split_on_absent.
  rewrite (has_char_split "-" "/") by done. rewrite Hs. cbn [existsb].
  by rewrite (parse_digits_no_dash _ _ _ _ Hd), (parse_digits_no_dash _ _ _ _ Hm),
    (parse_digits_no_dash _ _ _ _ Hy).
Qed.

Lemma make_date_fields (y m d : Z) (t : Timestamp) :
  make_date y m d = Some t -> t = mkTimestamp y m d 0.
Proof. unfold make_date. by destruct (_ && _); intros [= <-]. Qed.

Lemma make_date_month_range (y m d : Z) : 12 < m -> make_date y m d = None.
Proof.
  intros H. unfold make_date.
  replace (m <=? 12) with false by (symmetry; apply Z.leb_gt; lia).
  by rewrite andb_false_r.
Qed.

(** C3, as stated, fails.  ["05/01/2023"] is 5 January at load time and
    1 May at filter time; ["2023-01-05"] fails at load time and is 5 January
    at filter time.  So the first sample row, loaded from ["05/01/2023"], is
    not found by filtering from ["05/01/2023"] to ["05/01/2023"]. *)
Lemma date_format_mismatch_counterexample :
  strptime_dmy "05/01/2023" = Some (mkTimestamp 2023 1 5 0) /\
  parse_datetime_guess "05/01/2023" = Some (mkTimestamp 2023 5 1 0) /\
  strptime_dmy "05/01/2023" ≠ parse_datetime_guess "05/01/2023" /\
  strptime_dmy "2023-01-05" = None /\
  parse_datetime_guess "2023-01-05" = Some (mkTimestamp 2023 1 5 0) /\
  cell_at "Date" <$> rows sample_csv !! 0%nat = Some (CStr "05/01/2023") /\
  exists st,
    (get_filtered_stats
       (mkCriteria None None None None None None
          (Some "05/01/2023"%string) (Some "05/01/2023"%string) None None)
       sample_world).1 = Ok st /\
    total_count st = 0%nat.
Proof.
  split; [reflexivity|]. split; [reflexivity|]. split; [by vm_compute|].
  split; [reflexivity|]. split; [reflexivity|]. split; [reflexivity|].
  eexists. split; [vm_compute; reflexivity|reflexivity].
Qed.

(** C3, amended.  Load-time coercion parses [Date] under the fixed
    day/month/year format; a [from_date] or [to_date] bound is parsed without
    that format, by inference.  A string the load-time format accepts parses
    to the same timestamp at filter time when its day is above 12 or equal to
    its month. *)
Theorem filter_date_agrees_when_unambiguous (s : string) (t : Timestamp) :
  strptime_dmy s = Some t ->
  12 < ts_day t \/ ts_day t = ts_month t ->
  parse_datetime_guess s = Some t.
Proof.
  unfold strptime_dmy. intros Hload Hday.
  destruct (split_on "/" s) as [|d [|m [|y [|? ?]]]] eqn:Hs; try done.
  destruct (parse_digits 1 2 d) as [dv|] eqn:Hd; [|done].
  destruct (parse_digits 1 2 m) as [mv|] eqn:Hm; [|done].
  destruct (parse_digits 4 4 y) as [yv|] eqn:Hy; [|done].
  cbn [mbind option_bind] in Hload.
  pose proof (make_date_fields _ _ _ _ Hload) as ->. cbn [ts_day ts_month] in Hday.
  unfold parse_datetime_guess.
  rewrite (slash_date_not_iso s d m y dv mv yv) by done.
  rewrite Hs, Hd, Hm, Hy. cbn [mbind option_bind].
  destruct Hday as [Hgt | ->].
  - by rewrite make_date_month_range.
  - by rewrite Hload.
Qed.

Lemma filter_date_agrees_when_unambiguous_witness :
  strptime_dmy "15/02/2023" = Some (mkTimestamp 2023 2 15 0) /\
  12 < ts_day (mkTimestamp 2023 2 15 0) /\
  parse_datetime_guess "15/02/2023" = Some (mkTimestamp 2023 2 15 0).
Proof.
  assert (H : strptime_dmy "15/02/2023" = Some (mkTimestamp 2023 2 15 0)) by reflexivity.
  assert (Hd : 12 < ts_day (mkTimestamp 2023 2 15 0)) by (cbn; lia).
  split; [exact H|]. split; [exact Hd|].
  exact (filter_date_agrees_when_unambiguous _ _ H (or_introl Hd)).
Defined.

(** ** Sorting *)

Section SortingFacts.
Context {A : Type} (leb : A -> A -> bool).

Lemma elem_of_insert_sorted (z x : A) (l : list A) :
  z ∈ insert_sorted leb x l <-> z = x \/ z ∈ l.
Proof.
  induction l as [|y l IH]; cbn [insert_sorted].
  - rewrite elem_of_cons. tauto.
  - destruct (leb x y); [by rewrite !elem_of_cons|].
    rewrite !elem_of_cons, IH. tauto.
Qed.

Lemma elem_of_stable_sort (z : A) (l : list A) :
  z ∈ stable_sort leb l <-> z ∈ l.
Proof.
  induction l as [|y l IH]; [done|]. cbn [stable_sort foldr].
  rewrite elem_of_insert_sorted, elem_of_cons. fold (stable_sort leb l).
  by rewrite IH.
Qed.

Lemma insert_sorted_Sorted (x : A) (l : list A) :
  (forall a b, leb a b = false -> leb b a = true) ->
  Sorted (fun a b => leb a b = true) l ->
  Sorted (fun a b => leb a b = true) (insert_sorted leb x l).
Proof.
  intros Htot Hl. induction Hl as [|y l Hs IH Hd]; cbn [insert_sorted].
  - by repeat constructor.
  - destruct (leb x y) eqn:Hxy.
    + constructor; [by constructor|by constructor].
    + constructor; [done|].
      destruct Hd as [|z l Hyz]; cbn [insert_sorted].
      * constructor. by apply Htot.
      * destruct (leb x z); constructor; [by apply Htot|done].
Qed.

Lemma stable_sort_Sorted (l : list A) :
  (forall a b, leb a b = false -> leb b a = true) ->
  Sorted (fun a b => leb a b = true) (stable_sort leb l).
Proof.
  intros Htot. induction l as [|x l IH]; [constructor|].
  cbn [stable_sort foldr]. by apply insert_sorted_Sorted.
Qed.

End SortingFacts.

Lemma StronglySorted_impl_elem {A} (R R' : A -> A -> Prop) (l : list A) :
  (forall a b, a ∈ l -> b ∈ l -> R a b -> R' a b) ->
  StronglySorted R l -> StronglySorted R' l.
Proof.
  intros H Hl. induction Hl as [|x l Hl IH Hx]; constructor.
  - apply IH. intros a b Ha Hb. apply H; by right.
  - rewrite Forall_forall in *. intros y Hy. apply H; [by left|by right|by apply Hx].
Qed.

Lemma StronglySorted_filter {A} (R : A -> A -> Prop) (P : A -> Prop)
    `{!forall x, Decision (P x)} (l : list A) :
  StronglySorted R l -> StronglySorted R (filter P l).
Proof.
  induction 1 as [|x l Hl IH Hx]; [constructor|].
  rewrite filter_cons. destruct (decide (P x)); [|done].
  constructor; [done|]. rewrite Forall_forall in *.
  intros y Hy. apply Hx. by apply list_elem_of_filter in Hy as [_ ?].
Qed.

Lemma StronglySorted_map {A B} (R : A -> A -> Prop) (R' : B -> B -> Prop)
    (f : A -> B) (l : list A) :
  (forall x y, R x y -> R' (f x) (f y)) ->
  StronglySorted R l -> StronglySorted R' (f <$> l).
Proof.
  intros H. induction 1 as [|x l Hl IH Hx]; [constructor|].
  rewrite fmap_cons. constructor; [done|].
  apply Forall_forall. intros y Hy. rewrite Forall_forall in Hx.
  apply list_elem_of_fmap in Hy as (z & -> & Hz). apply H. by apply Hx.
Qed.

Lemma StronglySorted_take {A} (R : A -> A -> Prop) (n : nat) (l : list A) :
  StronglySorted R l -> StronglySorted R (take n l).
Proof.
  intros Hl. revert n. induction Hl as [|x l Hl IH Hx]; intros [|n]; cbn;
    try constructor; [done|by apply Forall_take].
Qed.

Lemma StronglySorted_lookup {A} (R : A -> A -> Prop) (l : list A) (i j : nat) (a b : A) :
  StronglySorted R l -> (i < j)%nat -> l !! i = Some a -> l !! j = Some b -> R a b.
Proof.
  intros Hl. revert i j. induction Hl as [|x l Hl IH Hx]; intros i j Hij Hi Hj; [done|].
  destruct j as [|j]; [lia|]. cbn in Hj. destruct i as [|i].
  - cbn in Hi. injection Hi as ->. rewrite Forall_forall in Hx.
    apply Hx. by eapply list_elem_of_lookup_2.
  - cbn in Hi. apply (IH i j); [lia|done|done].
Qed.

(** Sorting by descending count keeps values of equal count in the order
    they had. *)
Section CountsOrder.
Context (P : cell -> cell -> Prop).

Let lex (a b : cell * nat) : Prop :=
  (b.2 < a.2)%nat \/ (a.2 = b.2 /\ P a.1 b.1).

Lemma insert_by_count (x : cell * nat) (l : list (cell * nat)) :
  StronglySorted lex l ->
  Forall (fun y => P x.1 y.1) l ->
  StronglySorted lex (insert_sorted count_desc x l).
Proof.
  intros Hl. induction Hl as [|y l Hl IH Hy]; intros Hx; cbn [insert_sorted].
  - by repeat constructor.
  - apply Forall_cons in Hx as [Hxy Hxl]. unfold count_desc at 1.
    destruct (Nat.leb_spec y.2 x.2) as [Hle|Hlt].
    + constructor; [by constructor|]. constructor.
      * unfold lex. destruct (decide (y.2 = x.2)); [right|left]; [done|lia].
      * rewrite Forall_forall in *. intros z Hz.
        pose proof (Hy z Hz) as Hyz. pose proof (Hxl z Hz) as Hxz.
        unfold lex in *. destruct (decide (z.2 = x.2)); [right; done|left; lia].
    + constructor; [by apply IH|].
      rewrite Forall_forall in *. intros z Hz.
      apply elem_of_insert_sorted in Hz as [-> | Hz]; [left; lia|by apply Hy].
Qed.

Lemma sort_by_count (l : list (cell * nat)) :
  StronglySorted (fun a b => P a.1 b.1) l ->
  StronglySorted lex (stable_sort count_desc l).
Proof.
  induction 1 as [|x l Hl IH Hx]; [constructor|].
  cbn [stable_sort foldr]. apply insert_by_count; [done|].
  rewrite Forall_forall in *. intros y Hy.
  apply Hx. by apply elem_of_stable_sort in Hy.
Qed.

End CountsOrder.

(** ** First appearance *)

Lemma elem_of_unique (x : cell) (l : list cell) : x ∈ unique l <-> x ∈ l.
Proof.
  induction l as [|y l IH]; [done|]. cbn [unique].
  rewrite !elem_of_cons, list_elem_of_filter, IH.
  destruct (decide (x = y)); tauto.
Qed.

Lemma seen_before_later (x : cell) (s l : list cell) :
  (forall y, y ∈ l -> y ≠ x) ->
  StronglySorted (seen_before s) l -> StronglySorted (seen_before (x :: s)) l.
Proof.
  intros Hne. apply StronglySorted_impl_elem. intros a b Ha Hb.
  unfold seen_before. cbn [first_index].
  rewrite (bool_decide_eq_false_2 (x = a)) by (intros Heq; by apply (Hne a)).
  rewrite (bool_decide_eq_false_2 (x = b)) by (intros Heq; by apply (Hne b)).
  lia.
Qed.

Lemma unique_first_seen (s : list cell) :
  StronglySorted (seen_before s) (unique (filter (fun c => isna c = false) s)).
Proof.
  induction s as [|x s IH]; [constructor|].
  rewrite filter_cons. destruct (decide (isna x = false)) as [Hx|Hx].
  - cbn [unique]. constructor.
    + apply seen_before_later.
      * intros y Hy. by apply list_elem_of_filter in Hy as [? _].
      * by apply StronglySorted_filter.
    + rewrite Forall_forall. intros y Hy.
      apply list_elem_of_filter in Hy as [Hyx _].
      unfold seen_before. cbn [first_index].
      rewrite bool_decide_eq_true_2 by done.
      rewrite bool_decide_eq_false_2 by congruence. lia.
  - apply seen_before_later; [|done].
    intros y Hy ->. apply elem_of_unique, list_elem_of_filter in Hy as [? _]. done.
Qed.

Lemma value_counts_order (s : list cell) :
  StronglySorted (counts_order s) (value_counts s).
Proof.
  unfold value_counts. apply (sort_by_count (seen_before s)).
  unfold tally. eapply StronglySorted_map; [|apply unique_first_seen]. done.
Qed.

Lemma value_counts_entries (s : list cell) (e : cell * nat) :
  e ∈ value_counts s -> e.2 = occurrences e.1 s /\ e.1 ∈ s /\ isna e.1 = false.
Proof.
  unfold value_counts, tally. rewrite elem_of_stable_sort, list_elem_of_fmap.
  intros (k & -> & Hk). cbn.
  apply elem_of_unique, list_elem_of_filter in Hk as [? ?]. done.
Qed.



(** ** The order of labels *)

Lemma Qc_leb_total (x y : Qc) : Qc_leb x y = false -> Qc_leb y x = true.
Proof.
  unfold Qc_leb. rewrite bool_decide_eq_false, bool_decide_eq_true.
  intros H. apply Qclt_le_weak. by apply Qcnot_le_lt.
Qed.

Lemma ts_compare_antisym (a b : Timestamp) :
  ts_compare a b = CompOpp (ts_compare b a).
Proof.
  unfold ts_compare.
  rewrite (Z.compare_antisym (ts_year a) (ts_year b)),
    (Z.compare_antisym (ts_month a) (ts_month b)),
    (Z.compare_antisym (ts_day a) (ts_day b)),
    (Z.compare_antisym (ts_nanos a) (ts_nanos b)).
  destruct (ts_year a ?= ts_year b); cbn; try done.
  destruct (ts_month a ?= ts_month b); cbn; try done.
  destruct (ts_day a ?= ts_day b); cbn; try done.
  by destruct (ts_nanos a ?= ts_nanos b).
Qed.

Lemma ts_leb_total (a b : Timestamp) : ts_leb a b = false -> ts_leb b a = true.
Proof.
  unfold ts_leb. rewrite (ts_compare_antisym b a).
  by destruct (ts_compare a b).
Qed.

Lemma cell_leb_total (a b : cell) : cell_leb a b = false -> cell_leb b a = true.
Proof.
  destruct a as [x|x|x| |], b as [y|y|y| |]; cbn; try done.
  - apply Qc_leb_total.
  - intros H. by destruct (String.leb_total x y) as [H'|H']; [congruence|].
  - apply ts_leb_total.
Qed.

Lemma sort_values_Sorted {B} (l : list (cell * B)) :
  Sorted (fun a b => cell_leb a.1 b.1 = true) (sort_values l).
Proof.
  unfold sort_values.
  apply (stable_sort_Sorted (fun a b : cell * B => cell_leb a.1 b.1)).
  intros a b. apply cell_leb_total.
Qed.

Lemma Sorted_impl_Forall {A} (R R' : A -> A -> Prop) (P : A -> Prop) (l : list A) :
  (forall a b, P a -> P b -> R a b -> R' a b) ->
  Forall P l -> Sorted R l -> Sorted R' l.
Proof.
  intros H HP Hl. induction Hl as [|x l Hl IH Hd]; [constructor|].
  apply Forall_cons in HP as [Hx HP]. constructor; [by apply IH|].
  destruct Hd as [|y l Hxy]; constructor.
  apply Forall_cons in HP as [Hy _]. by apply H.
Qed.

Lemma month_le_text (a b : cell) :
  (exists x, a = CStr x) -> (exists y, b = CStr y) ->
  cell_leb a b = true -> month_le a b.
Proof. by intros [x ->] [y ->]. Qed.

(** ** Grouping by month *)

Lemma group_keys_elem (k : cell) (by_ : list cell) :
  k ∈ group_keys by_ <-> k ∈ by_ /\ isna k = false.
Proof.
  unfold group_keys.
  rewrite elem_of_stable_sort, elem_of_unique, list_elem_of_filter. tauto.
Qed.

Lemma row_month_typed (r : gmap string cell) :
  typed_row r = true -> isna (row_month r) = negb (has_date r).
Proof.
  unfold typed_row, row_month, has_date. rewrite !andb_true_iff.
  intros ((Hd & _) & _). by destruct (cell_at "Date" r).
Qed.

Lemma row_month_text (r : gmap string cell) :
  isna (row_month r) = false -> exists x, row_month r = CStr x.
Proof.
  unfold row_month. destruct (to_datetime_coerce _); cbn; try done.
  intros _. by eexists.
Qed.

Section DropMissing.
Context {A : Type} (f : A -> cell) (p : A -> bool).

Lemma labels_without_missing (l : list A) :
  (forall x, x ∈ l -> isna (f x) = negb (p x)) ->
  filter (fun c => isna c = false) (f <$> l)
  = filter (fun c => isna c = false) (f <$> List.filter p l).
Proof.
  induction l as [|x l IH]; intros H; [done|].
  rewrite fmap_cons. cbn [List.filter].
  pose proof (H x ltac:(left)) as Hx.
  assert (IH' := IH (fun y Hy => H y (list_elem_of_further _ _ _ Hy))).
  destruct (p x); cbn in Hx.
  - rewrite fmap_cons, !filter_cons_True by done. by rewrite IH'.
  - rewrite filter_cons_False by congruence. done.
Qed.

Lemma group_without_missing {B} (g : A -> B) (k : cell) (l : list A) :
  isna k = false ->
  (forall x, x ∈ l -> isna (f x) = negb (p x)) ->
  select_mask (g <$> l) (label_mask k (f <$> l))
  = select_mask (g <$> List.filter p l) (label_mask k (f <$> List.filter p l)).
Proof.
  intros Hk. induction l as [|x l IH]; intros H; [done|].
  unfold label_mask in *. rewrite !fmap_cons. cbn [List.filter select_mask].
  pose proof (H x ltac:(left)) as Hx.
  assert (IH' := IH (fun y Hy => H y (list_elem_of_further _ _ _ Hy))).
  destruct (p x); cbn in Hx.
  - rewrite !fmap_cons. cbn [select_mask]. by rewrite IH'.
  - rewrite bool_decide_eq_false_2 by congruence. done.
Qed.

Lemma occurrences_without_missing (k : cell) (l : list A) :
  isna k = false ->
  (forall x, x ∈ l -> isna (f x) = negb (p x)) ->
  occurrences k (f <$> l) = occurrences k (f <$> List.filter p l).
Proof.
  intros Hk. unfold occurrences. induction l as [|x l IH]; intros H; [done|].
  rewrite fmap_cons. cbn [List.filter].
  pose proof (H x ltac:(left)) as Hx.
  assert (IH' := IH (fun y Hy => H y (list_elem_of_further _ _ _ Hy))).
  destruct (p x); cbn in Hx.
  - rewrite fmap_cons, !filter_cons. destruct (decide (f x = k)); cbn; by rewrite IH'.
  - rewrite filter_cons_False by congruence. done.
Qed.

End DropMissing.

Lemma fmap_ext_elem {A B} (f g : A -> B) (l : list A) :
  (forall x, x ∈ l -> f x = g x) -> f <$> l = g <$> l.
Proof.
  intros H. apply list_fmap_ext. intros i x Hx. apply H.
  by eapply list_elem_of_lookup_2.
Qed.

(** ** The monthly series *)

Lemma typed_rows_month (df : DataFrame) :
  typed_frame df = true ->
  forall r, r ∈ rows df -> isna (row_month r) = negb (has_date r).
Proof. intros Ht r Hr. apply row_month_typed. by eapply typed_frame_rows. Qed.

Lemma group_keys_drop (df : DataFrame) :
  typed_frame df = true ->
  group_keys (row_month <$> rows (drop_null_dates df))
  = group_keys (row_month <$> rows df).
Proof.
  intros Ht. unfold group_keys, drop_null_dates. cbn [rows].
  by rewrite <- (labels_without_missing row_month has_date)
    by (by apply typed_rows_month).
Qed.

Lemma monthly_sales_drop (df : DataFrame) :
  typed_frame df = true ->
  monthly_sales_of (drop_null_dates df) = monthly_sales_of df.
Proof.
  intros Ht. unfold monthly_sales_of. rewrite group_keys_drop by done.
  f_equal. apply fmap_ext_elem. intros k Hk.
  apply group_keys_elem in Hk as [_ Hk]. do 2 f_equal.
  unfold drop_null_dates. cbn [rows]. symmetry.
  apply (group_without_missing row_month has_date); [done|by apply typed_rows_month].
Qed.

Lemma monthly_orders_drop (df : DataFrame) :
  typed_frame df = true ->
  monthly_orders_of (drop_null_dates df) = monthly_orders_of df.
Proof.
  intros Ht. unfold monthly_orders_of, groupby_size. rewrite group_keys_drop by done.
  f_equal. apply fmap_ext_elem. intros k Hk.
  apply group_keys_elem in Hk as [_ Hk]. f_equal.
  unfold drop_null_dates. cbn [rows]. symmetry.
  apply (occurrences_without_missing row_month has_date);
    [done|by apply typed_rows_month].
Qed.

Lemma monthly_avg_drop (df : DataFrame) :
  typed_frame df = true ->
  monthly_avg_of (drop_null_dates df) = monthly_avg_of df.
Proof.
  intros Ht. unfold monthly_avg_of. rewrite group_keys_drop by done.
  f_equal. apply fmap_ext_elem. intros k Hk.
  apply group_keys_elem in Hk as [_ Hk]. cbn zeta.
  unfold drop_null_dates. cbn [rows].
  by rewrite <- (group_without_missing row_month has_date (number_at "Total"))
    by (done || by apply typed_rows_month).
Qed.

Lemma sorted_by_month {B} (F : cell -> B) (rs : list (gmap string cell)) :
  Sorted (fun a b : cell * B => month_le a.1 b.1)
         (sort_values ((fun k => (k, F k)) <$> group_keys (row_month <$> rs))).
Proof.
  eapply (Sorted_impl_Forall _ _ (fun e : cell * B => exists x, e.1 = CStr x));
    [|  |apply sort_values_Sorted].
  - intros a b Ha Hb. by apply month_le_text.
  - apply Forall_forall. intros e He.
    unfold sort_values in He.
    apply elem_of_stable_sort, list_elem_of_fmap in He as (k & -> & Hk).
    apply group_keys_elem in Hk as [Hin Hk].
    apply list_elem_of_fmap in Hin as (r & -> & _).
    by apply row_month_text.
Qed.

Lemma monthly_orders_entries (df : DataFrame) (e : cell * nat) :
  e ∈ monthly_orders_of df <->
  e.2 = occurrences e.1 (row_month <$> rows df) /\
  e.1 ∈ row_month <$> rows df /\ isna e.1 = false.
Proof.
  unfold monthly_orders_of, sort_values, groupby_size.
  rewrite elem_of_stable_sort, list_elem_of_fmap. split.
  - intros (k & -> & Hk). by apply group_keys_elem in Hk.
  - intros (Hn & Hin & Hk). exists e.1. split.
    + destruct e as [k n]. cbn in *. by rewrite Hn.
    + by apply group_keys_elem.
Qed.

(** C4.  On a stored typed table, the three monthly series of [get_stats]
    are what they are for the table without the rows whose [Date] is
    missing, while [total_records] counts every row; a monthly order count is
    the number of rows with that month label, every row with a date has its
    month in the series and no entry stands for the missing date; and each of
    the three series is in ascending order of its month label. *)
Theorem monthly_series_skip_missing_dates (w w' : World) (df : DataFrame) :
  heap w !! app_state_data w = Some df ->
  typed_frame df = true ->
  heap w' !! app_state_data w' = Some (drop_null_dates df) ->
  exists s s',
    (get_stats w).1 = Ok s /\ (get_stats w').1 = Ok s' /\
    total_records s = length (rows df) /\
    total_records s' = length (List.filter has_date (rows df)) /\
    monthly_sales s = monthly_sales s' /\
    monthly_orders s = monthly_orders s' /\
    monthly_avg_values s = monthly_avg_values s' /\
    (forall e, e ∈ monthly_orders s <->
       e.2 = occurrences e.1 (row_month <$> rows df) /\
       e.1 ∈ row_month <$> rows df /\ isna e.1 = false) /\
    (forall r, r ∈ rows df -> isna (row_month r) = negb (has_date r)) /\
    Sorted (fun a b => month_le a.1 b.1) (monthly_sales s) /\
    Sorted (fun a b => month_le a.1 b.1) (monthly_orders s) /\
    Sorted (fun a b => month_le a.1 b.1) (monthly_avg_values s).
Proof.
  intros Hdf Ht Hdf'.
  assert (Ht' : typed_frame (drop_null_dates df) = true)
    by apply (typed_frame_restrict has_date df Ht).
  rewrite (get_stats_value _ _ Hdf), (get_stats_value _ _ Hdf').
  destruct (stats_of_typed df Ht) as (s & -> & Hn & _ & _ & _ & Hs & Ho & Ha & _).
  destruct (stats_of_typed _ Ht') as (s' & -> & Hn' & _ & _ & _ & Hs' & Ho' & Ha' & _).
  exists s, s'. split; [done|]. split; [done|]. split; [done|]. split; [done|].
  rewrite Hs, Hs', Ho, Ho', Ha, Ha'.
  rewrite monthly_sales_drop, monthly_orders_drop, monthly_avg_drop by done.
  split; [done|]. split; [done|]. split; [done|].
  split; [apply monthly_orders_entries|].
  split; [by apply typed_rows_month|].
  split; [apply sorted_by_month|]. split; [apply sorted_by_month|].
  apply (sorted_by_month
           (fun k => (round2_cell (mean_of (select_mask (number_at "Total" <$> rows df)
                                              (label_mask k (row_month <$> rows df)))),
                      length (select_mask (number_at "Total" <$> rows df)
                                (label_mask k (row_month <$> rows df)))))).
Qed.

Lemma monthly_series_skip_missing_dates_witness :
  heap sample_world !! app_state_data sample_world = Some sample_frame /\
  typed_frame sample_frame = true /\
  heap sample_world_dated !! app_state_data sample_world_dated
    = Some (drop_null_dates sample_frame) /\
  exists s s',
    (get_stats sample_world).1 = Ok s /\ (get_stats sample_world_dated).1 = Ok s' /\
    total_records s = length (rows sample_frame) /\
    monthly_orders s = monthly_orders s'.
Proof.
  assert (H : heap sample_world !! app_state_data sample_world = Some sample_frame)
    by (vm_compute; reflexivity).
  assert (Ht : typed_frame sample_frame = true) by (vm_compute; reflexivity).
  assert (H' : heap sample_world_dated !! app_state_data sample_world_dated
               = Some (drop_null_dates sample_frame)) by (vm_compute; reflexivity).
  split; [exact H|]. split; [exact Ht|]. split; [exact H'|].
  destruct (monthly_series_skip_missing_dates sample_world sample_world_dated
              sample_frame H Ht H') as (s & s' & Hs & Hs' & Hn & _ & _ & Ho & _).
  exists s, s'. split; [exact Hs|]. split; [exact Hs'|]. split; [exact Hn|exact Ho].
Defined.

(** The sample table: three rows, one of them without a date, and two
    months of one order each. *)
Example sample_monthly_orders :
  exists s, (get_stats sample_world).1 = Ok s /\
    total_records s = 3%nat /\
    monthly_orders s = [(CStr "2023-01", 1%nat); (CStr "2023-02", 1%nat)].
Proof. eexists. split; [vm_compute; reflexivity|]. by split. Qed.

(** * Further properties *)

(** ** What loading keeps and what it fills *)

Lemma coerce_row_other (c : string) (r : gmap string cell) :
  c ≠ "Date"%string -> c ≠ "Total"%string -> c ≠ "Quantity"%string ->
  coerce_row r !! c = fillna_cell <$> r !! c.
Proof.
  intros HD HT HQ. unfold coerce_row.
  by rewrite lookup_fmap, !lookup_insert_ne by done.
Qed.

Lemma coerce_row_no_nan (c : string) (r : gmap string cell) :
  coerce_row r !! c ≠ Some CNaN.
Proof.
  unfold coerce_row. rewrite lookup_fmap.
  destruct (_ !! c) as [x|]; [|done]. cbn. by destruct x.
Qed.

(** X1.  When the CSV has the [Date], [Total] and [Quantity] columns,
    start-up, whatever was stored before, leaves a table with the same column
    labels in the same order and the same number of rows; row by row, [Date]
    holds a timestamp or the missing timestamp, [Total] and [Quantity] hold
    numbers, every other cell is the raw cell with a missing value replaced
    by the empty string, and no cell is left missing other than a date. *)
Theorem load_keeps_shape (raw : DataFrame) (w : World) :
  has_column "Date" raw = true ->
  has_column "Total" raw = true ->
  has_column "Quantity" raw = true ->
  exists df,
    heap (startup_db_client (Ok raw) w).2
      !! app_state_data (startup_db_client (Ok raw) w).2 = Some df /\
    columns df = columns raw /\
    length (rows df) = length (rows raw) /\
    typed_frame df = true /\
    (forall i r, rows raw !! i = Some r ->
       exists r', rows df !! i = Some r' /\
         typed_row r' = true /\
         (forall c, c ≠ "Date"%string -> c ≠ "Total"%string -> c ≠ "Quantity"%string ->
                    r' !! c = fillna_cell <$> r !! c) /\
         (forall c, r' !! c ≠ Some CNaN)).
Proof.
  intros HD HT HQ.
  destruct (startup_run raw w HD HT HQ) as (w' & -> & Hdf). cbn [snd].
  exists (coerce_frame raw). split; [done|].
  split; [by apply coerce_frame_columns|].
  split; [by rewrite coerce_frame_rows, length_fmap|].
  split; [by apply coerce_frame_typed|].
  intros i r Hr. exists (coerce_row r).
  split; [by rewrite coerce_frame_rows, list_lookup_fmap, Hr|].
  split; [apply coerce_row_typed|].
  split; [intros c; apply coerce_row_other|intros c; apply coerce_row_no_nan].
Qed.

Lemma load_keeps_shape_witness :
  has_column "Date" sample_csv = true /\
  has_column "Total" sample_csv = true /\
  has_column "Quantity" sample_csv = true /\
  exists df,
    heap (startup_db_client (Ok sample_csv) initial_world).2
      !! app_state_data (startup_db_client (Ok sample_csv) initial_world).2 = Some df /\
    columns df = columns sample_csv.
Proof.
  assert (HD : has_column "Date" sample_csv = true) by (vm_compute; reflexivity).
  assert (HT : has_column "Total" sample_csv = true) by (vm_compute; reflexivity).
  assert (HQ : has_column "Quantity" sample_csv = true) by (vm_compute; reflexivity).
  split; [exact HD|]. split; [exact HT|]. split; [exact HQ|].
  destruct (load_keeps_shape sample_csv initial_world HD HT HQ) as (df & Hdf & Hc & _).
  exists df. split; [exact Hdf|exact Hc].
Defined.

(** ** A load that fails *)

Lemma getitem_absent (name : string) (df : DataFrame) :
  has_column name df = false -> getitem name df = Raise (KeyError name).
Proof. intros H. unfold getitem. by rewrite H. Qed.

Lemma startup_failed (read_csv : result DataFrame) (w : World) :
  (forall raw, read_csv = Ok raw ->
     has_column "Date" raw && has_column "Total" raw && has_column "Quantity" raw = false) ->
  exists w', startup_db_client read_csv w = (Ok tt, w') /\
             heap w' !! app_state_data w' = Some empty_frame.
Proof.
  intros Hbad. unfold startup_db_client, try_except.
  assert (Hend : forall w0 : World,
            exists w', (alloc empty_frame ≫= fun empty => set_app_state_data empty) w0
                       = (Ok tt, w') /\
                       heap w' !! app_state_data w' = Some empty_frame).
  { intros w0. rewrite bind_alloc. unfold set_app_state_data. world.
    eexists. split; [reflexivity|]. world. apply lookup_insert_eq. }
  rewrite bind_lift. destruct read_csv as [raw|e]; [|apply Hend].
  specialize (Hbad raw eq_refl).
  rewrite bind_alloc, bind_set_app_state_data. world.
  rewrite bind_get_app_state_data. world.
  erewrite bind_deref by (world; apply lookup_insert_eq).
  rewrite bind_lift.
  destruct (has_column "Date" raw) eqn:HD;
    [|rewrite (getitem_absent _ _ HD); apply Hend].
  rewrite (getitem_present _ _ HD).
  erewrite bind_modify by (world; apply lookup_insert_eq). world.
  rewrite insert_insert_eq.
  rewrite bind_get_app_state_data. world.
  erewrite bind_deref by (world; apply lookup_insert_eq).
  rewrite bind_lift.
  destruct (has_column "Total" raw) eqn:HT.
  2:{ rewrite getitem_absent; [apply Hend|].
      unfold has_column in *. cbn [columns setitem_series].
      by rewrite add_label_present by (by apply bool_decide_eq_true in HD). }
  rewrite getitem_present by (by apply has_column_setitem_series).
  erewrite bind_modify by (world; apply lookup_insert_eq). world.
  rewrite insert_insert_eq.
  rewrite bind_get_app_state_data. world.
  erewrite bind_deref by (world; apply lookup_insert_eq).
  rewrite bind_lift.
  destruct (has_column "Quantity" raw) eqn:HQ; [done|].
  rewrite getitem_absent; [apply Hend|].
  unfold has_column in *. cbn [columns setitem_series].
  rewrite (add_label_present "Total"), (add_label_present "Date"); [done| |].
  - by apply bool_decide_eq_true in HD.
  - rewrite add_label_present by (by apply bool_decide_eq_true in HD).
    by apply bool_decide_eq_true in HT.
Qed.

Lemma filter_equal_columns (col : string) (v : option string) (df df' : DataFrame) :
  filter_equal col v df = Ok df' -> columns df' = columns df.
Proof.
  unfold filter_equal. destruct v as [s|]; [|by intros [= <-]].
  destruct (_ && _); [|by intros [= <-]].
  destruct (getitem col df); cbn [mbind result_bind]; [|done]. by intros [= <-].
Qed.

Lemma filter_number_columns (cmp : Qc -> cell -> result bool) (v : option Qc)
    (df df' : DataFrame) :
  filter_number cmp v df = Ok df' -> columns df' = columns df.
Proof.
  unfold filter_number. destruct v as [x|]; [|by intros [= <-]].
  destruct (getitem "Total" df) as [c|]; cbn [mbind result_bind]; [|done].
  destruct (traverse (cmp x) c); cbn [mbind result_bind]; [|done]. by intros [= <-].
Qed.

Lemma filter_date_columns (cmp : option Timestamp -> cell -> result bool)
    (v : option string) (df df' : DataFrame) :
  filter_date cmp v df = Ok df' -> columns df' = columns df.
Proof.
  unfold filter_date. destruct v as [s|]; [|by intros [= <-]].
  destruct (truthy (Some s)); [|by intros [= <-]]. cbn zeta.
  destruct (getitem "Date" df) as [c|]; cbn [mbind result_bind]; [|done].
  destruct (traverse _ c); cbn [mbind result_bind]; [|done]. by intros [= <-].
Qed.

(** The filtering steps never change the column labels. *)
Lemma apply_filters_columns (q : Criteria) (df df' : DataFrame) :
  apply_filters q df = Ok df' -> columns df' = columns df.
Proof.
  unfold apply_filters. intros H.
  repeat match type of H with
  | (filter_equal ?c ?v ?d ≫= _) = _ =>
      let E := fresh "E" in
      destruct (filter_equal c v d) as [?|?] eqn:E; cbn [mbind result_bind] in H;
      [apply filter_equal_columns in E|done]
  | (filter_number ?c ?v ?d ≫= _) = _ =>
      let E := fresh "E" in
      destruct (filter_number c v d) as [?|?] eqn:E; cbn [mbind result_bind] in H;
      [apply filter_number_columns in E|done]
  | (filter_date ?c ?v ?d ≫= _) = _ =>
      let E := fresh "E" in
      destruct (filter_date c v d) as [?|?] eqn:E; cbn [mbind result_bind] in H;
      [apply filter_date_columns in E|done]
  end.
  apply filter_date_columns in H. congruence.
Qed.

Lemma filtered_without_total (q : Criteria) (df : DataFrame) :
  has_column "Total" df = false ->
  (exists e, filtered_stats q df = Raise e) /\
  (forall skip limit, exists e, filtered_page q skip limit df = Raise e).
Proof.
  intros HT. unfold filtered_stats, filtered_page.
  destruct (apply_filters q df) as [df'|e] eqn:E; cbn [mbind result_bind].
  - apply apply_filters_columns in E.
    assert (HT' : has_column "Total" df' = false)
      by (unfold has_column in *; by rewrite E).
    rewrite (getitem_absent _ _ HT'). cbn [mbind result_bind].
    split; [by eexists|]. intros. by eexists.
  - split; [by eexists|]. intros. by eexists.
Qed.

(** X2.  When reading the CSV raises, or the CSV lacks one of the [Date],
    [Total] and [Quantity] columns, start-up still completes and stores the
    empty table.  On it [get_columns] and [get_data] return nothing,
    [get_stats] returns zero figures and empty series, and both filtering
    endpoints answer with status 500 for every criteria. *)
Theorem failed_load_stores_empty_table (read_csv : result DataFrame) (w : World) :
  (forall raw, read_csv = Ok raw ->
     has_column "Date" raw && has_column "Total" raw && has_column "Quantity" raw = false) ->
  exists w',
    startup_db_client read_csv w = (Ok tt, w') /\
    heap w' !! app_state_data w' = Some empty_frame /\
    get_columns w' = (Ok [], w') /\
    (forall skip limit, get_data skip limit w' = (Ok [], w')) /\
    (exists s, (get_stats w').1 = Ok s /\
       total_records s = 0%nat /\ total_sales s = 0%Qc /\ total_quantity s = 0 /\
       avg_order_value s = 0%Qc /\
       monthly_sales s = [] /\ monthly_orders s = [] /\ monthly_avg_values s = [] /\
       top_skus s = [] /\ status_counts s = [] /\ state_values s = []) /\
    (forall q, (get_filtered_stats q w').1 = Raise (HTTPException 500)) /\
    (forall q skip limit, (filter_data q skip limit w').1 = Raise (HTTPException 500)).
Proof.
  intros Hbad. destruct (startup_failed read_csv w Hbad) as (w' & Hrun & Hdf).
  exists w'. split; [done|]. split; [done|].
  split; [by rewrite (get_columns_run _ _ Hdf)|].
  split.
  { intros skip limit. rewrite (get_data_run _ _ _ _ Hdf).
    unfold to_dict_records, iloc. cbn [rows columns empty_frame].
    by rewrite py_slice_nil. }
  split.
  { rewrite (get_stats_value _ _ Hdf). eexists. split; [reflexivity|].
    repeat split; reflexivity. }
  split.
  - intros q. destruct (get_filtered_stats_run q w' _ Hdf) as (w'' & -> & _). cbn [fst].
    destruct (proj1 (filtered_without_total q empty_frame eq_refl)) as [e ->]. done.
  - intros q skip limit.
    destruct (filter_data_run q skip limit w' _ Hdf) as (w'' & -> & _). cbn [fst].
    destruct (proj2 (filtered_without_total q empty_frame eq_refl) skip limit) as [e ->].
    done.
Qed.

Lemma failed_load_stores_empty_table_witness :
  exists w',
    startup_db_client (Ok (mkDataFrame ["Date"; "Total"]%string [])) initial_world
      = (Ok tt, w') /\
    heap w' !! app_state_data w' = Some empty_frame.
Proof.
  destruct (failed_load_stores_empty_table
              (Ok (mkDataFrame ["Date"; "Total"]%string [])) initial_world)
    as (w' & Hrun & Hdf & _).
  - intros raw Hraw. injection Hraw as <-. vm_compute. reflexivity.
  - exists w'. split; [exact Hrun|exact Hdf].
Defined.

(** ** Reading after a column was added *)

Lemma elem_of_add_label (c name : string) (cols : list string) :
  c ∈ add_label name cols <-> c = name \/ c ∈ cols.
Proof.
  unfold add_label. case_bool_decide as Hin.
  - split; [tauto|]. intros [->|]; done.
  - rewrite elem_of_app, list_elem_of_singleton. tauto.
Qed.

Lemma has_column_setitem_scalar_ne (c name : string) (v : cell) (df : DataFrame) :
  c ≠ name -> has_column c (setitem_scalar name v df) = has_column c df.
Proof.
  intros Hne. unfold has_column. cbn [columns setitem_scalar].
  apply bool_decide_ext. rewrite elem_of_add_label. tauto.
Qed.

Lemma column_values_setitem_scalar_ne (c name : string) (v : cell) (df : DataFrame) :
  c ≠ name -> column_values c (setitem_scalar name v df) = column_values c df.
Proof.
  intros Hne. unfold column_values. cbn [rows setitem_scalar].
  rewrite <- list_fmap_compose. apply list_fmap_ext. intros i r _. cbn.
  by apply cell_at_insert_ne.
Qed.

Lemma getitem_setitem_scalar_ne (c name : string) (v : cell) (df : DataFrame) :
  c ≠ name -> getitem c (setitem_scalar name v df) = getitem c df.
Proof.
  intros Hne. unfold getitem.
  by rewrite has_column_setitem_scalar_ne, column_values_setitem_scalar_ne.
Qed.

Lemma rows_setitem_scalar_length (name : string) (v : cell) (df : DataFrame) :
  length (rows (setitem_scalar name v df)) = length (rows df).
Proof. cbn. by rewrite length_fmap. Qed.

(** A series assigned over the added column reads the same under every other
    label, and under its own. *)
Lemma getitem_setitem_series_scalar (c m name : string) (v : cell) (vs : list cell)
    (df : DataFrame) :
  c ≠ name \/ c = m ->
  getitem c (setitem_series m vs (setitem_scalar name v df))
  = getitem c (setitem_series m vs df).
Proof.
  intros Hc. unfold getitem, has_column, column_values.
  cbn [columns rows setitem_series setitem_scalar].
  assert (Hcols : bool_decide (c ∈ add_label m (add_label name (columns df)))
                  = bool_decide (c ∈ add_label m (columns df))).
  { apply bool_decide_ext. rewrite !elem_of_add_label. tauto. }
  rewrite Hcols. destruct (bool_decide (c ∈ add_label m (columns df))); [|done]. f_equal.
  generalize (rows df) as rs. clear Hcols.
  induction vs as [|x vs IH]; intros [|r rs]; cbn; try done.
  rewrite IH. f_equal. unfold cell_at.
  destruct (decide (c = m)) as [->|Hm].
  - by rewrite !lookup_insert_eq.
  - destruct Hc as [Hc|Hc]; [|done].
    by rewrite !lookup_insert_ne by done.
Qed.

Lemma stats_of_setitem_scalar (name : string) (v : cell) (df : DataFrame) :
  name ∉ lookup_labels -> stats_of (setitem_scalar name v df) = stats_of df.
Proof.
  intros Hname. unfold lookup_labels in Hname.
  repeat (apply not_elem_of_cons in Hname as [? Hname]).
  unfold stats_of, basic_stats, monthly_series, assemble_stats, counts_of.
  cbn zeta.
  rewrite rows_setitem_scalar_length.
  rewrite !has_column_setitem_scalar_ne by done.
  rewrite !getitem_setitem_scalar_ne by done.
  destruct (has_column "Date" df) eqn:HD; [|done].
  rewrite (getitem_present "Date") by done. cbn [mbind result_bind].
  rewrite (getitem_setitem_series_scalar "Month" "Month") by (by right).
  by rewrite (getitem_setitem_series_scalar "Total" "Month") by (by left).
Qed.

Lemma getitem_mask_setitem_scalar (mask : list bool) (name : string) (v : cell)
    (df : DataFrame) :
  getitem_mask mask (setitem_scalar name v df)
  = setitem_scalar name v (getitem_mask mask df).
Proof.
  unfold getitem_mask, setitem_scalar. cbn [columns rows].
  by rewrite select_mask_fmap.
Qed.

Lemma filter_equal_setitem_scalar (col name : string) (s : option string) (v : cell)
    (df : DataFrame) :
  col ≠ name ->
  filter_equal col s (setitem_scalar name v df)
  = d ← filter_equal col s df; Ok (setitem_scalar name v d).
Proof.
  intros Hne. unfold filter_equal. destruct s as [s|]; [|done].
  destruct (_ && _); [|done].
  rewrite getitem_setitem_scalar_ne by done.
  destruct (getitem col df); cbn [mbind result_bind]; [|done].
  by rewrite getitem_mask_setitem_scalar.
Qed.

Lemma filter_number_setitem_scalar (cmp : Qc -> cell -> result bool) (name : string)
    (x : option Qc) (v : cell) (df : DataFrame) :
  name ≠ "Total"%string ->
  filter_number cmp x (setitem_scalar name v df)
  = d ← filter_number cmp x df; Ok (setitem_scalar name v d).
Proof.
  intros Hne. unfold filter_number. destruct x as [x|]; [|done].
  rewrite getitem_setitem_scalar_ne by done.
  destruct (getitem "Total" df) as [c|]; cbn [mbind result_bind]; [|done].
  destruct (traverse (cmp x) c); cbn [mbind result_bind]; [|done].
  by rewrite getitem_mask_setitem_scalar.
Qed.

Lemma filter_date_setitem_scalar (cmp : option Timestamp -> cell -> result bool)
    (name : string) (s : option string) (v : cell) (df : DataFrame) :
  name ≠ "Date"%string ->
  filter_date cmp s (setitem_scalar name v df)
  = d ← filter_date cmp s df; Ok (setitem_scalar name v d).
Proof.
  intros Hne. unfold filter_date. destruct s as [s|]; [|done].
  destruct (truthy (Some s)); [|done]. cbn zeta.
  rewrite getitem_setitem_scalar_ne by done.
  destruct (getitem "Date" df) as [c|]; cbn [mbind result_bind]; [|done].
  destruct (traverse _ c); cbn [mbind result_bind]; [|done].
  by rewrite getitem_mask_setitem_scalar.
Qed.

Lemma apply_filters_setitem_scalar (q : Criteria) (name : string) (v : cell)
    (df : DataFrame) :
  name ∉ lookup_labels ->
  apply_filters q (setitem_scalar name v df)
  = d ← apply_filters q df; Ok (setitem_scalar name v d).
Proof.
  intros Hname. unfold lookup_labels in Hname.
  repeat (apply not_elem_of_cons in Hname as [? Hname]).
  unfold apply_filters.
  rewrite filter_equal_setitem_scalar by done.
  destruct (filter_equal "Status" _ df) as [d1|]; cbn [mbind result_bind]; [|done].
  rewrite filter_equal_setitem_scalar by done.
  destruct (filter_equal "Deliver Status" _ d1) as [d2|]; cbn [mbind result_bind]; [|done].
  rewrite filter_equal_setitem_scalar by done.
  destruct (filter_equal "Shipping Country" _ d2) as [d3|]; cbn [mbind result_bind]; [|done].
  rewrite filter_equal_setitem_scalar by done.
  destruct (filter_equal "Shipping Province" _ d3) as [d4|]; cbn [mbind result_bind]; [|done].
  rewrite filter_equal_setitem_scalar by done.
  destruct (filter_equal "State" _ d4) as [d5|]; cbn [mbind result_bind]; [|done].
  rewrite filter_equal_setitem_scalar by done.
  destruct (filter_equal "Payment Method" _ d5) as [d6|]; cbn [mbind result_bind]; [|done].
  rewrite filter_number_setitem_scalar by done.
  destruct (filter_number ge_number _ d6) as [d7|]; cbn [mbind result_bind]; [|done].
  rewrite filter_number_setitem_scalar by done.
  destruct (filter_number le_number _ d7) as [d8|]; cbn [mbind result_bind]; [|done].
  rewrite filter_date_setitem_scalar by done.
  destruct (filter_date ge_timestamp _ d8) as [d9|]; cbn [mbind result_bind]; [|done].
  rewrite filter_date_setitem_scalar by done.
  by destruct (filter_date le_timestamp _ d9).
Qed.

Lemma mean_or_zero_setitem_scalar (name : string) (v : cell) (df : DataFrame) :
  name ≠ "Total"%string -> mean_or_zero (setitem_scalar name v df) = mean_or_zero df.
Proof.
  intros Hne. unfold mean_or_zero.
  by rewrite rows_setitem_scalar_length, getitem_setitem_scalar_ne.
Qed.

Lemma filtered_stats_setitem_scalar (q : Criteria) (name : string) (v : cell)
    (df : DataFrame) :
  name ∉ lookup_labels ->
  filtered_stats q (setitem_scalar name v df) = filtered_stats q df.
Proof.
  intros Hname. unfold filtered_stats.
  rewrite apply_filters_setitem_scalar by done.
  destruct (apply_filters q df) as [d|]; cbn [mbind result_bind]; [|done].
  unfold lookup_labels in Hname.
  repeat (apply not_elem_of_cons in Hname as [? Hname]).
  rewrite rows_setitem_scalar_length, mean_or_zero_setitem_scalar by done.
  by rewrite !getitem_setitem_scalar_ne by done.
Qed.

Lemma filter_options_setitem_scalar (name : string) (v : cell) (df : DataFrame) :
  name ∉ lookup_labels ->
  filter_options_of (setitem_scalar name v df) = filter_options_of df.
Proof.
  intros Hname. unfold lookup_labels in Hname.
  repeat (apply not_elem_of_cons in Hname as [? Hname]).
  unfold filter_options_of, categorical_columns. cbn [foldl].
  rewrite !has_column_setitem_scalar_ne by done.
  by rewrite !getitem_setitem_scalar_ne by done.
Qed.

(** *** The records of a frame with a new column *)

Lemma row_to_record_new (cols : list string) (name : string) (v : cell)
    (r : gmap string cell) :
  name ∉ cols ->
  row_to_record (cols ++ [name]) (<[name := v]> r)
  = with_new_field name v (row_to_record cols r).
Proof.
  intros Hfresh. unfold row_to_record, with_new_field.
  rewrite omap_app. cbn. rewrite lookup_insert_eq. cbn. f_equal.
  induction cols as [|c cols IH]; [done|].
  apply not_elem_of_cons in Hfresh as [Hc Hfresh]. cbn.
  rewrite lookup_insert_ne by done. by rewrite IH.
Qed.

Lemma py_slice_fmap {A B} (g : A -> B) (start stop : Z) (l : list A) :
  py_slice start stop (g <$> l) = g <$> py_slice start stop l.
Proof.
  unfold py_slice. cbn zeta. by rewrite length_fmap, fmap_take, fmap_drop.
Qed.

Lemma to_dict_records_setitem_scalar (name : string) (v : cell) (start stop : Z)
    (df : DataFrame) :
  name ∉ columns df ->
  to_dict_records (iloc start stop (setitem_scalar name v df))
  = with_new_field name v <$> to_dict_records (iloc start stop df).
Proof.
  intros Hfresh. unfold to_dict_records, iloc. cbn [columns rows setitem_scalar].
  rewrite add_label_fresh by done.
  rewrite py_slice_fmap, <- !list_fmap_compose.
  apply list_fmap_ext. intros i r _. cbn. by apply row_to_record_new.
Qed.

Lemma filtered_page_setitem_scalar (q : Criteria) (skip limit : Z) (name : string)
    (v : cell) (df : DataFrame) :
  name ∉ lookup_labels -> name ∉ columns df ->
  (r ← filtered_page q skip limit (setitem_scalar name v df); Ok (fp_data r))
  = r ← filtered_page q skip limit df; Ok (with_new_field name v <$> fp_data r).
Proof.
  intros Hname Hfresh. unfold filtered_page.
  rewrite apply_filters_setitem_scalar by done.
  destruct (apply_filters q df) as [d|] eqn:Hd; cbn [mbind result_bind]; [|done].
  apply apply_filters_columns in Hd.
  unfold lookup_labels in Hname.
  repeat (apply not_elem_of_cons in Hname as [? Hname]).
  rewrite rows_setitem_scalar_length, mean_or_zero_setitem_scalar by done.
  rewrite !getitem_setitem_scalar_ne by done.
  rewrite to_dict_records_setitem_scalar by (by rewrite Hd).
  destruct (getitem "Total" d) as [t|]; cbn [mbind result_bind]; [|done].
  destruct (series_sum t); cbn [mbind result_bind]; [|done].
  destruct (mean_or_zero d); cbn [mbind result_bind]; [|done].
  destruct (getitem "Quantity" d) as [qs|]; cbn [mbind result_bind]; [|done].
  by destruct (series_sum qs).
Qed.

(** X3.  After [add_column] has added a new label, [get_columns] lists the
    earlier labels followed by the new one, and every page of [get_data] is
    the page it was before, each record carrying one more field at its end:
    the new label with the default. *)
Theorem add_column_then_read (w : World) (df : DataFrame) (name dflt : string) :
  heap w !! app_state_data w = Some df ->
  name ∉ columns df ->
  exists msg w',
    add_column name dflt w = (Ok msg, w') /\
    get_columns w' = (Ok (columns df ++ [name]), w') /\
    forall skip limit, exists page,
      get_data skip limit w = (Ok page, w) /\
      get_data skip limit w'
      = (Ok (with_new_field name (CStr dflt) <$> page), w').
Proof.
  intros Hdf Hfresh. eexists _, _. split; [by apply add_column_fresh|].
  set (w' := mkWorld _ _).
  assert (Hdf' : heap w' !! app_state_data w'
                 = Some (setitem_scalar name (CStr dflt) df))
    by apply lookup_insert_eq.
  split.
  - rewrite (get_columns_run _ _ Hdf'). cbn [columns setitem_scalar].
    by rewrite add_label_fresh.
  - intros skip limit. eexists. split; [by apply get_data_run|].
    rewrite (get_data_run _ _ _ _ Hdf').
    by rewrite to_dict_records_setitem_scalar.
Qed.

Lemma add_column_then_read_witness :
  heap sample_world !! app_state_data sample_world = Some sample_frame /\
  ("Notes"%string ∉ columns sample_frame) /\
  exists msg w',
    add_column "Notes" "n/a" sample_world = (Ok msg, w') /\
    get_columns w' = (Ok (columns sample_frame ++ ["Notes"%string]), w').
Proof.
  assert (H : heap sample_world !! app_state_data sample_world = Some sample_frame)
    by (vm_compute; reflexivity).
  assert (Hn : "Notes"%string ∉ columns sample_frame)
    by (apply has_column_false; vm_compute; reflexivity).
  split; [exact H|]. split; [exact Hn|].
  destruct (add_column_then_read sample_world sample_frame "Notes" "n/a" H Hn)
    as (msg & w' & Hadd & Hcols & _).
  exists msg, w'. split; [exact Hadd|exact Hcols].
Defined.

(** X4.  Adding a column under a label that none of the endpoints looks up
    changes no figure: [get_stats], [get_filter_options] and, for every
    criteria, [get_filtered_stats] return what they returned before, errors
    included; [filter_data] fails as before or returns the same page, each
    record with the new field at its end. *)
Theorem add_column_keeps_figures (w : World) (df : DataFrame) (name dflt : string) :
  heap w !! app_state_data w = Some df ->
  name ∉ columns df ->
  name ∉ lookup_labels ->
  exists msg w',
    add_column name dflt w = (Ok msg, w') /\
    (get_stats w').1 = (get_stats w).1 /\
    (get_filter_options w').1 = (get_filter_options w).1 /\
    (forall q, (get_filtered_stats q w').1 = (get_filtered_stats q w).1) /\
    (forall q skip limit,
       (filter_data q skip limit w').1
       = (page ← (filter_data q skip limit w).1;
          Ok (with_new_field name (CStr dflt) <$> (page : list record)))).
Proof.
  intros Hdf Hfresh Hname. eexists _, _. split; [by apply add_column_fresh|].
  set (w' := mkWorld _ _).
  assert (Hdf' : heap w' !! app_state_data w'
                 = Some (setitem_scalar name (CStr dflt) df))
    by apply lookup_insert_eq.
  split; [|split; [|split]].
  - rewrite (get_stats_value _ _ Hdf'), (get_stats_value _ _ Hdf).
    by rewrite stats_of_setitem_scalar.
  - rewrite (get_filter_options_run _ _ Hdf'), (get_filter_options_run _ _ Hdf).
    cbn [fst]. by rewrite filter_options_setitem_scalar.
  - intros q.
    destruct (get_filtered_stats_run q w' _ Hdf') as (w1 & -> & _).
    destruct (get_filtered_stats_run q w _ Hdf) as (w2 & -> & _).
    cbn [fst]. by rewrite filtered_stats_setitem_scalar.
  - intros q skip limit.
    destruct (filter_data_run q skip limit w' _ Hdf') as (w1 & -> & _).
    destruct (filter_data_run q skip limit w _ Hdf) as (w2 & -> & _).
    cbn [fst]. rewrite filtered_page_setitem_scalar by done.
    by destruct (filtered_page q skip limit df).
Qed.

Lemma add_column_keeps_figures_witness :
  heap sample_world !! app_state_data sample_world = Some sample_frame /\
  ("Notes"%string ∉ columns sample_frame) /\
  ("Notes"%string ∉ lookup_labels) /\
  exists msg w',
    add_column "Notes" "n/a" sample_world = (Ok msg, w') /\
    (get_stats w').1 = (get_stats sample_world).1.
Proof.
  assert (H : heap sample_world !! app_state_data sample_world = Some sample_frame)
    by (vm_compute; reflexivity).
  assert (Hn : "Notes"%string ∉ columns sample_frame)
    by (apply has_column_false; vm_compute; reflexivity).
  assert (Hl : "Notes"%string ∉ lookup_labels)
    by (apply (bool_decide_unpack _); vm_compute; exact I).
  split; [exact H|]. split; [exact Hn|]. split; [exact Hl|].
  destruct (add_column_keeps_figures sample_world sample_frame "Notes" "n/a" H Hn Hl)
    as (msg & w' & Hadd & Hstats & _).
  exists msg, w'. split; [exact Hadd|exact Hstats].
Defined.

(** ** Consecutive pages *)

Lemma py_slice_tile {A} (skip l1 l2 : Z) (l : list A) :
  0 <= skip -> 0 <= l1 -> 0 <= l2 ->
  py_slice skip (skip + l1) l ++ py_slice (skip + l1) (skip + l1 + l2) l
  = py_slice skip (skip + (l1 + l2)) l.
Proof.
  intros Hs H1 H2. rewrite !py_slice_nonneg by lia.
  replace (skip + l1 - skip) with l1 by lia.
  replace (skip + l1 + l2 - (skip + l1)) with l2 by lia.
  replace (skip + (l1 + l2) - skip) with (l1 + l2) by lia.
  rewrite !Z2Nat.inj_add by lia.
  by rewrite <- drop_drop, take_take_drop.
Qed.

Lemma py_slice_length {A} (skip limit : Z) (l : list A) :
  0 <= skip -> 0 <= limit ->
  (length (py_slice skip (skip + limit) l) <= Z.to_nat limit)%nat /\
  (skip + limit <= Z.of_nat (length l) ->
   length (py_slice skip (skip + limit) l) = Z.to_nat limit).
Proof.
  intros Hs Hl. rewrite py_slice_nonneg by lia.
  replace (skip + limit - skip) with limit by lia.
  rewrite length_take, length_drop. lia.
Qed.

Lemma py_slice_whole {A} (l : list A) : py_slice 0 (0 + Z.of_nat (length l)) l = l.
Proof.
  rewrite py_slice_nonneg by lia. cbn [Z.to_nat drop].
  rewrite Z.add_0_l, Z.sub_0_r, Nat2Z.id. apply firstn_all.
Qed.

(** X5.  Pages of [get_data] that follow one another tile the table: for
    [skip], [n] and [m] that are not negative, the page of [n] rows at [skip]
    followed by the page of [m] rows at [skip + n] is the page of [n + m] rows
    at [skip].  A page holds at most [limit] records, exactly [limit] when
    that many rows are left, and the page at [0] of as many rows as the table
    has is the whole table. *)
Theorem get_data_pages_tile (w : World) (df : DataFrame) (skip n m : Z) :
  heap w !! app_state_data w = Some df ->
  0 <= skip -> 0 <= n -> 0 <= m ->
  exists p1 p2,
    get_data skip n w = (Ok p1, w) /\
    get_data (skip + n) m w = (Ok p2, w) /\
    get_data skip (n + m) w = (Ok (p1 ++ p2), w) /\
    (length p1 <= Z.to_nat n)%nat /\
    (skip + n <= Z.of_nat (length (rows df)) -> length p1 = Z.to_nat n) /\
    get_data 0 (Z.of_nat (length (rows df))) w = (Ok (to_dict_records df), w).
Proof.
  intros Hdf Hs Hn Hm. rewrite !(get_data_run _ _ _ _ Hdf).
  eexists _, _. split; [done|]. split; [done|].
  unfold to_dict_records, iloc. cbn [columns rows].
  split; [by rewrite <- fmap_app, py_slice_tile|].
  rewrite length_fmap.
  split; [by apply py_slice_length|]. split; [by apply py_slice_length|].
  by rewrite py_slice_whole.
Qed.

Lemma get_data_pages_tile_witness :
  heap sample_world !! app_state_data sample_world = Some sample_frame /\
  0 <= 0 /\ 0 <= 1 /\ 0 <= 2 /\
  exists p1 p2,
    get_data 0 1 sample_world = (Ok p1, sample_world) /\
    get_data (0 + 1) 2 sample_world = (Ok p2, sample_world) /\
    get_data 0 (1 + 2) sample_world = (Ok (p1 ++ p2), sample_world).
Proof.
  assert (H : heap sample_world !! app_state_data sample_world = Some sample_frame)
    by (vm_compute; reflexivity).
  assert (H0 : 0 <= 0) by lia.
  assert (H1 : 0 <= 1) by lia.
  assert (H2 : 0 <= 2) by lia.
  split; [exact H|]. split; [exact H0|]. split; [exact H1|]. split; [exact H2|].
  destruct (get_data_pages_tile sample_world sample_frame 0 1 2 H H0 H1 H2)
    as (p1 & p2 & Ha & Hb & Hc & _).
  exists p1, p2. split; [exact Ha|]. split; [exact Hb|exact Hc].
Defined.

(** ** What the filters select *)

Lemma row_equal_true (col : string) (v : option string) (r : gmap string cell) :
  row_equal col v r = true <->
  (forall s, v = Some s -> s ≠ ""%string -> s ≠ "All"%string -> cell_at col r = CStr s).
Proof.
  unfold row_equal, truthy, eq_text. destruct v as [s|]; [|split; [intros _ ? [=]|done]].
  split.
  - intros H s' [= <-] H1 H2.
    rewrite !bool_decide_eq_true_2 in H by done. cbn in H.
    by apply bool_decide_eq_true in H.
  - intros H. destruct (bool_decide (s ≠ ""%string)) eqn:H1; [|done].
    destruct (bool_decide (s ≠ "All"%string)) eqn:H2; [|done]. cbn.
    apply bool_decide_eq_true in H1, H2. apply bool_decide_eq_true. by apply H.
Qed.

Lemma typed_row_cells (r : gmap string cell) :
  typed_row r = true ->
  (exists q, cell_at "Total" r = CNum q) /\
  (cell_at "Date" r = CNaT \/ exists t, cell_at "Date" r = CTime t).
Proof.
  unfold typed_row. rewrite !andb_true_iff. intros [[HD HT] _]. split.
  - destruct (cell_at "Total" r); try done. by eexists.
  - destruct (cell_at "Date" r); try done; [right; by eexists|by left].
Qed.

Lemma row_number_ge_true (v : option Qc) (r : gmap string cell) :
  typed_row r = true ->
  row_number ge_number v r = true <->
  (forall x, v = Some x -> (x <= number_at "Total" r)%Qc).
Proof.
  intros Ht. destruct (typed_row_cells r Ht) as [[q Hq] _].
  unfold row_number, number_at. rewrite Hq.
  destruct v as [x|]; [|split; [intros _ ? [=]|done]].
  cbn [holds ge_number le_number]. unfold Qc_leb.
  case_bool_decide as Hle; (split; [intros H|intros H]).
  - by intros ? [= <-].
  - done.
  - done.
  - by specialize (H _ eq_refl).
Qed.

Lemma row_number_le_true (v : option Qc) (r : gmap string cell) :
  typed_row r = true ->
  row_number le_number v r = true <->
  (forall x, v = Some x -> (number_at "Total" r <= x)%Qc).
Proof.
  intros Ht. destruct (typed_row_cells r Ht) as [[q Hq] _].
  unfold row_number, number_at. rewrite Hq.
  destruct v as [x|]; [|split; [intros _ ? [=]|done]].
  cbn [holds ge_number le_number]. unfold Qc_leb.
  case_bool_decide as Hle; (split; [intros H|intros H]).
  - by intros ? [= <-].
  - done.
  - done.
  - by specialize (H _ eq_refl).
Qed.

Lemma row_date_ge_true (v : option string) (r : gmap string cell) :
  typed_row r = true ->
  row_date ge_timestamp v r = true <->
  (forall s, v = Some s -> s ≠ ""%string ->
     exists b t, parse_datetime_guess s = Some b /\ cell_at "Date" r = CTime t /\
                 ts_leb b t = true).
Proof.
  intros Ht. destruct (typed_row_cells r Ht) as [_ Hd].
  unfold row_date, truthy. destruct v as [s|]; [|split; [intros _ ? [=]|done]].
  case_bool_decide as Hs; [|split; [by intros _ ? [= <-]|done]].
  split.
  - intros H ? [= <-] _. destruct Hd as [Hd|[t Hd]]; rewrite Hd in H; [done|].
    cbn in H. destruct (parse_datetime_guess s) as [b|]; [|done].
    exists b, t. split; [done|]. split; [done|]. by destruct (ts_leb _ _).
  - intros H. destruct (H s eq_refl Hs) as (b & t & -> & -> & Hle).
    cbn. by rewrite Hle.
Qed.

Lemma row_date_le_true (v : option string) (r : gmap string cell) :
  typed_row r = true ->
  row_date le_timestamp v r = true <->
  (forall s, v = Some s -> s ≠ ""%string ->
     exists b t, parse_datetime_guess s = Some b /\ cell_at "Date" r = CTime t /\
                 ts_leb t b = true).
Proof.
  intros Ht. destruct (typed_row_cells r Ht) as [_ Hd].
  unfold row_date, truthy. destruct v as [s|]; [|split; [intros _ ? [=]|done]].
  case_bool_decide as Hs; [|split; [by intros _ ? [= <-]|done]].
  split.
  - intros H ? [= <-] _. destruct Hd as [Hd|[t Hd]]; rewrite Hd in H; [done|].
    cbn in H. destruct (parse_datetime_guess s) as [b|]; [|done].
    exists b, t. split; [done|]. split; [done|]. by destruct (ts_leb _ _).
  - intros H. destruct (H s eq_refl Hs) as (b & t & -> & -> & Hle).
    cbn. by rewrite Hle.
Qed.

Lemma row_matches_selects (q : Criteria) (r : gmap string cell) :
  typed_row r = true -> row_matches q r = true <-> selects q r.
Proof.
  intros Ht. unfold row_matches, selects. rewrite !andb_true_iff.
  rewrite !row_equal_true, row_number_ge_true, row_number_le_true,
    row_date_ge_true, row_date_le_true by done.
  split.
  - intros (((((((((H1 & H2) & H3) & H4) & H5) & H6) & H7) & H8) & H9) & H10).
    split; [|done]. intros f s. destruct f; cbn; auto.
  - intros (Hf & H7 & H8 & H9 & H10).
    repeat split; try done.
    + apply (Hf FStatus).
    + apply (Hf FDeliveryStatus).
    + apply (Hf FCountry).
    + apply (Hf FProvince).
    + apply (Hf FState).
    + apply (Hf FPaymentMethod).
Qed.

Lemma mean_or_zero_value (df : DataFrame) :
  typed_frame df = true -> mean_or_zero df = Ok (CNum (mean_total (rows df))).
Proof.
  intros Ht. destruct (typed_frame_columns df Ht) as (HD & HT & HQ).
  unfold mean_or_zero, mean_total.
  destruct (0 <? length (rows df))%nat eqn:Hn; [|done].
  rewrite getitem_present by done. cbn [mbind result_bind].
  rewrite typed_column_numbers, series_mean_numbers by auto.
  rewrite length_fmap. by destruct (rows df).
Qed.

Lemma filtered_stats_full (q : Criteria) (df : DataFrame) :
  sales_table df = true ->
  filtered_stats q df = Ok (filtered_stats_of (restrict (row_matches q) df)).
Proof.
  intros Hs. unfold filtered_stats.
  rewrite apply_filters_value by done. cbn [mbind result_bind].
  assert (Ht : typed_frame (restrict (row_matches q) df) = true)
    by (by apply typed_frame_restrict, sales_table_typed).
  rewrite (column_sum_typed "Total") by auto. cbn [mbind result_bind].
  rewrite mean_or_zero_value by done. cbn [mbind result_bind].
  rewrite (column_sum_typed "Quantity") by auto. cbn [mbind result_bind].
  rewrite (getitem_present "State")
    by (rewrite has_column_restrict; apply sales_table_column; [done|];
        apply (bool_decide_unpack _); vm_compute; exact I).
  cbn [mbind result_bind].
  destruct (typed_frame_columns _ Ht) as (_ & HT & _).
  rewrite (getitem_present "Total") by done. cbn [mbind result_bind].
  rewrite (typed_column_numbers "Total") by auto.
  rewrite (groupby_agg_numbers series_sum Qc_sum) by apply series_sum_numbers.
  cbn [mbind result_bind].
  rewrite (getitem_present "Status")
    by (rewrite has_column_restrict; apply sales_table_column; [done|];
        apply (bool_decide_unpack _); vm_compute; exact I).
  done.
Qed.

Lemma filter_sublist {A} (p : A -> bool) (l : list A) : sublist (List.filter p l) l.
Proof.
  induction l as [|x l IH]; [constructor|]. cbn.
  destruct (p x); by constructor.
Qed.

Lemma elem_of_List_filter {A} (p : A -> bool) (l : list A) (x : A) :
  x ∈ List.filter p l <-> x ∈ l /\ p x = true.
Proof. rewrite !list_elem_of_In. apply filter_In. Qed.



(** ** The whole bundle of a typed frame *)

Lemma stats_of_value (df : DataFrame) :
  typed_frame df = true -> stats_of df = Ok (stats_value df).
Proof.
  intros Ht. destruct (typed_frame_columns df Ht) as (HD & HT & HQ).
  unfold stats_of. rewrite basic_stats_typed by done. cbn [mbind result_bind].
  rewrite HD, (getitem_present "Date") by done. cbn [mbind result_bind].
  rewrite month_column, monthly_series_typed by done.
  cbn [mbind result_bind]. unfold assemble_stats.
  rewrite !counts_of_value. cbn [mbind result_bind].
  rewrite HQ, andb_true_r. unfold stats_value, counts_at, mean_total.
  cbn [fst snd].
  destruct (has_column "State" df) eqn:HS.
  - rewrite (getitem_present "State"), (getitem_present "Total"),
      (getitem_present "Quantity") by done.
    cbn [mbind result_bind].
    rewrite (typed_column_numbers "Total"), (typed_column_numbers "Quantity") by auto.
    rewrite (groupby_agg_numbers series_sum Qc_sum) by apply series_sum_numbers.
    cbn [mbind result_bind].
    rewrite (groupby_agg_numbers series_mean mean_of) by apply series_mean_numbers.
    destruct (has_column "SKU" df) eqn:HK.
    + rewrite getitem_present by done. done.
    + done.
  - cbn [mbind result_bind].
    destruct (has_column "SKU" df) eqn:HK.
    + rewrite getitem_present by done. done.
    + done.
Qed.

(** ** Numeric bounds *)

Lemma filter_length_le {A} (p p' : A -> bool) (l : list A) :
  (forall x, x ∈ l -> p x = true -> p' x = true) ->
  (length (List.filter p l) <= length (List.filter p' l))%nat.
Proof.
  induction l as [|x l IH]; intros Hp; [done|]. cbn.
  assert (IH' : (length (List.filter p l) <= length (List.filter p' l))%nat).
  { apply IH. intros y Hy. apply Hp. by right. }
  destruct (p x) eqn:Hx.
  - rewrite (Hp x) by (done || left). cbn. lia.
  - destruct (p' x); cbn; lia.
Qed.

Lemma filter_ext_elem {A} (p p' : A -> bool) (l : list A) :
  (forall x, x ∈ l -> p x = p' x) -> List.filter p l = List.filter p' l.
Proof.
  induction l as [|x l IH]; intros Hp; [done|]. cbn.
  rewrite (Hp x) by left. rewrite IH; [done|]. intros y Hy. apply Hp. by right.
Qed.

Lemma get_filtered_stats_value (q : Criteria) (w : World) (df : DataFrame) :
  heap w !! app_state_data w = Some df ->
  sales_table df = true ->
  (get_filtered_stats q w).1 = Ok (filtered_stats_of (restrict (row_matches q) df)).
Proof.
  intros Hdf Hs.
  destruct (get_filtered_stats_run q w df Hdf) as (w' & -> & _). cbn [fst].
  by rewrite filtered_stats_full.
Qed.

Lemma filter_data_value (q : Criteria) (skip limit : Z) (w : World) (df : DataFrame) :
  heap w !! app_state_data w = Some df ->
  sales_table df = true ->
  (filter_data q skip limit w).1
  = Ok (to_dict_records (iloc skip (skip + limit) (restrict (row_matches q) df))).
Proof.
  intros Hdf Hs.
  destruct (filter_data_run q skip limit w df Hdf) as (w' & -> & _). cbn [fst].
  destruct (filtered_page_value q skip limit df Hs) as (r & -> & Hdata & _).
  cbn [mbind result_bind or_500]. by rewrite Hdata.
Qed.

Lemma restrict_none (p : gmap string cell -> bool) (df : DataFrame) :
  (forall r, r ∈ rows df -> p r = false) ->
  restrict p df = mkDataFrame (columns df) [].
Proof. intros H. unfold restrict. by rewrite filter_all_false. Qed.



(** ** Date bounds and rows without a date *)



(** ** No filter: the filtered figures are the overall figures *)

(** X9.  On a stored table with the schema, criteria that filter nothing make
    [get_filtered_stats] report the figures of [get_stats]: the count is
    [total_records], the sales, the quantity and the average order value are
    the same, [status_breakdown] is [status_counts] and [state_breakdown] is
    [state_values]. *)
Theorem unfiltered_stats_agree (q : Criteria) (w : World) (df : DataFrame) :
  heap w !! app_state_data w = Some df ->
  sales_table df = true ->
  no_filter q = true ->
  exists s st,
    (get_stats w).1 = Ok s /\
    (get_filtered_stats q w).1 = Ok st /\
    total_count st = total_records s /\
    fs_total_sales st = total_sales s /\
    fs_total_quantity st = total_quantity s /\
    fs_avg_order_value st = CNum (avg_order_value s) /\
    status_breakdown st = status_counts s /\
    state_breakdown st = state_values s.
Proof.
  intros Hdf Hs Hq.
  pose proof (sales_table_typed _ Hs) as Ht.
  assert (Hall : restrict (row_matches q) df = df)
    by (apply restrict_all; intros r _; by apply no_filter_matches).
  exists (stats_value df), (filtered_stats_of df).
  split; [by rewrite (get_stats_value _ _ Hdf), stats_of_value|].
  split; [by rewrite (get_filtered_stats_value q w df Hdf Hs), Hall|].
  cbn [total_count fs_total_sales fs_total_quantity fs_avg_order_value status_breakdown
       state_breakdown filtered_stats_of total_records total_sales total_quantity
       avg_order_value status_counts state_values stats_value].
  unfold counts_at.
  rewrite (sales_table_column "Status"), (sales_table_column "State");
    try done; apply (bool_decide_unpack _); vm_compute; exact I.
Qed.

Lemma unfiltered_stats_agree_witness :
  heap sample_world !! app_state_data sample_world = Some sample_frame /\
  sales_table sample_frame = true /\
  no_filter no_criteria = true /\
  exists s st,
    (get_stats sample_world).1 = Ok s /\
    (get_filtered_stats no_criteria sample_world).1 = Ok st /\
    total_count st = total_records s.
Proof.
  assert (H : heap sample_world !! app_state_data sample_world = Some sample_frame)
    by (vm_compute; reflexivity).
  assert (Hs : sales_table sample_frame = true) by (vm_compute; reflexivity).
  assert (Hq : no_filter no_criteria = true) by (vm_compute; reflexivity).
  split; [exact H|]. split; [exact Hs|]. split; [exact Hq|].
  destruct (unfiltered_stats_agree no_criteria sample_world sample_frame H Hs Hq)
    as (s & st & Hstats & Hst & Hn & _).
  exists s, st. split; [exact Hstats|]. split; [exact Hst|exact Hn].
Defined.

(** ** Columns the filters need *)

Lemma filter_equal_missing (col s : string) (df : DataFrame) :
  has_column col df = false -> s ≠ ""%string -> s ≠ "All"%string ->
  filter_equal col (Some s) df = Raise (KeyError col).
Proof.
  intros Hc H1 H2. unfold filter_equal, truthy.
  rewrite !bool_decide_eq_true_2 by done. cbn [andb].
  by rewrite getitem_absent.
Qed.

Lemma has_column_same_columns (c : string) (df df' : DataFrame) :
  columns df' = columns df -> has_column c df' = has_column c df.
Proof. intros H. unfold has_column. by rewrite H. Qed.

Lemma apply_filters_missing_column (f : cat_field) (q : Criteria) (s : string)
    (df : DataFrame) :
  has_column (field_column f) df = false ->
  field_value f q = Some s -> s ≠ ""%string -> s ≠ "All"%string ->
  exists e, apply_filters q df = Raise e.
Proof.
  intros Hc Hv H1 H2. unfold apply_filters.
  destruct (filter_equal "Status" (status q) df) as [d1|] eqn:E1;
    cbn [mbind result_bind]; [|by eexists].
  pose proof (filter_equal_columns _ _ _ _ E1) as C1.
  destruct (filter_equal "Deliver Status" (delivery_status q) d1) as [d2|] eqn:E2;
    cbn [mbind result_bind]; [|by eexists].
  pose proof (filter_equal_columns _ _ _ _ E2) as C2. rewrite C1 in C2.
  destruct (filter_equal "Shipping Country" (country q) d2) as [d3|] eqn:E3;
    cbn [mbind result_bind]; [|by eexists].
  pose proof (filter_equal_columns _ _ _ _ E3) as C3. rewrite C2 in C3.
  destruct (filter_equal "Shipping Province" (province q) d3) as [d4|] eqn:E4;
    cbn [mbind result_bind]; [|by eexists].
  pose proof (filter_equal_columns _ _ _ _ E4) as C4. rewrite C3 in C4.
  destruct (filter_equal "State" (state q) d4) as [d5|] eqn:E5;
    cbn [mbind result_bind]; [|by eexists].
  pose proof (filter_equal_columns _ _ _ _ E5) as C5. rewrite C4 in C5.
  destruct (filter_equal "Payment Method" (payment_method q) d5) as [d6|] eqn:E6;
    cbn [mbind result_bind]; [|by eexists].
  exfalso.
  destruct f; cbn [field_column field_value] in Hc, Hv; rewrite Hv in *.
  - by rewrite filter_equal_missing in E1.
  - rewrite filter_equal_missing in E2; [done| |done|done].
    by rewrite (has_column_same_columns _ df d1).
  - rewrite filter_equal_missing in E3; [done| |done|done].
    by rewrite (has_column_same_columns _ df d2).
  - rewrite filter_equal_missing in E4; [done| |done|done].
    by rewrite (has_column_same_columns _ df d3).
  - rewrite filter_equal_missing in E5; [done| |done|done].
    by rewrite (has_column_same_columns _ df d4).
  - rewrite filter_equal_missing in E6; [done| |done|done].
    by rewrite (has_column_same_columns _ df d5).
Qed.

(** X10.  Whatever the stored table, a categorical filter that is applied (a
    value other than the empty string and ["All"]) on a column the table does
    not have makes both filtering endpoints answer with status 500; the
    stored table is left as it was. *)
Theorem filter_on_missing_column_fails (f : cat_field) (q : Criteria) (s : string)
    (w : World) (df : DataFrame) :
  heap w !! app_state_data w = Some df ->
  has_column (field_column f) df = false ->
  field_value f q = Some s -> s ≠ ""%string -> s ≠ "All"%string ->
  (get_filtered_stats q w).1 = Raise (HTTPException 500) /\
  (forall skip limit, (filter_data q skip limit w).1 = Raise (HTTPException 500)) /\
  heap (get_filtered_stats q w).2 !! app_state_data (get_filtered_stats q w).2 = Some df.
Proof.
  intros Hdf Hc Hv H1 H2.
  destruct (apply_filters_missing_column f q s df Hc Hv H1 H2) as [e He].
  split; [|split].
  - destruct (get_filtered_stats_run q w df Hdf) as (w' & -> & _). cbn [fst].
    unfold filtered_stats. by rewrite He.
  - intros skip limit.
    destruct (filter_data_run q skip limit w df Hdf) as (w' & -> & _). cbn [fst].
    unfold filtered_page. by rewrite He.
  - destruct (get_filtered_stats_run q w df Hdf) as (w' & -> & Hext). cbn [snd].
    by destruct (extends_stored w w' df Hdf Hext).
Qed.

Lemma filter_on_missing_column_fails_witness :
  heap bare_world !! app_state_data bare_world = Some bare_table /\
  has_column (field_column FStatus) bare_table = false /\
  field_value FStatus (with_field FStatus (Some "Paid"%string) no_criteria)
  = Some "Paid"%string /\
  "Paid"%string ≠ ""%string /\ "Paid"%string ≠ "All"%string /\
  (get_filtered_stats (with_field FStatus (Some "Paid"%string) no_criteria) bare_world).1
  = Raise (HTTPException 500).
Proof.
  assert (H : heap bare_world !! app_state_data bare_world = Some bare_table)
    by (vm_compute; reflexivity).
  assert (Hc : has_column (field_column FStatus) bare_table = false)
    by (vm_compute; reflexivity).
  assert (H1 : "Paid"%string ≠ ""%string) by discriminate.
  assert (H2 : "Paid"%string ≠ "All"%string) by discriminate.
  split; [exact H|]. split; [exact Hc|]. split; [reflexivity|].
  split; [exact H1|]. split; [exact H2|].
  destruct (filter_on_missing_column_fails FStatus
              (with_field FStatus (Some "Paid"%string) no_criteria) "Paid"
              bare_world bare_table H Hc eq_refl H1 H2) as (Hst & _).
  exact Hst.
Defined.

Lemma absent_or_all_cases (v : option string) :
  absent_or_all v = true -> v = None \/ v = Some ""%string \/ v = Some "All"%string.
Proof.
  destruct v as [s|]; [|auto]. cbn. intros H. apply bool_decide_eq_true in H as ->. auto.
Qed.

Lemma apply_filters_no_filter (q : Criteria) (df : DataFrame) :
  no_filter q = true -> apply_filters q df = Ok df.
Proof.
  unfold no_filter. rewrite !andb_true_iff.
  intros (((((((((H1 & H2) & H3) & H4) & H5) & H6) & H7) & H8) & H9) & H10).
  unfold apply_filters.
  do 6 (rewrite filter_equal_inactive by (by apply absent_or_all_cases);
        cbn [mbind result_bind]).
  destruct (min_total q); [done|]. destruct (max_total q); [done|].
  destruct (from_date q); [done|]. by destruct (to_date q).
Qed.

Lemma filtered_stats_needs_breakdown_columns (q : Criteria) (df : DataFrame) :
  has_column "State" df = false \/ has_column "Status" df = false ->
  exists e, filtered_stats q df = Raise e.
Proof.
  intros Hc. unfold filtered_stats.
  destruct (apply_filters q df) as [fd|] eqn:E; cbn [mbind result_bind]; [|by eexists].
  apply apply_filters_columns in E.
  destruct (s ← getitem "Total" fd; series_sum s); cbn [mbind result_bind]; [|by eexists].
  destruct (mean_or_zero fd); cbn [mbind result_bind]; [|by eexists].
  destruct (s ← getitem "Quantity" fd; series_sum s); cbn [mbind result_bind];
    [|by eexists].
  destruct Hc as [Hc|Hc].
  - rewrite (getitem_absent "State")
      by (by rewrite (has_column_same_columns _ df fd)).
    cbn [mbind result_bind]. by eexists.
  - destruct (st ← getitem "State" fd; tot ← getitem "Total" fd;
              groupby_agg series_sum st tot); cbn [mbind result_bind]; [|by eexists].
    rewrite (getitem_absent "Status")
      by (by rewrite (has_column_same_columns _ df fd)).
    cbn [mbind result_bind]. by eexists.
Qed.

(** X11.  On a stored typed table that lacks the [State] or the [Status]
    column, [get_stats] still succeeds, with empty breakdowns for the column
    that is missing, and [filter_data] with criteria that filter nothing
    returns the pages of [get_data]; [get_filtered_stats] answers with status
    500 for every criteria, since it groups by [State] and counts [Status]
    without looking whether they are there. *)
Theorem breakdown_columns_needed (w : World) (df : DataFrame) :
  heap w !! app_state_data w = Some df ->
  typed_frame df = true ->
  has_column "State" df = false \/ has_column "Status" df = false ->
  (exists s, (get_stats w).1 = Ok s /\
     (has_column "State" df = false ->
        state_counts s = [] /\ state_values s = [] /\ avg_quantity_by_state s = []) /\
     (has_column "Status" df = false -> status_counts s = [])) /\
  (forall q skip limit, no_filter q = true ->
     (filter_data q skip limit w).1 = (get_data skip limit w).1) /\
  (forall q, (get_filtered_stats q w).1 = Raise (HTTPException 500)).
Proof.
  intros Hdf Ht Hc. split; [|split].
  - rewrite (get_stats_value _ _ Hdf), stats_of_value by done.
    eexists. split; [reflexivity|].
    cbn [state_counts state_values avg_quantity_by_state status_counts stats_value].
    unfold counts_at. split; [by intros ->|by intros ->].
  - intros q skip limit Hq.
    destruct (filter_data_run q skip limit w df Hdf) as (w' & -> & _).
    rewrite (get_data_run _ _ _ _ Hdf). cbn [fst].
    unfold filtered_page. rewrite apply_filters_no_filter by done.
    cbn [mbind result_bind].
    rewrite (column_sum_typed "Total") by auto. cbn [mbind result_bind].
    rewrite mean_or_zero_value by done. cbn [mbind result_bind].
    by rewrite (column_sum_typed "Quantity") by auto.
  - intros q. destruct (get_filtered_stats_run q w df Hdf) as (w' & -> & _). cbn [fst].
    by destruct (filtered_stats_needs_breakdown_columns q df Hc) as [e ->].
Qed.

Lemma breakdown_columns_needed_witness :
  heap bare_world !! app_state_data bare_world = Some bare_table /\
  typed_frame bare_table = true /\
  (has_column "State" bare_table = false \/ has_column "Status" bare_table = false) /\
  forall q, (get_filtered_stats q bare_world).1 = Raise (HTTPException 500).
Proof.
  assert (H : heap bare_world !! app_state_data bare_world = Some bare_table)
    by (vm_compute; reflexivity).
  assert (Ht : typed_frame bare_table = true) by (vm_compute; reflexivity).
  assert (Hc : has_column "State" bare_table = false) by (vm_compute; reflexivity).
  split; [exact H|]. split; [exact Ht|]. split; [left; exact Hc|].
  destruct (breakdown_columns_needed bare_world bare_table H Ht (or_introl Hc))
    as (_ & _ & Hst).
  exact Hst.
Defined.

(** ** Breakdowns add up *)

Lemma NoDup_unique (l : list cell) : NoDup (unique l).
Proof.
  induction l as [|x l IH]; [constructor|]. cbn. constructor.
  - rewrite list_elem_of_filter. tauto.
  - by apply list.NoDup_filter.
Qed.

Section SortPermutation.
Context {A : Type} (leb : A -> A -> bool).

Lemma insert_sorted_Permutation (x : A) (l : list A) :
  insert_sorted leb x l ≡ₚ x :: l.
Proof.
  induction l as [|y l IH]; [done|]. cbn. destruct (leb x y); [done|].
  rewrite IH. apply perm_swap.
Qed.

Lemma stable_sort_Permutation (l : list A) : stable_sort leb l ≡ₚ l.
Proof.
  induction l as [|x l IH]; [done|]. cbn.
  by rewrite insert_sorted_Permutation, IH.
Qed.

End SortPermutation.

Lemma Qc_sum_Permutation (l l' : list Qc) : l ≡ₚ l' -> Qc_sum l = Qc_sum l'.
Proof.
  induction 1 as [|x l l' _ IH|x y l|l l' l'' _ IH1 _ IH2]; cbn.
  - done.
  - by rewrite IH.
  - ring.
  - by rewrite IH1.
Qed.

Lemma Qc_sum_zeros {A} (l : list A) : Qc_sum ((fun _ => 0%Qc) <$> l) = 0%Qc.
Proof. induction l as [|x l IH]; [done|]. cbn. rewrite IH. ring. Qed.

Lemma Qc_sum_fmap_add {A} (a b : A -> Qc) (l : list A) :
  Qc_sum ((fun k => (a k + b k)%Qc) <$> l)
  = (Qc_sum (a <$> l) + Qc_sum (b <$> l))%Qc.
Proof. induction l as [|x l IH]; cbn; [ring|]. rewrite IH. ring. Qed.

Lemma Qc_sum_indicator (c : cell) (v : Qc) (keys : list cell) :
  NoDup keys ->
  Qc_sum ((fun k => if bool_decide (c = k) then v else 0%Qc) <$> keys)
  = if bool_decide (c ∈ keys) then v else 0%Qc.
Proof.
  induction 1 as [|k keys Hk _ IH]; [done|]. cbn. rewrite IH.
  destruct (decide (c = k)) as [->|Hne].
  - rewrite (bool_decide_eq_true_2 (k = k)) by done.
    rewrite (bool_decide_eq_false_2 (k ∈ keys)) by done.
    rewrite (bool_decide_eq_true_2 (k ∈ k :: keys)) by left. ring.
  - rewrite (bool_decide_eq_false_2 (c = k)) by done.
    rewrite (bool_decide_ext (c ∈ k :: keys) (c ∈ keys)); [ring|].
    rewrite elem_of_cons. tauto.
Qed.

Lemma sum_list_indicator (c : cell) (keys : list cell) :
  NoDup keys ->
  sum_list ((fun k => if bool_decide (c = k) then 1%nat else 0%nat) <$> keys)
  = if bool_decide (c ∈ keys) then 1%nat else 0%nat.
Proof.
  induction 1 as [|k keys Hk _ IH]; [done|]. cbn. rewrite IH.
  destruct (decide (c = k)) as [->|Hne].
  - rewrite (bool_decide_eq_true_2 (k = k)) by done.
    rewrite (bool_decide_eq_false_2 (k ∈ keys)) by done.
    by rewrite (bool_decide_eq_true_2 (k ∈ k :: keys)) by left.
  - rewrite (bool_decide_eq_false_2 (c = k)) by done.
    rewrite (bool_decide_ext (c ∈ k :: keys) (c ∈ keys)); [done|].
    rewrite elem_of_cons. tauto.
Qed.

Lemma sum_list_fmap_add {A} (a b : A -> nat) (l : list A) :
  sum_list ((fun k => (a k + b k)%nat) <$> l)
  = (sum_list (a <$> l) + sum_list (b <$> l))%nat.
Proof. induction l as [|x l IH]; cbn; [done|]. rewrite IH. lia. Qed.

Section Groups.
Context {A : Type} (f : A -> cell).

(** The totals of the groups of distinct labels [keys] add up to the total
    over the elements whose label is among [keys]. *)
Lemma group_sums_add_up (g : A -> Qc) (keys : list cell) (l : list A) :
  NoDup keys ->
  Qc_sum ((fun k => Qc_sum (select_mask (g <$> l) (label_mask k (f <$> l)))) <$> keys)
  = Qc_sum (g <$> List.filter (fun x => bool_decide (f x ∈ keys)) l).
Proof.
  intros Hkeys. induction l as [|x l IH].
  - cbn. apply Qc_sum_zeros.
  - rewrite (list_fmap_ext _
      (fun k => ((if bool_decide (f x = k) then g x else 0)
                 + Qc_sum (select_mask (g <$> l) (label_mask k (f <$> l))))%Qc)
      keys).
    2:{ intros i k _. unfold label_mask. rewrite !fmap_cons. cbn [select_mask].
        destruct (bool_decide (f x = k)); cbn [Qc_sum]; ring. }
    rewrite Qc_sum_fmap_add, IH, Qc_sum_indicator by done. cbn [List.filter].
    destruct (bool_decide (f x ∈ keys)); rewrite ?fmap_cons; cbn [Qc_sum]; ring.
Qed.

Lemma group_counts_add_up (keys : list cell) (l : list A) :
  NoDup keys ->
  sum_list ((fun k => occurrences k (f <$> l)) <$> keys)
  = length (List.filter (fun x => bool_decide (f x ∈ keys)) l).
Proof.
  intros Hkeys. induction l as [|x l IH].
  - cbn. induction keys as [|k keys IHk]; [done|]. cbn.
    apply NoDup_cons in Hkeys as [_ Hkeys]. by rewrite IHk.
  - rewrite (list_fmap_ext _
      (fun k => ((if bool_decide (f x = k) then 1 else 0)
                 + occurrences k (f <$> l))%nat) keys).
    2:{ intros i k _. unfold occurrences. rewrite fmap_cons.
        destruct (decide (f x = k)) as [Hk|Hk].
        - rewrite filter_cons_True, bool_decide_eq_true_2 by done. done.
        - rewrite filter_cons_False, bool_decide_eq_false_2 by done. done. }
    rewrite sum_list_fmap_add, IH, sum_list_indicator by done. cbn.
    by destruct (bool_decide (f x ∈ keys)).
Qed.

Lemma NoDup_group_keys (by_ : list cell) : NoDup (group_keys by_).
Proof.
  unfold group_keys. rewrite stable_sort_Permutation. apply NoDup_unique.
Qed.

Lemma filter_by_group_keys (l : list A) :
  List.filter (fun x => bool_decide (f x ∈ group_keys (f <$> l))) l
  = List.filter (fun x => negb (isna (f x))) l.
Proof.
  apply filter_ext_elem. intros x Hx.
  destruct (isna (f x)) eqn:Hna; cbn.
  - apply bool_decide_eq_false_2. rewrite group_keys_elem. intros [_ ?]. congruence.
  - apply bool_decide_eq_true_2, group_keys_elem. split; [|done].
    apply list_elem_of_fmap. by exists x.
Qed.

Lemma filter_by_unique (l : list A) :
  List.filter
    (fun x => bool_decide (f x ∈ unique (filter (fun c => isna c = false) (f <$> l)))) l
  = List.filter (fun x => negb (isna (f x))) l.
Proof.
  apply filter_ext_elem. intros x Hx.
  destruct (isna (f x)) eqn:Hna; cbn.
  - apply bool_decide_eq_false_2. rewrite elem_of_unique, list_elem_of_filter.
    intros [? _]. congruence.
  - apply bool_decide_eq_true_2. rewrite elem_of_unique, list_elem_of_filter.
    split; [done|]. apply list_elem_of_fmap. by exists x.
Qed.

(** The totals per label add up to the total over the elements that have a
    label. *)
Lemma sum_by_adds_up (g : A -> Qc) (l : list A) :
  Qc_sum ((sum_by (f <$> l) (g <$> l)).*2)
  = Qc_sum (g <$> List.filter (fun x => negb (isna (f x))) l).
Proof.
  unfold sum_by. rewrite <- list_fmap_compose.
  rewrite <- filter_by_group_keys.
  rewrite <- (group_sums_add_up g (group_keys (f <$> l)) l) by apply NoDup_group_keys.
  done.
Qed.

(** The counts of [value_counts] add up to the number of elements that have a
    value. *)
Lemma value_counts_add_up (l : list A) :
  sum_list ((value_counts (f <$> l)).*2)
  = length (List.filter (fun x => negb (isna (f x))) l).
Proof.
  unfold value_counts.
  rewrite (stable_sort_Permutation count_desc (tally (f <$> l))).
  unfold tally. rewrite <- list_fmap_compose.
  rewrite <- filter_by_unique.
  rewrite <- (group_counts_add_up _ l) by apply NoDup_unique.
  done.
Qed.

Lemma groupby_size_adds_up (l : list A) :
  sum_list ((sort_values (groupby_size (f <$> l))).*2)
  = length (List.filter (fun x => negb (isna (f x))) l).
Proof.
  unfold sort_values.
  rewrite (stable_sort_Permutation _ (groupby_size (f <$> l))).
  unfold groupby_size. rewrite <- list_fmap_compose.
  rewrite <- filter_by_group_keys.
  rewrite <- (group_counts_add_up _ l) by apply NoDup_group_keys.
  done.
Qed.

End Groups.

Lemma with_value_all (name : string) (rs : list (gmap string cell)) :
  (forall r, r ∈ rs -> isna (cell_at name r) = false) -> with_value name rs = rs.
Proof.
  intros H. unfold with_value. apply filter_all_true. intros r Hr. by rewrite H.
Qed.

Lemma with_value_length (name : string) (rs : list (gmap string cell)) :
  (length (with_value name rs) <= length rs)%nat.
Proof. apply sublist_length, filter_sublist. Qed.

Lemma counts_at_add_up (name : string) (df : DataFrame) :
  has_column name df = true ->
  sum_list ((counts_at name df).*2) = length (with_value name (rows df)).
Proof.
  intros Hc. unfold counts_at, column_values. rewrite Hc.
  apply (value_counts_add_up (cell_at name)).
Qed.







(** ** The SKUs that are left out *)

Lemma value_counts_complete (s : list cell) (k : cell) :
  k ∈ s -> isna k = false -> (k, occurrences k s) ∈ value_counts s.
Proof.
  intros Hk Hna. unfold value_counts, tally.
  rewrite elem_of_stable_sort, list_elem_of_fmap. exists k. split; [done|].
  by apply elem_of_unique, list_elem_of_filter.
Qed.

Lemma value_counts_length (s : list cell) :
  length (value_counts s) = length (unique (filter (fun c => isna c = false) s)).
Proof.
  unfold value_counts, tally.
  by rewrite (Permutation_length (stable_sort_Permutation _ _)), length_fmap.
Qed.

(** In a sorted list, what stands in the first [n] places is before what
    stands after them. *)
Lemma StronglySorted_take_drop {A} (R : A -> A -> Prop) (n : nat) (l : list A)
    (x y : A) :
  StronglySorted R l -> x ∈ take n l -> y ∈ drop n l -> R x y.
Proof.
  intros Hl Hx Hy.
  apply list_elem_of_lookup in Hx as [i Hi]. apply list_elem_of_lookup in Hy as [j Hj].
  pose proof (lookup_lt_Some _ _ _ Hi) as Hlt. rewrite length_take in Hlt.
  rewrite lookup_take_lt in Hi by lia. rewrite lookup_drop in Hj.
  apply (StronglySorted_lookup R l i (n + j)); [done|lia|done|done].
Qed.

(** X15.  On a stored typed table with a [SKU] column, [top_skus] holds as
    many entries as there are distinct SKUs, up to 10, and no SKU that is
    left out is more frequent than one that is listed: every SKU of the
    table is listed with its count, or its count is at most the count of
    each listed entry.  With 10 distinct SKUs or fewer, every SKU is
    listed. *)
Theorem top_skus_most_frequent (w : World) (df : DataFrame) :
  heap w !! app_state_data w = Some df ->
  typed_frame df = true ->
  has_column "SKU" df = true ->
  exists s, (get_stats w).1 = Ok s /\
    length (top_skus s)
    = Nat.min 10 (length (unique (filter (fun c => isna c = false)
                                    (column_values "SKU" df)))) /\
    (forall k, k ∈ column_values "SKU" df -> isna k = false ->
       (k, occurrences k (column_values "SKU" df)) ∈ top_skus s \/
       (forall e, e ∈ top_skus s ->
          (occurrences k (column_values "SKU" df) <= e.2)%nat)) /\
    ((length (unique (filter (fun c => isna c = false) (column_values "SKU" df)))
      <= 10)%nat ->
     forall k, k ∈ column_values "SKU" df -> isna k = false ->
       (k, occurrences k (column_values "SKU" df)) ∈ top_skus s).
Proof.
  intros Hdf Ht Hsku. exists (stats_value df).
  split; [by rewrite (get_stats_value _ _ Hdf), stats_of_value|].
  cbn [top_skus stats_value]. unfold counts_at, head. rewrite Hsku.
  set (col := column_values "SKU" df).
  split; [by rewrite length_take, value_counts_length, Nat.min_comm|]. split.
  - intros k Hk Hna.
    pose proof (value_counts_complete col k Hk Hna) as Hin.
    rewrite <- (take_drop 10 (value_counts col)) in Hin.
    apply elem_of_app in Hin as [Hin|Hin]; [by left|right].
    intros e He.
    pose proof (StronglySorted_take_drop _ 10 _ e _ (value_counts_order col) He Hin)
      as Hord.
    unfold counts_order in Hord. cbn in Hord. lia.
  - intros Hfew k Hk Hna.
    rewrite take_ge by (rewrite value_counts_length; lia).
    by apply value_counts_complete.
Qed.

Lemma top_skus_most_frequent_witness :
  heap sample_world !! app_state_data sample_world = Some sample_frame /\
  typed_frame sample_frame = true /\
  has_column "SKU" sample_frame = true /\
  exists s, (get_stats sample_world).1 = Ok s /\
    length (top_skus s)
    = Nat.min 10 (length (unique (filter (fun c => isna c = false)
                                    (column_values "SKU" sample_frame)))).
Proof.
  assert (H : heap sample_world !! app_state_data sample_world = Some sample_frame)
    by (vm_compute; reflexivity).
  assert (Ht : typed_frame sample_frame = true) by (vm_compute; reflexivity).
  assert (Hc : has_column "SKU" sample_frame = true) by (vm_compute; reflexivity).
  split; [exact H|]. split; [exact Ht|]. split; [exact Hc|].
  destruct (top_skus_most_frequent sample_world sample_frame H Ht Hc)
    as (s & Hs & Hlen & _).
  exists s. split; [exact Hs|exact Hlen].
Defined.

(** ** The filter options *)

Lemma filter_options_fold (df : DataFrame) (cols : list string)
    (acc : list (string * list cell)) :
  foldl
    (fun options col =>
       options ← options;
       if has_column col df then
         c ← getitem col df;
         let values := unique (filter (fun v => isna v = false)
                                      (filter (fun v => v ≠ CStr "") c)) in
         Ok (options ++ [(col, CStr "All" :: values)])
       else Ok options)
    (Ok acc) cols
  = Ok (acc ++ ((fun c => (c, options_for c df))
                  <$> List.filter (fun c => has_column c df) cols)).
Proof.
  revert acc. induction cols as [|col cols IH]; intros acc.
  - cbn. by rewrite app_nil_r.
  - cbn [foldl List.filter]. cbn [mbind result_bind].
    destruct (has_column col df) eqn:Hc.
    + rewrite getitem_present by done. cbn [mbind result_bind].
      rewrite IH, fmap_cons, <- app_assoc. done.
    + by rewrite IH.
Qed.

Lemma filter_options_value (df : DataFrame) :
  filter_options_of df
  = Ok ((fun c => (c, options_for c df))
          <$> List.filter (fun c => has_column c df) categorical_columns).
Proof. unfold filter_options_of. by rewrite filter_options_fold. Qed.

Lemma elem_of_options_for (col : string) (df : DataFrame) (v : cell) :
  v ∈ options_for col df <->
  v = CStr "All" \/
  (v ∈ column_values col df /\ v ≠ CStr "" /\ isna v = false).
Proof.
  unfold options_for.
  rewrite elem_of_cons, elem_of_unique, !list_elem_of_filter. tauto.
Qed.

(** X16.  Whatever the stored table, [get_filter_options] succeeds and
    leaves the state as it is.  It has one entry for each of the seven
    categorical labels that is a column of the table, in the order of that
    list, and none for the others.  An entry starts with ["All"]; after it
    come, without repetition, exactly the values of the column that are
    neither the empty string nor missing. *)
Theorem filter_options_listed (w : World) (df : DataFrame) :
  heap w !! app_state_data w = Some df ->
  exists opts,
    get_filter_options w = (Ok opts, w) /\
    opts.*1 = List.filter (fun c => has_column c df) categorical_columns /\
    (forall col vals, (col, vals) ∈ opts ->
       col ∈ categorical_columns /\ has_column col df = true /\
       exists rest,
         vals = CStr "All" :: rest /\ NoDup rest /\
         (forall v, v ∈ rest <->
            v ∈ column_values col df /\ v ≠ CStr "" /\ isna v = false)).
Proof.
  intros Hdf. rewrite (get_filter_options_run _ _ Hdf), filter_options_value.
  eexists. split; [reflexivity|]. split.
  - rewrite <- list_fmap_compose. apply list_fmap_id.
  - intros col vals Hin.
    apply list_elem_of_fmap in Hin as (c & [= -> ->] & Hc).
    apply elem_of_List_filter in Hc as [Hc Hhas].
    split; [done|]. split; [done|].
    eexists. split; [reflexivity|]. split; [apply NoDup_unique|].
    intros v. rewrite elem_of_unique, !list_elem_of_filter. tauto.
Qed.

Lemma filter_options_listed_witness :
  heap sample_world !! app_state_data sample_world = Some sample_frame /\
  exists opts,
    get_filter_options sample_world = (Ok opts, sample_world) /\
    opts.*1 = List.filter (fun c => has_column c sample_frame) categorical_columns.
Proof.
  assert (H : heap sample_world !! app_state_data sample_world = Some sample_frame)
    by (vm_compute; reflexivity).
  split; [exact H|].
  destruct (filter_options_listed sample_world sample_frame H) as (opts & Hrun & Hcols & _).
  exists opts. split; [exact Hrun|exact Hcols].
Defined.

(** ** An option used as a filter *)

Lemma occurrences_filter (k : cell) (col : string) (rs : list (gmap string cell)) :
  occurrences k (cell_at col <$> rs)
  = length (List.filter (fun r => bool_decide (cell_at col r = k)) rs).
Proof.
  unfold occurrences. induction rs as [|r rs IH]; [done|].
  rewrite fmap_cons. cbn [List.filter]. case_bool_decide as Hk.
  - rewrite filter_cons_True by done. cbn. by rewrite IH.
  - by rewrite filter_cons_False.
Qed.

Lemma row_matches_one_field (f : cat_field) (s : string) (r : gmap string cell) :
  s ≠ ""%string -> s ≠ "All"%string ->
  row_matches (with_field f (Some s) no_criteria) r
  = bool_decide (cell_at (field_column f) r = CStr s).
Proof.
  intros H1 H2. unfold row_matches.
  destruct f; cbn [with_field no_criteria status delivery_status country province state
                   payment_method min_total max_total from_date to_date field_column
                   row_equal row_number row_date truthy];
    rewrite !bool_decide_eq_true_2 by done; cbn [andb]; unfold eq_text;
    by rewrite ?andb_true_r.
Qed.

(** X17.  On a stored table with the schema, every filter column has its
    entry in the options, and an option of it other than ["All"] that is a
    text, sent alone as the value of that filter, selects the rows that hold
    it, at least one: [get_filtered_stats] counts as many rows as the value
    occurs in the column, and the first page of [filter_data] is not
    empty. *)
Theorem option_selects_its_rows (f : cat_field) (s : string) (w : World)
    (df : DataFrame) :
  heap w !! app_state_data w = Some df ->
  sales_table df = true ->
  s ≠ "All"%string ->
  exists opts vals,
    get_filter_options w = (Ok opts, w) /\
    (field_column f, vals) ∈ opts /\
    (CStr s ∈ vals ->
     exists st,
       (get_filtered_stats (with_field f (Some s) no_criteria) w).1 = Ok st /\
       total_count st = occurrences (CStr s) (column_values (field_column f) df) /\
       (0 < total_count st)%nat /\
       forall limit, 0 < limit ->
         exists rec page,
           (filter_data (with_field f (Some s) no_criteria) 0 limit w).1
           = Ok (rec :: page)).
Proof.
  intros Hdf Hs Hall.
  assert (Hcol : has_column (field_column f) df = true).
  { apply sales_table_column; [done|]. apply (bool_decide_unpack _).
    by destruct f; vm_compute. }
  exists ((fun c => (c, options_for c df))
            <$> List.filter (fun c => has_column c df) categorical_columns),
    (options_for (field_column f) df).
  split; [by rewrite (get_filter_options_run _ _ Hdf), filter_options_value|]. split.
  { apply list_elem_of_fmap. exists (field_column f). split; [done|].
    apply elem_of_List_filter. split; [|done].
    apply (bool_decide_unpack _). by destruct f; vm_compute. }
  intros Hin. apply elem_of_options_for in Hin as [[= ->]|(Hv & Hne & _)]; [done|].
  assert (Hne' : s ≠ ""%string) by congruence.
  assert (Hsel : List.filter (row_matches (with_field f (Some s) no_criteria)) (rows df)
                 = List.filter (fun r => bool_decide (cell_at (field_column f) r = CStr s))
                     (rows df)).
  { apply filter_ext_elem. intros r _. by apply row_matches_one_field. }
  assert (Hpos : (0 < length (List.filter
                               (row_matches (with_field f (Some s) no_criteria))
                               (rows df)))%nat).
  { rewrite Hsel, <- occurrences_filter. unfold occurrences.
    apply list_elem_of_fmap in Hv as (r & Hr & Hin).
    assert (Hocc : CStr s ∈ filter (fun c => c = CStr s) (cell_at (field_column f) <$> rows df)).
    { apply list_elem_of_filter. split; [done|].
      apply list_elem_of_fmap. by exists r. }
    destruct (filter _ _); [by apply elem_of_nil in Hocc|cbn; lia]. }
  eexists. split; [by apply get_filtered_stats_value|].
  cbn [total_count filtered_stats_of rows restrict].
  split; [by rewrite Hsel, <- occurrences_filter|]. split; [done|].
  intros limit Hlimit.
  rewrite (filter_data_value _ 0 limit w df Hdf Hs).
  unfold to_dict_records, iloc. cbn [rows columns restrict].
  rewrite py_slice_nonneg by lia. cbn [Z.to_nat drop].
  destruct (List.filter _ (rows df)) as [|r rs]; [cbn in Hpos; lia|].
  replace (Z.to_nat (0 + limit - 0)) with (S (Z.to_nat (limit - 1))) by lia.
  cbn [take fmap list_fmap]. by eexists _, _.
Qed.

Lemma option_selects_its_rows_witness :
  heap sample_world !! app_state_data sample_world = Some sample_frame /\
  sales_table sample_frame = true /\
  "Paid"%string ≠ "All"%string /\
  exists opts vals,
    get_filter_options sample_world = (Ok opts, sample_world) /\
    (field_column FStatus, vals) ∈ opts.
Proof.
  assert (H : heap sample_world !! app_state_data sample_world = Some sample_frame)
    by (vm_compute; reflexivity).
  assert (Hs : sales_table sample_frame = true) by (vm_compute; reflexivity).
  assert (Hne : "Paid"%string ≠ "All"%string) by discriminate.
  split; [exact H|]. split; [exact Hs|]. split; [exact Hne|].
  destruct (option_selects_its_rows FStatus "Paid" sample_world sample_frame H Hs Hne)
    as (opts & vals & Hrun & Hin & _).
  exists opts, vals. split; [exact Hrun|exact Hin].
Defined.

(** ** Authentication *)

Section AuthenticationFacts.
Context `{Library}.

Lemma get_user_fake_users_db (name : string) :
  get_user fake_users_db name
  = if bool_decide (name = "admin"%string) then Some admin_user else None.
Proof.
  unfold get_user, fake_users_db. case_bool_decide as Hn.
  - subst. apply lookup_singleton_eq.
  - by apply lookup_singleton_ne.
Qed.

Lemma datetime_add_in_range (t d : Z) :
  datetime_min <= t + d <= datetime_max -> datetime_add t d = Ok (t + d).
Proof. intros Hr. unfold datetime_add. by rewrite bool_decide_eq_true_2. Qed.

Lemma datetime_add_out_of_range (t d : Z) :
  ~ datetime_min <= t + d <= datetime_max -> datetime_add t d = Raise OverflowError.
Proof. intros Hr. unfold datetime_add. by rewrite bool_decide_eq_false_2. Qed.

Lemma login_admin (now : Z) (password : string) :
  pwd_verify password admin_hash = true ->
  datetime_min <= now + minutes 30 <= datetime_max ->
  login_for_access_token now "admin" password
  = Ok (mkToken
          (jwt_encode
             (<["exp"%string := JTime (now + minutes 30)]>
                {[ "sub"%string := JStr "admin" ]})
             SECRET_KEY ALGORITHM)
          "bearer").
Proof.
  intros Hp Hr. unfold login_for_access_token, authenticate_user, verify_password.
  rewrite get_user_fake_users_db.
  rewrite bool_decide_eq_true_2 by done. cbn [hashed_password admin_user].
  rewrite Hp. cbn [negb username]. unfold create_access_token.
  rewrite bool_decide_eq_true_2 by (by vm_compute).
  unfold ACCESS_TOKEN_EXPIRE_MINUTES. by rewrite datetime_add_in_range.
Qed.

(** X18.  [login_for_access_token] answers with status 401 for every user
    name other than ["admin"], whatever the password, and for ["admin"] with
    a password that the stored hash does not verify.  For ["admin"] with a
    password that verifies it returns a bearer token: the encoding, under the
    secret key and the algorithm, of the subject ["admin"] with an expiry 30
    minutes after the time of the call. *)
Theorem login_outcome (now : Z) (name password : string) :
  (name ≠ "admin"%string ->
   login_for_access_token now name password = Raise (HTTPException 401)) /\
  (pwd_verify password admin_hash = false ->
   login_for_access_token now name password = Raise (HTTPException 401)) /\
  (pwd_verify password admin_hash = true ->
   datetime_min <= now + minutes 30 <= datetime_max ->
   login_for_access_token now "admin" password
   = Ok (mkToken
           (jwt_encode
              (<["exp"%string := JTime (now + minutes 30)]>
                 {[ "sub"%string := JStr "admin" ]})
              SECRET_KEY ALGORITHM)
           "bearer")).
Proof.
  split; [|split]; [| |apply login_admin];
    unfold login_for_access_token, authenticate_user, verify_password.
  - intros Hn. rewrite get_user_fake_users_db.
    by rewrite bool_decide_eq_false_2.
  - intros Hp. rewrite get_user_fake_users_db.
    case_bool_decide; [|done]. cbn [hashed_password admin_user]. by rewrite Hp.
Qed.

(** X19.  [create_access_token] gives the token 15 minutes of validity when
    no [expires_delta] is passed and also when the one passed is zero; any
    other [expires_delta], negative ones included, is added to the time of
    the call.  The expiry is written over an ["exp"] entry that [data] may
    hold, the other entries being encoded as they are, and the call raises
    [OverflowError] when the expiry is past the range of [datetime]. *)
Theorem access_token_expiry (now : Z) (data : gmap string jvalue) :
  create_access_token now data None
  = create_access_token now data (Some (minutes 15)) /\
  create_access_token now data (Some 0)
  = create_access_token now data (Some (minutes 15)) /\
  (forall d v,
     create_access_token now (<["exp"%string := v]> data) d
     = create_access_token now data d) /\
  (forall d, d ≠ 0 -> datetime_min <= now + d <= datetime_max ->
     create_access_token now data (Some d)
     = Ok (jwt_encode (<["exp"%string := JTime (now + d)]> data) SECRET_KEY ALGORITHM)) /\
  (forall d, d ≠ 0 -> ~ datetime_min <= now + d <= datetime_max ->
     create_access_token now data (Some d) = Raise OverflowError).
Proof.
  unfold create_access_token. split; [|split; [|split; [|split]]].
  - by rewrite (bool_decide_eq_true_2 (minutes 15 ≠ 0)) by (by vm_compute).
  - rewrite (bool_decide_eq_false_2 (0 ≠ 0)) by (intros Hne; by apply Hne).
    by rewrite (bool_decide_eq_true_2 (minutes 15 ≠ 0)) by (by vm_compute).
  - intros d v.
    destruct (match d with
              | Some d0 => if bool_decide (d0 ≠ 0) then datetime_add now d0
                           else datetime_add now (minutes 15)
              | None => datetime_add now (minutes 15)
              end); cbn [mbind result_bind]; [|done].
    by rewrite insert_insert_eq.
  - intros d Hd Hr. by rewrite bool_decide_eq_true_2, datetime_add_in_range.
  - intros d Hd Hr. by rewrite bool_decide_eq_true_2, datetime_add_out_of_range.
Qed.

Lemma bind_lift_ignore {A B} (r : result A) (m : M B) (w : World) :
  (lift r;; m) w = match r with
                   | Ok _ => m w
                   | Raise e => (Raise e, w)
                   end.
Proof. apply (bind_lift r (fun _ => m)). Qed.

(** X20.  A token is refused, with status 401, when it does not decode, when
    its payload has no subject, and when the subject is not ["admin"]; the
    user the dependency returns is never another than the stored ["admin"],
    for a token that decodes to a payload with that subject, and status 400
    is never its answer since that user is not disabled.  When the token is
    refused the endpoint behind the dependency does not run: the answer is
    the error and the state is as it was. *)
Theorem current_user_is_registered (now : Z) (token : string) :
  (jwt_decode now token SECRET_KEY [ALGORITHM] = None ->
   current_active_user now token = Raise (HTTPException 401)) /\
  (forall payload,
     jwt_decode now token SECRET_KEY [ALGORITHM] = Some payload ->
     payload !! "sub"%string = None \/ payload !! "sub"%string = Some JNull ->
     current_active_user now token = Raise (HTTPException 401)) /\
  (forall payload sub name,
     jwt_decode now token SECRET_KEY [ALGORITHM] = Some payload ->
     payload !! "sub"%string = Some sub -> sub ≠ JNull ->
     validate_str sub = Ok name -> name ≠ "admin"%string ->
     current_active_user now token = Raise (HTTPException 401)) /\
  (forall user,
     current_active_user now token = Ok user ->
     user = admin_user /\
     exists payload sub,
       jwt_decode now token SECRET_KEY [ALGORITHM] = Some payload /\
       payload !! "sub"%string = Some sub /\
       validate_str sub = Ok "admin"%string) /\
  (forall e,
     current_active_user now token = Raise e ->
     (forall sub, validate_str sub ≠ Raise (HTTPException 400)) ->
     e ≠ HTTPException 400) /\
  (forall e A (endpoint : M A) w,
     current_active_user now token = Raise e ->
     authorized now token endpoint w = (Raise e, w)).
Proof.
  unfold current_active_user, get_current_user. cbn zeta.
  split; [|split; [|split; [|split; [|split]]]].
  - by intros ->.
  - intros payload -> [-> | ->]; done.
  - intros payload sub name -> -> Hsub Hv Hname. rewrite Hv.
    destruct sub; try done; cbn [mbind result_bind];
      rewrite get_user_fake_users_db, bool_decide_eq_false_2 by done; done.
  - intros user.
    destruct (jwt_decode now token SECRET_KEY [ALGORITHM]) as [payload|]; [|done].
    destruct (payload !! "sub"%string) as [sub|] eqn:Hsub; [|done].
    assert (Hgo : (name ← validate_str sub;
                   match get_user fake_users_db name with
                   | Some u => Ok u
                   | None => Raise (HTTPException 401)
                   end) ≫= get_current_active_user = Ok user ->
                  user = admin_user /\ validate_str sub = Ok "admin"%string).
    { destruct (validate_str sub) as [name|]; cbn [mbind result_bind]; [|done].
      rewrite get_user_fake_users_db. case_bool_decide as Hn; [|done]. subst name.
      cbn. intros [= <-]. done. }
    destruct sub; try done; intros Hu; destruct (Hgo Hu) as [-> Hv];
      (split; [done|]); by eexists _, _.
  - intros e He Hv Hbad. subst e.
    destruct (jwt_decode now token SECRET_KEY [ALGORITHM]) as [payload|]; [|done].
    destruct (payload !! "sub"%string) as [sub|] eqn:Hsub; [|done].
    assert (Hgo : (name ← validate_str sub;
                   match get_user fake_users_db name with
                   | Some u => Ok u
                   | None => Raise (HTTPException 401)
                   end) ≫= get_current_active_user ≠ Raise (HTTPException 400)).
    { destruct (validate_str sub) as [name|] eqn:Hval; cbn [mbind result_bind].
      - rewrite get_user_fake_users_db. by case_bool_decide.
      - intros [= ->]. by apply (Hv sub). }
    destruct sub; done.
  - intros e A endpoint w He. unfold authorized. rewrite bind_lift_ignore.
    unfold current_active_user, get_current_user. cbn zeta. by rewrite He.
Qed.

(** X21.  With a library in which the stored hash verifies
    ["password123"], a text validates as itself, and a token decodes, until
    one second before its expiry, to a payload with the subject it was
    encoded with: logging in as ["admin"] with ["password123"] at a time [t0]
    gives a bearer token with which the dependency returns the ["admin"] user
    at every time [t] up to a second before [t0] plus 30 minutes, so that the
    endpoint behind it runs as it would alone. *)
Theorem login_token_round_trip (t0 t : Z) :
  pwd_verify "password123" admin_hash = true ->
  (forall s, validate_str (JStr s) = Ok s) ->
  (forall payload s exp now,
     payload !! "sub"%string = Some (JStr s) ->
     payload !! "exp"%string = Some (JTime exp) ->
     now + second <= exp ->
     exists decoded,
       jwt_decode now (jwt_encode payload SECRET_KEY ALGORITHM) SECRET_KEY [ALGORITHM]
       = Some decoded /\
       decoded !! "sub"%string = Some (JStr s)) ->
  datetime_min <= t0 + minutes 30 <= datetime_max ->
  t + second <= t0 + minutes 30 ->
  exists tok,
    login_for_access_token t0 "admin" "password123" = Ok tok /\
    token_type tok = "bearer"%string /\
    current_active_user t (access_token tok) = Ok admin_user /\
    forall A (endpoint : M A) w,
      authorized t (access_token tok) endpoint w = endpoint w.
Proof.
  intros Hverify Hvalid Hjwt Hrange Ht.
  rewrite (login_admin t0 "password123" Hverify Hrange).
  eexists. split; [reflexivity|]. split; [done|]. cbn [access_token].
  assert (Huser : current_active_user t
                    (jwt_encode
                       (<["exp"%string := JTime (t0 + minutes 30)]>
                          {[ "sub"%string := JStr "admin" ]})
                       SECRET_KEY ALGORITHM) = Ok admin_user).
  {
    destruct (Hjwt (<["exp"%string := JTime (t0 + minutes 30)]>
                      {[ "sub"%string := JStr "admin" ]})
                   "admin"%string (t0 + minutes 30) t) as (decoded & Hdec & Hsub).
    - by rewrite lookup_insert_ne, lookup_singleton_eq.
    - by rewrite lookup_insert_eq.
    - done.
    - unfold current_active_user, get_current_user. cbn zeta.
      rewrite Hdec, Hsub, Hvalid. cbn [mbind result_bind].
      by rewrite get_user_fake_users_db. }
  split; [done|]. intros A endpoint w. unfold authorized.
  by rewrite bind_lift_ignore, Huser.
Qed.

End AuthenticationFacts.

Lemma login_token_round_trip_witness :
  @pwd_verify plain_library "password123" (@admin_hash plain_library) = true /\
  datetime_min <= 0 + minutes 30 <= datetime_max /\
  0 + second <= 0 + minutes 30 /\
  exists tok,
    @login_for_access_token plain_library 0 "admin" "password123" = Ok tok /\
    @current_active_user plain_library 0 (access_token tok)
    = Ok (@admin_user plain_library).
Proof.
  assert (Hverify : @pwd_verify plain_library "password123" (@admin_hash plain_library)
                    = true) by reflexivity.
  assert (Hrange : datetime_min <= 0 + minutes 30 <= datetime_max)
    by (vm_compute; split; discriminate).
  assert (Ht : 0 + second <= 0 + minutes 30) by (vm_compute; discriminate).
  split; [exact Hverify|]. split; [exact Hrange|]. split; [exact Ht|].
  destruct (@login_token_round_trip plain_library 0 0 Hverify)
    as (tok & Hlogin & _ & Huser & _).
  - intros s. reflexivity.
  - intros payload s exp now Hsub _ _. eexists. split; [reflexivity|].
    cbn [jwt_encode plain_library]. rewrite Hsub. apply lookup_singleton_eq.
  - exact Hrange.
  - exact Ht.
  - exists tok. split; [exact Hlogin|exact Huser].
Defined.

(** ** The monthly series side by side *)

Lemma insert_sorted_keyed {B} (F : cell -> B) (k : cell) (l : list cell) :
  insert_sorted (fun a b : cell * B => cell_leb a.1 b.1) (k, F k)
    ((fun k => (k, F k)) <$> l)
  = (fun k => (k, F k)) <$> insert_sorted cell_leb k l.
Proof.
  induction l as [|y l IH]; [done|]. cbn.
  destruct (cell_leb k y); [done|]. cbn. by rewrite <- IH.
Qed.

Lemma sort_values_keyed {B} (F : cell -> B) (keys : list cell) :
  sort_values ((fun k => (k, F k)) <$> keys)
  = (fun k => (k, F k)) <$> stable_sort cell_leb keys.
Proof.
  unfold sort_values. induction keys as [|k keys IH]; [done|]. cbn.
  rewrite <- insert_sorted_keyed. f_equal. apply IH.
Qed.

Lemma select_mask_label_length {A B} (f : A -> cell) (g : A -> B) (k : cell)
    (l : list A) :
  length (select_mask (g <$> l) (label_mask k (f <$> l))) = occurrences k (f <$> l).
Proof.
  unfold occurrences, label_mask. induction l as [|x l IH]; [done|].
  rewrite !fmap_cons. cbn [select_mask]. case_bool_decide as Hk.
  - rewrite filter_cons_True by done. cbn. by rewrite IH.
  - by rewrite filter_cons_False.
Qed.

Lemma occurrences_pos (k : cell) (s : list cell) : k ∈ s -> (0 < occurrences k s)%nat.
Proof.
  intros Hk. unfold occurrences.
  assert (Hin : k ∈ filter (fun c => c = k) s) by (by apply list_elem_of_filter).
  destruct (filter _ s); [by apply elem_of_nil in Hin|cbn; lia].
Qed.



(** ** Breakdowns of a table that was just loaded *)

Lemma coerce_row_has_value (name : string) (r : gmap string cell) (c : cell) :
  name ≠ "Date"%string -> name ≠ "Total"%string -> name ≠ "Quantity"%string ->
  r !! name = Some c -> c ≠ CNaT ->
  isna (cell_at name (coerce_row r)) = false.
Proof.
  intros HD HT HQ Hr Hc. unfold cell_at.
  rewrite coerce_row_other, Hr by done. cbn. by destruct c.
Qed.



(** ** Leaving parameters out *)

Lemma row_matches_relaxes (q' q : Criteria) (r : gmap string cell) :
  relaxes q' q -> row_matches q r = true -> row_matches q' r = true.
Proof.
  intros (H1 & H2 & H3 & H4 & H5 & H6 & H7 & H8 & H9 & H10).
  unfold row_matches. rewrite !andb_true_iff.
  intros (((((((((M1 & M2) & M3) & M4) & M5) & M6) & M7) & M8) & M9) & M10).
  repeat split.
  - by destruct H1 as [-> | ->].
  - by destruct H2 as [-> | ->].
  - by destruct H3 as [-> | ->].
  - by destruct H4 as [-> | ->].
  - by destruct H5 as [-> | ->].
  - by destruct H6 as [-> | ->].
  - by destruct H9 as [-> | ->].
  - by destruct H10 as [-> | ->].
  - by destruct H7 as [-> | ->].
  - by destruct H8 as [-> | ->].
Qed.

Lemma filter_sublist_impl {A} (p p' : A -> bool) (l : list A) :
  (forall x, p x = true -> p' x = true) ->
  sublist (List.filter p l) (List.filter p' l).
Proof.
  intros Hp. induction l as [|x l IH]; [constructor|]. cbn.
  destruct (p x) eqn:Hx.
  - rewrite (Hp x Hx). by constructor.
  - destruct (p' x); [by constructor|done].
Qed.



(** ** Paging through the filtered rows *)



(** ** Adding a column that the options look up *)

Lemma unique_constant (v : cell) (l : list cell) :
  (forall x, x ∈ l -> x = v) -> unique l = match l with [] => [] | _ => [v] end.
Proof.
  induction l as [|x l IH]; intros Hl; [done|]. cbn.
  rewrite (Hl x) by left. f_equal.
  rewrite IH by (intros y Hy; apply Hl; by right).
  destruct l; [done|]. by rewrite filter_cons_False by (intros Hne; by apply Hne).
Qed.

Lemma filter_replicate_True (P : cell -> Prop) `{!forall x, Decision (P x)}
    (n : nat) (v : cell) :
  P v -> filter P (replicate n v) = replicate n v.
Proof.
  intros Hv. induction n as [|n IH]; [done|]. cbn [replicate].
  by rewrite filter_cons_True, IH.
Qed.

Lemma filter_replicate_False (P : cell -> Prop) `{!forall x, Decision (P x)}
    (n : nat) (v : cell) :
  ~ P v -> filter P (replicate n v) = [].
Proof.
  intros Hv. induction n as [|n IH]; [done|]. cbn [replicate].
  by rewrite filter_cons_False.
Qed.

Lemma column_values_setitem_scalar (name : string) (v : cell) (df : DataFrame) :
  column_values name (setitem_scalar name v df) = replicate (length (rows df)) v.
Proof.
  unfold column_values. cbn [rows setitem_scalar].
  induction (rows df) as [|r rs IH]; [done|]. cbn.
  by rewrite cell_at_insert_eq, <- IH.
Qed.

(** X26.  [add_column] under one of the seven categorical labels that the
    table did not have gives [get_filter_options] an entry for it: ["All"]
    followed by the default, or ["All"] alone when the default is the empty
    string (as when [default_value] is not passed) or the table has no
    row. *)
Theorem add_column_adds_option (w : World) (df : DataFrame) (name dflt : string) :
  heap w !! app_state_data w = Some df ->
  name ∉ columns df ->
  name ∈ categorical_columns ->
  exists msg w' opts,
    add_column name dflt w = (Ok msg, w') /\
    get_filter_options w' = (Ok opts, w') /\
    (name,
     if bool_decide (dflt = ""%string) || bool_decide (rows df = [])
     then [CStr "All"] else [CStr "All"; CStr dflt]) ∈ opts /\
    (forall opts0 vals, get_filter_options w = (Ok opts0, w) -> (name, vals) ∉ opts0).
Proof.
  intros Hdf Hfresh Hcat. eexists _, _, _. split; [by apply add_column_fresh|].
  set (w' := mkWorld _ _).
  assert (Hdf' : heap w' !! app_state_data w'
                 = Some (setitem_scalar name (CStr dflt) df))
    by apply lookup_insert_eq.
  rewrite (get_filter_options_run _ _ Hdf'), filter_options_value.
  split; [reflexivity|]. split.
  - apply list_elem_of_fmap. exists name. split.
    + f_equal. unfold options_for. rewrite column_values_setitem_scalar. f_equal.
      destruct (rows df) as [|r rs].
      * by rewrite orb_true_r.
      * rewrite (bool_decide_eq_false_2 (r :: rs = [])), orb_false_r by done.
        case_bool_decide as Hd.
        -- subst dflt. by rewrite filter_replicate_False by (intros Hne; by apply Hne).
        -- rewrite !filter_replicate_True by (done || congruence).
           rewrite (unique_constant (CStr dflt)); [done|].
           intros x Hx%elem_of_replicate. by destruct Hx.
    + apply elem_of_List_filter. split; [done|].
      apply has_column_true. cbn [columns setitem_scalar].
      apply elem_of_add_label. by left.
  - intros opts0 vals. rewrite (get_filter_options_run _ _ Hdf), filter_options_value.
    intros Hrun Hin.
    assert (Hopts : (fun c => (c, options_for c df))
                      <$> List.filter (fun c => has_column c df) categorical_columns
                    = opts0) by (cbn [or_500] in Hrun; congruence).
    rewrite <- Hopts in Hin. apply list_elem_of_fmap in Hin as (c & Hpair & Hc).
    assert (c = name) by congruence. subst c.
    apply elem_of_List_filter in Hc as [_ Hc]. by apply has_column_true in Hc.
Qed.

Lemma add_column_adds_option_witness :
  heap sample_world !! app_state_data sample_world = Some sample_frame /\
  ("Risk Level"%string ∉ columns sample_frame) /\
  ("Risk Level"%string ∈ categorical_columns) /\
  exists msg w' opts,
    add_column "Risk Level" "Low" sample_world = (Ok msg, w') /\
    get_filter_options w' = (Ok opts, w').
Proof.
  assert (H : heap sample_world !! app_state_data sample_world = Some sample_frame)
    by (vm_compute; reflexivity).
  assert (Hn : "Risk Level"%string ∉ columns sample_frame)
    by (apply has_column_false; vm_compute; reflexivity).
  assert (Hc : "Risk Level"%string ∈ categorical_columns)
    by (apply (bool_decide_unpack _); vm_compute; exact I).
  split; [exact H|]. split; [exact Hn|]. split; [exact Hc|].
  destruct (add_column_adds_option sample_world sample_frame "Risk Level" "Low" H Hn Hc)
    as (msg & w' & opts & Hadd & Hopts & _).
  exists msg, w', opts. split; [exact Hadd|exact Hopts].
Defined.
